(** * PDF reader server: the image characterizer and the page-range helper

    A shallow embedding of [src/image_analyzer.py] and of [get_page_range]
    and the image filter of [src/server.py]; further on, of the path and
    download helpers of [src/server.py] and of its tools [read_pdf_text]
    and [analyze_pdf_structure].

    Conventions.
    - Python [int] is [Z]; Python [float] is idealised as an exact rational
      [Q]: [+], [-], [*], [/] and comparisons are exact, and the square
      root taken inside [numpy.std] is a collaborator of the [world].
    - Python [str] is [string]; one [ascii] stands for one character
      (texts stay within Latin-1).
    - A [dict] is an association list in insertion order with unique keys.
    - A call that can raise returns [exc]; [Raise] carries [str(e)].
    - Everything outside the repository (PIL, numpy's random generator,
      Tesseract, the BLIP model, the file system) is a field of [world];
      what the tools on page text need (httpx, PyMuPDF documents,
      temporary files) is a field of [Pdf.pdf_world]. *)

From Stdlib Require Import ZArith QArith Qround Qabs List String Ascii Bool Lia Lqa.
From Stdlib Require Import DecimalString.
From Stdlib Require DecimalZ.
Import ListNotations.
Local Open Scope string_scope.
Local Open Scope Z_scope.

(** ** Exceptions *)

Inductive exc (A : Type) : Type :=
| Ok (a : A)
| Raise (msg : string).
Arguments Ok {A} a.
Arguments Raise {A} msg.

Definition exc_bind {A B} (m : exc A) (k : A -> exc B) : exc B :=
  match m with
  | Ok a => k a
  | Raise e => Raise e
  end.

Notation "'let?' x ':=' m 'in' k" := (exc_bind m (fun x => k))
  (at level 10, x pattern, m at level 100, k at level 200).

(** ** Exact arithmetic standing for float64 *)

(** [x < y] as a test. *)
Definition Qltb (x y : Q) : bool :=
  (Qnum x * QDen y <? Qnum y * QDen x)%Z.

(** Sums are kept in lowest terms so that they can be evaluated. *)
Definition Qsum (xs : list Q) : Q :=
  fold_right (fun x acc => Qred (x + acc)) 0%Q xs.

Definition of_nat_Q (n : nat) : Q := inject_Z (Z.of_nat n).

(** [a.mean()] of a flat array, in lowest terms *)
Definition mean (xs : list Q) : Q :=
  Qred (Qsum xs / of_nat_Q (List.length xs)).

(** The quantity under the square root of [a.std()]: the mean of the
    squared deviations from the mean (numpy's default [ddof=0]). *)
Definition variance (xs : list Q) : Q :=
  let m := mean xs in
  mean (map (fun x => ((x - m) * (x - m))%Q) xs).

(** The nearest integer, ties to the even one. *)
Definition round_half_even (q : Q) : Z :=
  let n := Qnum q in
  let d := QDen q in
  let f := n / d in
  match (2 * (n mod d)) ?= d with
  | Lt => f
  | Gt => f + 1
  | Eq => if Z.even f then f else f + 1
  end.

(** [round(x, ndigits)] of a float. *)
Definition py_round (x : Q) (ndigits : nat) : Q :=
  let p := Z.pow 10 (Z.of_nat ndigits) in
  Qred (Qmake (round_half_even (Qred (x * inject_Z p))) (Z.to_pos p)).

(** [int(x)] of a float: truncation toward zero. *)
Definition py_int (x : Q) : Z := Z.quot (Qnum x) (QDen x).

(** ** Python strings *)

Module Str.

(** The double-quote character. *)
Definition dquote : string := String (ascii_of_nat 34) EmptyString.

(** [str(z)] of an int. *)
Definition of_Z (z : Z) : string := NilZero.string_of_int (Z.to_int z).

(** [sep.join(parts)] *)
Fixpoint join (sep : string) (parts : list string) : string :=
  match parts with
  | [] => EmptyString
  | [p] => p
  | p :: rest => p ++ sep ++ join sep rest
  end.

(** [s[:n]] *)
Fixpoint take (n : nat) (s : string) : string :=
  match n, s with
  | S n', String c s' => String c (take n' s')
  | _, _ => EmptyString
  end.

(** [c.isspace()] for a character below 256. *)
Definition isspace (c : ascii) : bool :=
  let n := nat_of_ascii c in
  ((9 <=? n) && (n <=? 13) || (28 <=? n) && (n <=? 32)
   || (n =? 133) || (n =? 160))%nat.

Fixpoint lstrip (s : string) : string :=
  match s with
  | String c s' => if isspace c then lstrip s' else s
  | EmptyString => EmptyString
  end.

Fixpoint rstrip (s : string) : string :=
  match s with
  | String c s' =>
      match rstrip s' with
      | EmptyString => if isspace c then EmptyString else String c EmptyString
      | r => String c r
      end
  | EmptyString => EmptyString
  end.

(** [s.strip()] *)
Definition strip (s : string) : string := rstrip (lstrip s).

(** [s.split()]: the maximal runs of non-space characters. [cur] is the
    run being read, reversed. *)
Fixpoint split_aux (s : string) (cur : list ascii) : list string :=
  let flush :=
    match cur with
    | [] => []
    | _ => [string_of_list_ascii (rev cur)]
    end in
  match s with
  | EmptyString => flush
  | String c s' =>
      if isspace c then flush ++ split_aux s' []
      else split_aux s' (c :: cur)
  end.

Definition split (s : string) : list string := split_aux s [].

(** [c.lower()] for a character below 256. *)
Definition lower_char (c : ascii) : ascii :=
  let n := nat_of_ascii c in
  if ((65 <=? n) && (n <=? 90)
      || (192 <=? n) && (n <=? 222) && negb (n =? 215))%nat
  then ascii_of_nat (n + 32) else c.

(** [s.lower()] *)
Fixpoint lower (s : string) : string :=
  match s with
  | String c s' => String (lower_char c) (lower s')
  | EmptyString => EmptyString
  end.

(** [needle in hay] *)
Fixpoint contains (needle hay : string) : bool :=
  if String.prefix needle hay then true
  else match hay with
       | String _ hay' => contains needle hay'
       | EmptyString => false
       end.

End Str.

(** ** Python values *)

Module Py.

#[warnings="-register-all"]
Inductive pyval : Type :=
| PNone
| PBool (b : bool)
| PInt (z : Z)
| PFloat (q : Q)
| PStr (s : string)
| PList (l : list pyval)
| PDict (d : list (string * pyval)).

Definition dict := list (string * pyval).

(** [k in d] *)
Fixpoint dict_in (k : string) (d : dict) : bool :=
  match d with
  | [] => false
  | (k', _) :: d' => if String.eqb k k' then true else dict_in k d'
  end.

(** [d.get(k)], [None] when the key is absent *)
Fixpoint dict_get (k : string) (d : dict) : option pyval :=
  match d with
  | [] => None
  | (k', v) :: d' => if String.eqb k k' then Some v else dict_get k d'
  end.

(** [d.get(k, dflt)] *)
Definition dict_get_default (k : string) (dflt : pyval) (d : dict) : pyval :=
  match dict_get k d with
  | Some v => v
  | None => dflt
  end.

(** [v[k]] for a string key: [KeyError] on a dict without the key,
    [TypeError] on anything that is not a dict. *)
Definition getitem (v : pyval) (k : string) : exc pyval :=
  match v with
  | PDict d =>
      match dict_get k d with
      | Some x => Ok x
      | None => Raise k
      end
  | _ => Raise "TypeError: indices must be integers"
  end.

(** Truth value of an object, as [if v:] tests it. *)
Definition truthy (v : pyval) : bool :=
  match v with
  | PNone => false
  | PBool b => b
  | PInt z => negb (z =? 0)
  | PFloat q => negb (Qeq_bool q 0)
  | PStr s => negb (String.eqb s EmptyString)
  | PList l => match l with [] => false | _ => true end
  | PDict d => match d with [] => false | _ => true end
  end.

(** The numeric tower: [bool] is an [int], [int] widens to [float]. *)
Inductive num : Type :=
| NInt (z : Z)
| NFloat (q : Q).

Definition as_num (v : pyval) : option num :=
  match v with
  | PBool b => Some (NInt (if b then 1 else 0))
  | PInt z => Some (NInt z)
  | PFloat q => Some (NFloat q)
  | _ => None
  end.

Definition of_num (n : num) : pyval :=
  match n with
  | NInt z => PInt z
  | NFloat q => PFloat q
  end.

Definition num_Q (n : num) : Q :=
  match n with
  | NInt z => inject_Z z
  | NFloat q => q
  end.

(** [a - b] *)
Definition sub (a b : pyval) : exc pyval :=
  match as_num a, as_num b with
  | Some (NInt x), Some (NInt y) => Ok (PInt (x - y))
  | Some x, Some y => Ok (PFloat (Qred (num_Q x - num_Q y)))
  | _, _ => Raise "TypeError: unsupported operand type(s) for -"
  end.

(** [a < b] on numbers *)
Definition lt (a b : pyval) : exc bool :=
  match as_num a, as_num b with
  | Some x, Some y =>
      Ok (Qltb (num_Q x) (num_Q y))
  | _, _ => Raise "TypeError: '<' not supported"
  end.

(** [a > b] is [b < a] *)
Definition gt (a b : pyval) : exc bool := lt b a.

(** [min(a, b)]: the first argument unless the second is smaller. *)
Definition min2 (a b : pyval) : exc pyval :=
  let? c := lt b a in Ok (if c then b else a).

(** [max(a, b)]: the first argument unless the second is larger. *)
Definition max2 (a b : pyval) : exc pyval :=
  let? c := gt b a in Ok (if c then b else a).

End Py.
Import Py.

(** ** Images (PIL) and arrays (numpy) *)

Module Imaging.

(** The modes of the PNG files the server writes: gray or RGB, with or
    without alpha. *)
Inductive mode : Type := L | LA | RGB | RGBA.

Definition mode_name (m : mode) : string :=
  match m with
  | L => "L"
  | LA => "LA"
  | RGB => "RGB"
  | RGBA => "RGBA"
  end.

Definition bands (m : mode) : nat :=
  match m with
  | L => 1
  | LA => 2
  | RGB => 3
  | RGBA => 4
  end%nat.

Definition is_RGB (m : mode) : bool :=
  match m with
  | RGB => true
  | _ => false
  end.

(** An opened image. [Image.open] reads the header only; the pixel data
    is decoded on first use, which is where a damaged file raises.
    [img_load] is that decoding: the pixels in row-major order, each
    with one value in 0..255 per band. *)
Record image : Type := {
  img_format : option string;
  img_mode : mode;
  img_width : Z;
  img_height : Z;
  img_load : exc (list (list Z))
}.

(** One pixel through [convert("RGB")]: gray is replicated, alpha is
    dropped. *)
Definition convert_pixel (m : mode) (px : list Z) : list Z :=
  match m with
  | L | LA => let v := nth 0 px 0 in [v; v; v]
  | RGB => px
  | RGBA => firstn 3 px
  end.

(** [img.convert("RGB")] *)
Definition convert_RGB (img : image) : exc image :=
  let? px := img_load img in
  Ok {| img_format := None;
        img_mode := RGB;
        img_width := img_width img;
        img_height := img_height img;
        img_load := Ok (map (convert_pixel (img_mode img)) px) |}.

(** A uint8 array: its shape and its elements in C order. *)
Record ndarray : Type := {
  shape : list nat;
  data : list Z
}.

(** [np.array(img)]: height x width for mode L, height x width x bands
    otherwise. *)
Definition np_array (img : image) : exc ndarray :=
  let? px := img_load img in
  let h := Z.to_nat (img_height img) in
  let w := Z.to_nat (img_width img) in
  Ok {| shape := match img_mode img with
                 | L => [h; w]
                 | m => [h; w; bands m]
                 end;
        data := List.concat px |}.

(** [a.reshape(-1, c)]: the rows of [c] consecutive elements. *)
Fixpoint rows_of (fuel c : nat) (xs : list Z) : list (list Z) :=
  match fuel, xs with
  | S fuel', _ :: _ => firstn c xs :: rows_of fuel' c (skipn c xs)
  | _, _ => []
  end.

Definition reshape_rows (c : nat) (xs : list Z) : list (list Z) :=
  rows_of (List.length xs) c xs.

(** Column [k] of a 2-D array given by its rows, as floats. *)
Definition column (k : nat) (rows : list (list Z)) : list Q :=
  map (fun r => inject_Z (nth k r 0)) rows.

(** [rows[idx]] with an index array: [IndexError] when an index is out
    of bounds. *)
Fixpoint take_rows (rows : list (list Z)) (idx : list nat)
  : exc (list (list Z)) :=
  match idx with
  | [] => Ok []
  | i :: idx' =>
      match nth_error rows i with
      | Some r => let? rest := take_rows rows idx' in Ok (r :: rest)
      | None => Raise "index out of bounds"
      end
  end.

(** [np.argmax] of one row: the first index holding the maximum. *)
Fixpoint argmax_from (xs : list Q) (i : nat) (best : Q) (besti : nat) : nat :=
  match xs with
  | [] => besti
  | x :: xs' =>
      if Qltb best x then argmax_from xs' (S i) x i
      else argmax_from xs' (S i) best besti
  end.

Definition argmax (xs : list Q) : nat :=
  match xs with
  | [] => 0%nat
  | x :: xs' => argmax_from xs' 1 x 0
  end.

(** [np.sum(a == k)] *)
Definition count_eq (k : nat) (a : list nat) : nat :=
  List.length (filter (Nat.eqb k) a).

(** [np.dot(a[..., :3], [w0, w1, w2])] on the pixel rows of [a]:
    [ValueError] when a pixel has fewer than three channels. *)
Fixpoint dot3 (rows : list (list Z)) (w0 w1 w2 : Q) : exc (list Q) :=
  match rows with
  | [] => Ok []
  | r :: rows' =>
      match firstn 3 r with
      | [a; b; c] =>
          let? rest := dot3 rows' w0 w1 w2 in
          Ok ((inject_Z a * w0 + inject_Z b * w1 + inject_Z c * w2)%Q :: rest)
      | _ => Raise "shapes not aligned"
      end
  end.

End Imaging.
Import Imaging.

(** ** The world outside the repository *)

(** A loaded processor or model object. *)
Definition handle : Type := nat.

(** A [fitz.Pixmap]: only what the server reads of it. *)
Record pixmap : Type := {
  pix_width : Z;
  pix_height : Z;
  pix_n : Z;
  pix_alpha : Z
}.

Record world : Type := {
  (** numpy and the interpreter *)
  np_sqrt : Q -> Q;
  random_choice : nat -> nat -> list nat;
  float_repr : Q -> string;
  container_repr : Py.pyval -> string;
  (** the operating system; [os.listdir] raises nothing but [OSError],
      which is what line 53 catches *)
  path_exists : string -> bool;
  which : string -> option string;
  platform_system : string;
  getenv : string -> option string;
  listdir : string -> exc (list string);
  path_join : list string -> string;
  stat_size : string -> exc Z;
  write_file : string -> string -> exc unit;
  (** PIL *)
  image_open : string -> exc image;
  (** Tesseract, run through the configured command *)
  get_tesseract_version : string -> exc string;
  image_to_string : string -> image -> string -> exc string;
  (** transformers and torch; a load is indexed by the number of loads
      attempted before it, so that two attempts may end differently *)
  VISION_MODEL_AVAILABLE : bool;
  processor_from_pretrained : nat -> string -> exc handle;
  model_from_pretrained : nat -> string -> exc handle;
  cuda_is_available : bool;
  model_to : nat -> handle -> string -> exc unit;
  model_eval : nat -> handle -> exc unit;
  generate_caption : handle -> handle -> string -> image -> exc string;
  (** PyMuPDF *)
  new_pixmap : Z -> exc pixmap;
  pixmap_to_rgb : pixmap -> exc pixmap;
  pixmap_png : pixmap -> exc string
}.

(** ** [image_analyzer.py] *)

Module Analyzer.

(** The module-level globals, and one ghost counter: the number of
    model loads attempted so far. *)
Record pstate : Type := {
  tesseract_cmd : string;
  _vision_processor : option handle;
  _vision_model : option handle;
  _vision_model_loaded : bool;
  load_attempts : nat
}.

(** Code that reads and writes the globals and may raise. A raise keeps
    the assignments made before it. *)
Definition M (A : Type) : Type := pstate -> exc A * pstate.

Definition ret {A} (a : A) : M A := fun s => (Ok a, s).

Definition bind {A B} (m : M A) (k : A -> M B) : M B :=
  fun s =>
    match m s with
    | (Ok a, s') => k a s'
    | (Raise e, s') => (Raise e, s')
    end.

Definition lift {A} (e : exc A) : M A := fun s => (e, s).

Definition get_state : M pstate := fun s => (Ok s, s).

Definition modify (f : pstate -> pstate) : M unit := fun s => (Ok tt, f s).

(** [try: body except Exception as e: handler(e)] *)
Definition try_except {A} (body : M A) (handler : string -> M A) : M A :=
  fun s =>
    match body s with
    | (Ok a, s') => (Ok a, s')
    | (Raise e, s') => handler e s'
    end.

Notation "x <- m ;; k" := (bind m (fun x => k))
  (at level 61, m at next level, right associativity).
Notation "m ;;; k" := (bind m (fun _ => k))
  (at level 61, right associativity).

Definition set_tesseract_cmd (p : string) (s : pstate) : pstate :=
  {| tesseract_cmd := p;
     _vision_processor := _vision_processor s;
     _vision_model := _vision_model s;
     _vision_model_loaded := _vision_model_loaded s;
     load_attempts := load_attempts s |}.

Definition set_vision_processor (h : handle) (s : pstate) : pstate :=
  {| tesseract_cmd := tesseract_cmd s;
     _vision_processor := Some h;
     _vision_model := _vision_model s;
     _vision_model_loaded := _vision_model_loaded s;
     load_attempts := load_attempts s |}.

Definition set_vision_model (h : handle) (s : pstate) : pstate :=
  {| tesseract_cmd := tesseract_cmd s;
     _vision_processor := _vision_processor s;
     _vision_model := Some h;
     _vision_model_loaded := _vision_model_loaded s;
     load_attempts := load_attempts s |}.

Definition set_vision_model_loaded (b : bool) (s : pstate) : pstate :=
  {| tesseract_cmd := tesseract_cmd s;
     _vision_processor := _vision_processor s;
     _vision_model := _vision_model s;
     _vision_model_loaded := b;
     load_attempts := load_attempts s |}.

Definition count_load_attempt (s : pstate) : pstate :=
  {| tesseract_cmd := tesseract_cmd s;
     _vision_processor := _vision_processor s;
     _vision_model := _vision_model s;
     _vision_model_loaded := _vision_model_loaded s;
     load_attempts := S (load_attempts s) |}.

(** The locals of [analyze_image_basic] that its colour analysis
    assigns. *)
Record stats : Type := {
  avg_color : option (list Q);
  dominant_color_type : string;
  is_likely_text : bool;
  is_colorful : bool;
  brightness : option Q;
  is_bright : bool;
  is_dark : bool;
  dominant_hue : string
}.

(** Lines 190-197. *)
Definition initial_stats : stats :=
  {| avg_color := None;
     dominant_color_type := "unknown";
     is_likely_text := false;
     is_colorful := false;
     brightness := None;
     is_bright := false;
     is_dark := false;
     dominant_hue := "unknown" |}.

Definition set_avg_color (v : list Q) (st : stats) : stats :=
  {| avg_color := Some v;
     dominant_color_type := dominant_color_type st;
     is_likely_text := is_likely_text st;
     is_colorful := is_colorful st;
     brightness := brightness st;
     is_bright := is_bright st;
     is_dark := is_dark st;
     dominant_hue := dominant_hue st |}.

Definition set_is_colorful (b : bool) (st : stats) : stats :=
  {| avg_color := avg_color st;
     dominant_color_type := dominant_color_type st;
     is_likely_text := is_likely_text st;
     is_colorful := b;
     brightness := brightness st;
     is_bright := is_bright st;
     is_dark := is_dark st;
     dominant_hue := dominant_hue st |}.

(** [brightness = ...; is_bright = brightness > 180;
    is_dark = brightness < 75] *)
Definition set_brightness (b : Q) (st : stats) : stats :=
  {| avg_color := avg_color st;
     dominant_color_type := dominant_color_type st;
     is_likely_text := is_likely_text st;
     is_colorful := is_colorful st;
     brightness := Some b;
     is_bright := Qltb 180 b;
     is_dark := Qltb b 75;
     dominant_hue := dominant_hue st |}.

Definition set_color_type (ty hue : string) (st : stats) : stats :=
  {| avg_color := avg_color st;
     dominant_color_type := ty;
     is_likely_text := is_likely_text st;
     is_colorful := is_colorful st;
     brightness := brightness st;
     is_bright := is_bright st;
     is_dark := is_dark st;
     dominant_hue := hue |}.

Definition set_is_likely_text (b : bool) (st : stats) : stats :=
  {| avg_color := avg_color st;
     dominant_color_type := dominant_color_type st;
     is_likely_text := b;
     is_colorful := is_colorful st;
     brightness := brightness st;
     is_bright := is_bright st;
     is_dark := is_dark st;
     dominant_hue := dominant_hue st |}.

(** How a stretch of the colour analysis ends: normally, or by a raise
    that leaves the locals as they were at that point. *)
Inductive outcome : Type :=
| Done (st : stats)
| Failed (st : stats) (msg : string).

Definition nonempty (s : string) : bool := negb (String.eqb s EmptyString).

(** The cap on the number of sampled pixels (line 218). *)
Definition max_sample : nat := Z.to_nat 10000.

Section WithWorld.

Variable w : world.

(** [_find_tesseract_executable()] *)
Definition _find_tesseract_executable : option string :=
  let tesseract_path := which w "tesseract" in
  if match tesseract_path with Some p => nonempty p | None => false end
  then tesseract_path
  else if String.eqb (platform_system w) "Windows" then
    let username :=
      match getenv w "USERNAME" with Some u => u | None => EmptyString end in
    let common_paths :=
      [ "C:\Program Files\Tesseract-OCR\tesseract.exe";
        "C:\Program Files (x86)\Tesseract-OCR\tesseract.exe";
        "C:\Users\" ++ username
          ++ "\AppData\Local\Programs\Tesseract-OCR\tesseract.exe";
        "C:\ProgramData\chocolatey\bin\tesseract.exe" ] in
    let choco_lib :=
      match getenv w "ChocolateyInstall" with
      | Some c => c
      | None => "C:\ProgramData\chocolatey"
      end in
    let choco_lib_path := path_join w [choco_lib; "lib"] in
    let common_paths :=
      if path_exists w choco_lib_path then
        match listdir w choco_lib_path with
        | Ok items =>
            (common_paths ++
             filter (path_exists w)
               (map (fun item =>
                       path_join w [choco_lib_path; item; "tools"; "tesseract.exe"])
                  (filter (fun item => Str.contains "tesseract" (Str.lower item))
                     items)))%list
        | Raise _ => common_paths
        end
      else common_paths in
    find (path_exists w) common_paths
  else None.

(** Lines 65-72, run once when the module is imported. *)
Definition module_init (s : pstate) : pstate :=
  if nonempty (tesseract_cmd s) then s
  else match _find_tesseract_executable with
       | Some p => if nonempty p then set_tesseract_cmd p s else s
       | None => s
       end.

Definition ocr_failure (msg : string) : dict :=
  [ ("ocr_text", PStr EmptyString);
    ("has_text", PBool false);
    ("error", PStr msg) ].

(** Lines 136-165: the OCR itself. *)
Definition ocr_run (image_path ocr_language : string) : M dict :=
  try_except
    (s <- get_state ;;
     img <- lift (image_open w image_path) ;;
     if (img_width img <? 50) || (img_height img <? 50) then
       ret (ocr_failure "Image too small for OCR")
     else
       raw <- lift (image_to_string w (tesseract_cmd s) img ocr_language) ;;
       let ocr_text := Str.strip raw in
       ret [ ("ocr_text", PStr ocr_text);
             ("has_text", PBool (nonempty ocr_text));
             ("word_count",
               PInt (if nonempty ocr_text
                     then Z.of_nat (List.length (Str.split ocr_text))
                     else 0));
             ("character_count", PInt (Z.of_nat (String.length ocr_text))) ])
    (fun e => ret (ocr_failure e)).

(** Lines 109-134: the version check, with one re-detection. *)
Definition ocr_checked (image_path ocr_language : string) : M dict :=
  s <- get_state ;;
  match get_tesseract_version w (tesseract_cmd s) with
  | Ok _ => ocr_run image_path ocr_language
  | Raise e =>
      match _find_tesseract_executable with
      | Some p =>
          if nonempty p && path_exists w p then
            modify (set_tesseract_cmd p) ;;;
            match get_tesseract_version w p with
            | Ok _ => ocr_run image_path ocr_language
            | Raise e2 => ret (ocr_failure ("Tesseract not working: " ++ e2))
            end
          else ret (ocr_failure ("Tesseract not working: " ++ e))
      | None => ret (ocr_failure ("Tesseract not working: " ++ e))
      end
  end.

(** [analyze_image_ocr(image_path, ocr_language)] *)
Definition analyze_image_ocr (image_path ocr_language : string) : M dict :=
  s <- get_state ;;
  if negb (nonempty (tesseract_cmd s)) || negb (path_exists w (tesseract_cmd s))
  then
    match _find_tesseract_executable with
    | Some p =>
        if nonempty p && path_exists w p then
          modify (set_tesseract_cmd p) ;;;
          ocr_checked image_path ocr_language
        else ret (ocr_failure "Tesseract not installed or not in PATH")
    | None => ret (ocr_failure "Tesseract not installed or not in PATH")
    end
  else ocr_checked image_path ocr_language.

(** Lines 209-255: average colour, colourfulness, brightness and hue. *)
Definition color_block (img_array : ndarray) (st : stats) : outcome :=
  if (List.length (shape img_array) =? 3)%nat then
    let c := nth 2 (shape img_array) 0%nat in
    let pixels := reshape_rows c (data img_array) in
    let st := set_avg_color (map (fun k => mean (column k pixels)) (seq 0 c)) st in
    let sample_size := Nat.min max_sample (List.length pixels) in
    let sample_indices := random_choice w (List.length pixels) sample_size in
    match take_rows pixels sample_indices with
    | Raise e => Failed st e
    | Ok sample_pixels =>
        let color_variance :=
          mean (map (fun k => np_sqrt w (variance (column k sample_pixels)))
                  (seq 0 c)) in
        let st := set_is_colorful (Qltb 30 color_variance) st in
        let st :=
          set_brightness (mean (map inject_Z (List.concat sample_pixels))) st in
        if (c =? 3)%nat then
          let hsv_pixels :=
            map (map (fun v => (inject_Z v / 255)%Q)) sample_pixels in
          let max_channel := map argmax hsv_pixels in
          let len := of_nat_Q (List.length max_channel) in
          let red_dominant := (of_nat_Q (count_eq 0 max_channel) / len)%Q in
          let green_dominant := (of_nat_Q (count_eq 1 max_channel) / len)%Q in
          let blue_dominant := (of_nat_Q (count_eq 2 max_channel) / len)%Q in
          Done (set_color_type "color"
                  (if Qltb (4 # 10) red_dominant then "red"
                   else if Qltb (4 # 10) green_dominant then "green"
                   else if Qltb (4 # 10) blue_dominant then "blue"
                   else "mixed") st)
        else if (c =? 4)%nat then
          Done (set_color_type "color_with_alpha" "mixed" st)
        else
          Done (set_color_type "unknown" "unknown" st)
    end
  else
    let m := mean (map inject_Z (data img_array)) in
    Done (set_color_type "grayscale" "grayscale"
            (set_brightness m (set_is_colorful false (set_avg_color [m] st)))).

(** Lines 257-266: the text-likelihood flag. *)
Definition text_block (img_array : ndarray) (st : stats) : outcome :=
  let ndim := List.length (shape img_array) in
  if ((ndim =? 2) || (ndim =? 3) && (nth 2 (shape img_array) 0 =? 1))%nat then
    let a := map inject_Z (data img_array) in
    let contrast := np_sqrt w (variance a) in
    Done (set_is_likely_text (Qltb 50 contrast && Qltb (mean a) 128) st)
  else
    let pixels := reshape_rows (nth 2 (shape img_array) 0%nat) (data img_array) in
    match dot3 pixels (2989 # 10000) (5870 # 10000) (1140 # 10000) with
    | Raise e => Failed st e
    | Ok gray =>
        let contrast := np_sqrt w (variance gray) in
        Done (set_is_likely_text (Qltb 50 contrast && Qltb (mean gray) 128) st)
    end.

(** Lines 200-273: the inner [try]. Its handler only logs, so the locals
    come out as they stood when the raise happened. *)
Definition color_analysis (img : image) (st : stats) : stats :=
  match (if is_RGB (img_mode img) then Ok img else convert_RGB img) with
  | Raise _ => st
  | Ok img_rgb =>
      match np_array img_rgb with
      | Raise _ => st
      | Ok img_array =>
          match color_block img_array st with
          | Failed st' _ => st'
          | Done st' =>
              match text_block img_array st' with
              | Failed st'' _ => st''
              | Done st'' => st''
              end
          end
      end
  end.

(** Lines 278-296: the result dictionary. *)
Definition basic_result (width height : Z) (img_format color_mode : string)
    (file_size : Z) (st : stats) : dict :=
  [ ("dimensions", PDict [("width", PInt width); ("height", PInt height)]);
    ("format", PStr img_format);
    ("color_mode", PStr color_mode);
    ("file_size_bytes", PInt file_size);
    ("file_size_kb", PFloat (py_round (inject_Z file_size / 1024) 2));
    ("aspect_ratio",
      if height >? 0
      then PFloat (py_round (inject_Z width / inject_Z height) 2)
      else PInt 0);
    ("is_likely_text", PBool (is_likely_text st));
    ("dominant_color_type", PStr (dominant_color_type st));
    ("average_color_rgb",
      match avg_color st with
      | Some (c :: cs) => PList (map (fun x => PInt (py_int x)) (c :: cs))
      | _ => PNone
      end);
    ("is_colorful", PBool (is_colorful st));
    ("brightness",
      match brightness st with
      | Some b => PFloat (py_round b 1)
      | None => PNone
      end);
    ("is_bright", PBool (is_bright st));
    ("is_dark", PBool (is_dark st));
    ("dominant_hue", PStr (dominant_hue st)) ].

(** [img.format or "unknown"] (line 181) *)
Definition format_or_unknown (img : image) : string :=
  match img_format img with
  | Some f => if nonempty f then f else "unknown"
  | None => "unknown"
  end.

(** [analyze_image_basic(image_path)] *)
Definition analyze_image_basic (image_path : string) : exc dict :=
  match
    (let? img := image_open w image_path in
     let img_format := format_or_unknown img in
     let color_mode := mode_name (img_mode img) in
     let st := color_analysis img initial_stats in
     let? file_size := stat_size w image_path in
     Ok (basic_result (img_width img) (img_height img) img_format color_mode
           file_size st))
  with
  | Ok result => Ok result
  | Raise e => Ok [("error", PStr e)]
  end.

(** [load_vision_model(model_name)] *)
Definition load_vision_model (model_name : string) : M bool :=
  if negb (VISION_MODEL_AVAILABLE w) then ret false
  else
    s <- get_state ;;
    if _vision_model_loaded s then ret true
    else
      try_except
        (let t := load_attempts s in
         modify count_load_attempt ;;;
         p <- lift (processor_from_pretrained w t model_name) ;;
         modify (set_vision_processor p) ;;;
         m <- lift (model_from_pretrained w t model_name) ;;
         modify (set_vision_model m) ;;;
         let device := if cuda_is_available w then "cuda" else "cpu" in
         lift (model_to w t m device) ;;;
         lift (model_eval w t m) ;;;
         modify (set_vision_model_loaded true) ;;;
         ret true)
        (fun _ => ret false).

Definition vision_failure (msg : string) : dict :=
  [ ("vision_description", PStr EmptyString); ("error", PStr msg) ].

(** [analyze_image_vision(image_path, model_name)] *)
Definition analyze_image_vision (image_path model_name : string) : M dict :=
  loaded <- load_vision_model model_name ;;
  if negb loaded then ret (vision_failure "Vision model not available")
  else
    try_except
      (img <- lift (image_open w image_path) ;;
       img <- lift (if is_RGB (img_mode img) then Ok img else convert_RGB img) ;;
       s <- get_state ;;
       match _vision_processor s, _vision_model s with
       | Some p, Some m =>
           let device := if cuda_is_available w then "cuda" else "cpu" in
           caption <- lift (generate_caption w p m device img) ;;
           ret [ ("vision_description", PStr caption);
                 ("has_description", PBool (nonempty caption));
                 ("model_used", PStr model_name) ]
       | _, _ => lift (Raise "'NoneType' object is not callable")
       end)
      (fun e => ret (vision_failure e)).

(** [str(v)], as an f-string renders a value. *)
Definition py_str (v : pyval) : string :=
  match v with
  | PNone => "None"
  | PBool b => if b then "True" else "False"
  | PInt z => Str.of_Z z
  | PFloat q => float_repr w q
  | PStr s => s
  | _ => container_repr w v
  end.

(** [f"{v:.0f}"]: numbers only; ties go to the even integer. *)
Definition format_0f (v : pyval) : exc string :=
  match as_num v with
  | Some n =>
      let r := round_half_even (num_Q n) in
      Ok (if (r =? 0) && Qltb (num_Q n) 0 then "-0" else Str.of_Z r)
  | None => Raise "unsupported format string"
  end.

(** [v != s] for a string [s]. *)
Definition ne_str (v : pyval) (s : string) : bool :=
  match v with
  | PStr x => negb (String.eqb x s)
  | _ => true
  end.

(** Lines 439-448. *)
Definition orientation_clause (basic_info : dict) : exc (list string) :=
  if dict_in "dimensions" basic_info then
    let? dims := getitem (PDict basic_info) "dimensions" in
    let aspect_ratio := dict_get_default "aspect_ratio" (PInt 0) basic_info in
    let? wide := gt aspect_ratio (PFloat 2) in
    let? orientation_desc :=
      if wide then Ok "wide, panoramic"
      else
        let? tall := lt aspect_ratio (PFloat (6 # 10)) in
        Ok (if tall then "tall, portrait-oriented" else "standard") in
    let? width := getitem dims "width" in
    let? height := getitem dims "height" in
    Ok [ "This is a " ++ orientation_desc ++ " image (" ++ py_str width
           ++ "x" ++ py_str height ++ " pixels)" ]
  else Ok [].

(** Lines 451-456. *)
Definition hue_clause (basic_info : dict) : list string :=
  match dict_get "dominant_hue" basic_info with
  | Some hue =>
      if ne_str hue "unknown" then
        if ne_str hue "grayscale" && ne_str hue "mixed" then
          [ "The image has a " ++ py_str hue ++ "-dominant color palette" ]
        else if negb (ne_str hue "grayscale") then
          [ "The image is grayscale" ]
        else []
      else []
  | None => []
  end.

(** Lines 458-462. *)
Definition colorful_clause (basic_info : dict) : list string :=
  match dict_get "is_colorful" basic_info with
  | Some v =>
      if truthy v then [ "The image is colorful with varied hues" ]
      else [ "The image has a more monochromatic or muted color scheme" ]
  | None => []
  end.

(** Lines 464-471. *)
Definition brightness_clause (basic_info : dict) : exc (list string) :=
  match dict_get "brightness" basic_info with
  | None | Some PNone => Ok []
  | Some brightness =>
      if truthy (dict_get_default "is_bright" (PBool false) basic_info) then
        Ok [ "The image is bright and well-lit" ]
      else if truthy (dict_get_default "is_dark" (PBool false) basic_info) then
        Ok [ "The image is dark or dimly lit" ]
      else
        let? b := format_0f brightness in
        Ok [ "The image has moderate brightness (average: " ++ b ++ "/255)" ]
  end.

(** Lines 474-477. *)
Definition text_clause (basic_info : dict) : list string :=
  if truthy (dict_get_default "is_likely_text" (PBool false) basic_info) then
    [ "The image appears to contain primarily text content" ]
  else
    [ "The image appears to be a visual/graphical element rather than text-based" ].

(** Lines 484-487: [len(ocr_text) > 200], the slice and the [+]. Only a
    string can take the long branch without a [TypeError]. *)
Definition ocr_preview (ocr_text : pyval) : exc string :=
  match ocr_text with
  | PStr t =>
      if (200 <? String.length t)%nat then Ok (Str.take 200 t ++ "...")
      else Ok t
  | PList l =>
      if (200 <? List.length l)%nat
      then Raise "TypeError: can only concatenate list to list"
      else Ok (py_str ocr_text)
  | PDict d =>
      if (200 <? List.length d)%nat
      then Raise "TypeError: unhashable type: 'slice'"
      else Ok (py_str ocr_text)
  | _ => Raise "TypeError: object has no len()"
  end.

(** Lines 480-488. *)
Definition ocr_clause (ocr_result : dict) : exc (list string) :=
  if truthy (dict_get_default "has_text" PNone ocr_result) then
    let ocr_text := dict_get_default "ocr_text" (PStr EmptyString) ocr_result in
    if truthy ocr_text then
      let? preview := ocr_preview ocr_text in
      Ok [ "The image contains the following text: " ++ Str.dquote ++ preview
             ++ Str.dquote ]
    else Ok []
  else Ok [].

(** Lines 491-497. *)
Definition vision_clause (use_vision : bool) (vision_result : dict)
  : list string :=
  if use_vision && truthy (dict_get_default "has_description" PNone vision_result)
  then
    let vision_desc :=
      dict_get_default "vision_description" (PStr EmptyString) vision_result in
    if truthy vision_desc then [ "Content description: " ++ py_str vision_desc ]
    else []
  else if use_vision && truthy (dict_get_default "error" PNone vision_result)
  then [ "(Vision model analysis was requested but unavailable)" ]
  else [].

(** Lines 436-497: [description_parts], in the order of the appends. *)
Definition description_parts (use_vision : bool)
    (ocr_result basic_info vision_result : dict) : exc (list string) :=
  let? orientation := orientation_clause basic_info in
  let? bright := brightness_clause basic_info in
  let? ocr := ocr_clause ocr_result in
  Ok (orientation ++ hue_clause basic_info ++ colorful_clause basic_info
        ++ bright ++ text_clause basic_info ++ ocr
        ++ vision_clause use_vision vision_result)%list.

(** Lines 500-503. *)
Definition join_description (parts : list string) : string :=
  match parts with
  | [] => "Image analysis completed. This appears to be a visual image with the dimensions and color characteristics described above."
  | _ => Str.join ". " parts ++ "."
  end.

(** Lines 505-515: the dictionary returned. *)
Definition hybrid_result (use_vision : bool)
    (ocr_result basic_info vision_result : dict) (description : string) : dict :=
  [ ("ocr_text", dict_get_default "ocr_text" (PStr EmptyString) ocr_result);
    ("basic_info", PDict basic_info);
    ("vision_description",
      if use_vision
      then dict_get_default "vision_description" (PStr EmptyString)
             vision_result
      else PNone);
    ("description", PStr description);
    ("analysis_summary",
      PDict
        [ ("has_text", dict_get_default "has_text" (PBool false) ocr_result);
          ("has_vision_description",
            if use_vision
            then dict_get_default "has_description" (PBool false) vision_result
            else PBool false);
          ("is_likely_text",
            dict_get_default "is_likely_text" (PBool false) basic_info) ]) ].

(** [analyze_image_hybrid(image_path, use_vision, ocr_language,
    vision_model_name)] *)
Definition analyze_image_hybrid (image_path : string) (use_vision : bool)
    (ocr_language vision_model_name : string) : M dict :=
  ocr_result <- analyze_image_ocr image_path ocr_language ;;
  basic_info <- lift (analyze_image_basic image_path) ;;
  vision_result <-
    (if use_vision then analyze_image_vision image_path vision_model_name
     else ret []) ;;
  parts <- lift (description_parts use_vision ocr_result basic_info
                   vision_result) ;;
  ret (hybrid_result use_vision ocr_result basic_info vision_result
         (join_description parts)).

End WithWorld.

(** The dictionary of a successful OCR run (lines 153-158). *)
Definition ocr_success (t : string) : dict :=
  [ ("ocr_text", PStr t);
    ("has_text", PBool (nonempty t));
    ("word_count",
      PInt (if nonempty t then Z.of_nat (List.length (Str.split t)) else 0));
    ("character_count", PInt (Z.of_nat (String.length t))) ].

(** The dictionary of a successful caption (lines 392-396). *)
Definition vision_success (caption model_name : string) : dict :=
  [ ("vision_description", PStr caption);
    ("has_description", PBool (nonempty caption));
    ("model_used", PStr model_name) ].

Inductive ocr_shape : dict -> Prop :=
| ocr_shape_failure msg : ocr_shape (ocr_failure msg)
| ocr_shape_success t : ocr_shape (ocr_success t).

Inductive vision_shape : dict -> Prop :=
| vision_shape_failure msg : vision_shape (vision_failure msg)
| vision_shape_success c m : vision_shape (vision_success c m).

Inductive basic_shape : dict -> Prop :=
| basic_shape_error e : basic_shape [("error", PStr e)]
| basic_shape_result width height fmt cm size st :
    basic_shape (basic_result width height fmt cm size st).

(** *** Vocabulary for the statements about the colour analysis *)

(** Every pixel has one value per band of the mode. *)
Definition wf_pixels (m : mode) (px : list (list Z)) : Prop :=
  Forall (fun p => List.length p = bands m) px.

(** The pixels after [convert("RGB")]. *)
Definition rgb_pixels (m : mode) (px : list (list Z)) : list (list Z) :=
  map (convert_pixel m) px.

(** The sample indices the random generator hands out for [n] pixels. *)
Definition sample_of (w : world) (n : nat) : list nat :=
  random_choice w n (Nat.min max_sample n).

(** What [numpy.random.choice] promises of them that matters here: at
    least one index, all within bounds. *)
Definition valid_sample (n : nat) (idx : list nat) : Prop :=
  idx <> [] /\ Forall (fun i => (i < n)%nat) idx.

(** The rows picked by an index array. *)
Definition pick (rows : list (list Z)) (idx : list nat) : list (list Z) :=
  map (fun i => nth i rows []) idx.

(** The gray value line 264 gives an RGB pixel. *)
Definition luminance (p : list Z) : Q :=
  let r := inject_Z (nth 0 p 0) in
  let g := inject_Z (nth 1 p 0) in
  let b := inject_Z (nth 2 p 0) in
  (r * (2989 # 10000) + g * (5870 # 10000) + b * (1140 # 10000))%Q.

(** The channel that wins a pixel: the first one holding the maximum. *)
Definition winner (p : list Z) : nat :=
  let r := nth 0 p 0 in
  let g := nth 1 p 0 in
  let b := nth 2 p 0 in
  if (g <=? r) && (b <=? r) then 0%nat
  else if b <=? g then 1%nat
  else 2%nat.

(** The number of pixels of [smp] that channel [k] wins. *)
Definition wins (k : nat) (smp : list (list Z)) : nat :=
  count_eq k (map winner smp).

(** The hue label from the winning counts: a channel is named when it
    wins more than 0.4 of the [n] pixels, that is when [2 n < 5 count];
    red is asked first, then green, then blue. *)
Definition hue_of_wins (n red green blue : nat) : string :=
  if (2 * n <? 5 * red)%nat then "red"
  else if (2 * n <? 5 * green)%nat then "green"
  else if (2 * n <? 5 * blue)%nat then "blue"
  else "mixed".

(** The locals the colour analysis ends with on RGB pixels [rgb] sampled
    as [smp]. *)
Definition rgb_stats (w : world) (rgb smp : list (list Z)) : stats :=
  let b := mean (map inject_Z (List.concat smp)) in
  let gray := map luminance rgb in
  {| avg_color := Some (map (fun k => mean (column k rgb)) [0; 1; 2]%nat);
     dominant_color_type := "color";
     is_likely_text :=
       Qltb 50 (np_sqrt w (variance gray)) && Qltb (mean gray) 128;
     is_colorful :=
       Qltb 30
         (mean (map (fun k => np_sqrt w (variance (column k smp)))
                  [0; 1; 2]%nat));
     brightness := Some b;
     is_bright := Qltb 180 b;
     is_dark := Qltb b 75;
     dominant_hue :=
       hue_of_wins (List.length smp) (wins 0 smp) (wins 1 smp) (wins 2 smp) |}.

(** The name of channel [k] as a hue label. *)
Definition channel_name (k : nat) : string :=
  match k with
  | 0%nat => "red"
  | 1%nat => "green"
  | _ => "blue"
  end.

(** The fraction of the sampled pixels that channel [k] wins. *)
Definition win_fraction (k : nat) (smp : list (list Z)) : Q :=
  (of_nat_Q (wins k smp) / of_nat_Q (List.length smp))%Q.

(** C6 as the specification states it, for the image at [path]: each of
    red, green and blue is the label exactly when its own winning
    fraction exceeds 0.4. *)
Definition hue_iff_own_fraction (w : world) (path : string) : Prop :=
  forall img px result,
    image_open w path = Ok img ->
    img_mode img = RGB ->
    img_load img = Ok px ->
    analyze_image_basic w path = Ok result ->
    let smp := pick px (sample_of w (List.length px)) in
    forall k, (k < 3)%nat ->
      dict_get "dominant_hue" result = Some (PStr (channel_name k))
      <-> (4 # 10 < win_fraction k smp)%Q.

(** C3 as the specification states it, for the image at [path]: below
    ten pixels in either dimension the result carries an error and no
    numeric field. *)
Definition small_image_rejected (w : world) (path : string) : Prop :=
  forall img result,
    image_open w path = Ok img ->
    img_width img < 10 \/ img_height img < 10 ->
    analyze_image_basic w path = Ok result ->
    dict_in "error" result = true
    /\ dict_in "brightness" result = false
    /\ dict_in "average_color_rgb" result = false.

(** C5 as the specification states it, for the image at [path]: with
    every pixel equal to [p] the image is not colourful and the reported
    brightness is the luminance of [p], here even up to a whole unit. *)
Definition uniform_brightness_is_luminance (w : world) (path : string) : Prop :=
  forall img p n result,
    image_open w path = Ok img ->
    img_load img = Ok (repeat p n) ->
    analyze_image_basic w path = Ok result ->
    dict_get "is_colorful" result = Some (PBool false)
    /\ exists b,
         dict_get "brightness" result = Some (PFloat b)
         /\ (Qabs (b - luminance (convert_pixel (img_mode img) p)) <= 1)%Q.

(** Text-likelihood as the specification words it: the gray values are
    the native channel of a grayscale image and the weighted sum of the
    channels of a colour image; the flag is set when their standard
    deviation exceeds 50 and their mean is below 128. *)
Definition text_likelihood_spec (w : world) (m : mode) (px : list (list Z))
  : bool :=
  let gray :=
    match m with
    | L | LA => map (fun p => inject_Z (nth 0 p 0)) px
    | RGB | RGBA => map luminance px
    end in
  Qltb 50 (np_sqrt w (variance gray)) && Qltb (mean gray) 128.

(** C8 as the specification states it, for the image at [path]: unless
    the hue is "unknown" the description holds a hue clause. *)
Definition hue_clause_unless_unknown (w : world) (path : string) (s : pstate)
  : Prop :=
  forall result s' basic hue d,
    analyze_image_hybrid w path false "eng" "Salesforce/blip-image-captioning-base" s
      = (Ok result, s') ->
    dict_get "basic_info" result = Some (PDict basic) ->
    dict_get "dominant_hue" basic = Some (PStr hue) ->
    hue <> "unknown" ->
    dict_get "description" result = Some (PStr d) ->
    Str.contains "The image is grayscale" d = true
    \/ Str.contains ("The image has a " ++ hue ++ "-dominant color palette") d
       = true.

(** The colourfulness clause (lines 459-462). *)
Definition colorful_sentence (colorful : bool) : string :=
  if colorful then "The image is colorful with varied hues"
  else "The image has a more monochromatic or muted color scheme".

(** [load_vision_model] called once for each name in turn: the values
    returned and the globals at the end. *)
Fixpoint load_calls (w : world) (names : list string) (s : pstate)
  : list (exc bool) * pstate :=
  match names with
  | [] => ([], s)
  | name :: names' =>
      let (r, s') := load_vision_model w name s in
      let (rs, s'') := load_calls w names' s' in
      (r :: rs, s'')
  end.

(** The number of calls in a run of [load_calls] up to and including the
    first that returned [True]. *)
Fixpoint calls_until_loaded (rs : list (exc bool)) : nat :=
  match rs with
  | [] => 0
  | Ok true :: _ => 1
  | _ :: rs' => S (calls_until_loaded rs')
  end.

(** C4 as the specification states it: after a call that attempted the
    load and failed, a later call attempts nothing. *)
Definition failure_is_cached (w : world) (s : pstate) (name name' : string)
  : Prop :=
  forall s1,
    load_vision_model w name s = (Ok false, s1) ->
    load_attempts s1 = S (load_attempts s) ->
    load_attempts (snd (load_vision_model w name' s1)) = load_attempts s1.

(** An ["error"] key anywhere inside a value. *)
Fixpoint has_error_key (v : pyval) : bool :=
  match v with
  | PDict d =>
      (fix go (d : list (string * pyval)) : bool :=
         match d with
         | [] => false
         | (k, x) :: d' => String.eqb k "error" || has_error_key x || go d'
         end) d
  | PList l =>
      (fix go (l : list pyval) : bool :=
         match l with
         | [] => false
         | x :: l' => has_error_key x || go l'
         end) l
  | _ => false
  end.

(** C1 as the specification states it, for one call: when the OCR
    sub-analysis has failed, the result of the hybrid analysis carries an
    error string. *)
Definition ocr_failure_is_reported (w : world) (path : string)
    (use_vision : bool) (lang model : string) (s : pstate) : Prop :=
  forall ocr_result s1 result s2,
    analyze_image_ocr w path lang s = (Ok ocr_result, s1) ->
    dict_in "error" ocr_result = true ->
    analyze_image_hybrid w path use_vision lang model s = (Ok result, s2) ->
    has_error_key (PDict result) = true.

End Analyzer.

(** ** [server.py] *)

Module Server.
Import Analyzer.

(** [get_page_range(doc, page_range)]; [total_pages] is [len(doc)]. *)
Definition get_page_range (total_pages : Z) (page_range : option dict)
  : exc (pyval * pyval) :=
  match page_range with
  | None => Ok (PInt 0, PInt (total_pages - 1))
  | Some pr =>
      let? start := sub (dict_get_default "start" (PInt 1) pr) (PInt 1) in
      let? end_ := sub (dict_get_default "end" (PInt total_pages) pr) (PInt 1) in
      let? m := min2 start (PInt (total_pages - 1)) in
      let? start := max2 (PInt 0) m in
      let? m := min2 end_ (PInt (total_pages - 1)) in
      let? end_ := max2 start m in
      Ok (start, end_)
  end.

(** A [page_range] argument whose ['start'] and ['end'], when present,
    are integers. *)
Definition int_or_absent (k : string) (pr : dict) : Prop :=
  dict_get k pr = None \/ exists z, dict_get k pr = Some (PInt z).

Definition int_page_range (page_range : option dict) : Prop :=
  match page_range with
  | None => True
  | Some pr => int_or_absent "start" pr /\ int_or_absent "end" pr
  end.

(** Lines 218-276 of [extract_pdf_images]: the body of the loop over the
    images of a page. [None] is an image that is skipped ([continue]);
    [Some info] is the entry appended to [extracted_images]. [xref] is
    [img[0]]. *)
Definition extract_image (w : world) (output_dir : string)
    (page_num img_index xref : Z) (analyze_images use_vision_model : bool)
    (ocr_language : string) : M (option dict) :=
  try_except
    (pix <- lift (new_pixmap w xref) ;;
     if (pix_width pix <? 10) || (pix_height pix <? 10) then ret None
     else
       img_data <-
         lift (if pix_n pix - pix_alpha pix <? 4 then pixmap_png w pix
               else let? pix1 := pixmap_to_rgb w pix in pixmap_png w pix1) ;;
       let img_filename :=
         "page_" ++ Str.of_Z (page_num + 1) ++ "_img_"
           ++ Str.of_Z (img_index + 1) ++ ".png" in
       let img_path := path_join w [output_dir; img_filename] in
       lift (write_file w img_path img_data) ;;;
       let image_info :=
         [ ("page_number", PInt (page_num + 1));
           ("image_index", PInt (img_index + 1));
           ("filename", PStr img_filename);
           ("path", PStr img_path);
           ("width", PInt (pix_width pix));
           ("height", PInt (pix_height pix));
           ("size_bytes", PInt (Z.of_nat (String.length img_data))) ] in
       image_info <-
         (if analyze_images then
            try_except
              (analysis <-
                 analyze_image_hybrid w img_path use_vision_model ocr_language
                   "Salesforce/blip-image-captioning-base" ;;
               ret (image_info ++
                    [ ("analysis", PDict analysis);
                      ("description",
                        dict_get_default "description" (PStr EmptyString)
                          analysis) ])%list)
              (fun e =>
                 ret (image_info ++
                      [ ("analysis", PDict [("error", PStr e)]);
                        ("description",
                          PStr ("Image analysis failed: " ++ e)) ])%list)
          else ret image_info) ;;
       ret (Some image_info))
    (fun _ => ret None).

End Server.

(** ** Concrete worlds, for running the model *)

Module Demo.
Import Analyzer.

(** A square root rounded down to six decimals. *)
Definition sqrt_down (x : Q) : Q :=
  Qmake (Z.sqrt (Qnum x * 10 ^ 12 / QDen x)) (10 ^ 6)%positive.

(** A world in which every path holds the image [img], the sampler picks
    the first pixels, Tesseract is at [/usr/bin/tesseract] when
    [tesseract] is set and reads [text], the vision dependencies are
    importable when [vision] is set, the load attempt number [t]
    succeeds when [load_ok t], the model captions with [caption], and
    the embedded image [xref] is an RGB square of side [xref]. *)
Definition world_of (img : exc image) (tesseract : bool) (text : exc string)
    (vision : bool) (load_ok : nat -> bool) (caption : exc string) : world :=
  {| np_sqrt := sqrt_down;
     random_choice := fun _ k => seq 0 k;
     float_repr := fun _ => "<float>";
     container_repr := fun _ => "<container>";
     path_exists := fun p => tesseract && String.eqb p "/usr/bin/tesseract";
     which := fun _ => if tesseract then Some "/usr/bin/tesseract" else None;
     platform_system := "Linux";
     getenv := fun _ => None;
     listdir := fun _ => Raise "No such file or directory";
     path_join := Str.join "/";
     stat_size := fun _ => Ok 2048;
     write_file := fun _ _ => Ok tt;
     image_open := fun _ => img;
     get_tesseract_version := fun _ => Ok "5.3.0";
     image_to_string := fun _ _ _ => text;
     VISION_MODEL_AVAILABLE := vision;
     processor_from_pretrained :=
       fun t _ => if load_ok t then Ok 1%nat else Raise "Connection error";
     model_from_pretrained :=
       fun t _ => if load_ok t then Ok 2%nat else Raise "Connection error";
     cuda_is_available := false;
     model_to := fun _ _ _ => Ok tt;
     model_eval := fun _ _ => Ok tt;
     generate_caption := fun _ _ _ _ => caption;
     new_pixmap :=
       fun xref =>
         Ok {| pix_width := xref; pix_height := xref; pix_n := 3;
               pix_alpha := 0 |};
     pixmap_to_rgb := fun p => Ok p;
     pixmap_png := fun _ => Ok "PNG" |}.

(** The globals right after import, with pytesseract's default command. *)
Definition fresh_state : pstate :=
  {| tesseract_cmd := "tesseract";
     _vision_processor := None;
     _vision_model := None;
     _vision_model_loaded := false;
     load_attempts := 0 |}.

(** A PNG image given by its pixels. *)
Definition png (m : mode) (width height : Z) (px : list (list Z)) : image :=
  {| img_format := Some "PNG";
     img_mode := m;
     img_width := width;
     img_height := height;
     img_load := Ok px |}.

(** An image whose pixels all equal [px]. *)
Definition uniform (m : mode) (width height : Z) (px : list Z) : image :=
  png m width height (repeat px (Z.to_nat (width * height))).

(** A machine with the vision dependencies installed on which loading
    the model fails until [n] attempts have been made. *)
Definition flaky_world (n : nat) : world :=
  world_of (Ok (uniform RGB 60 60 [200; 30; 30])) true (Ok "Invoice 42")
    true (fun t => (n <=? t)%nat) (Ok "a red square").

(** A machine without Tesseract and without the vision dependencies
    whose files all hold [img]. *)
Definition bare_world (img : image) : world :=
  world_of (Ok img) false (Ok EmptyString) false (fun _ => false)
    (Ok EmptyString).

(** Half red, half green. *)
Definition two_tone : image :=
  png RGB 4 4 (repeat [255; 0; 0] 8 ++ repeat [0; 255; 0] 8).

(** One red, one green and one blue pixel. *)
Definition three_tone : image :=
  png RGB 3 1 [[255; 0; 0]; [0; 255; 0]; [0; 0; 255]].

(** A mid-gray image in mode L. *)
Definition gray_square : image := uniform L 10 10 [128].

(** A 5 x 5 image. *)
Definition tiny : image := uniform RGB 5 5 [200; 30; 30].

(** A pure red image. *)
Definition red_square : image := uniform RGB 10 10 [255; 0; 0].

(** Black and white in equal parts, in mode L: mean 128. *)
Definition checker : image :=
  png L 10 10 (repeat [1] 50 ++ repeat [255] 50).

(** A machine with Tesseract on which every file is a 60 x 60 scan
    reading [text]. *)
Definition scan_world (text : string) : world :=
  world_of (Ok (uniform RGB 60 60 [200; 30; 30])) true (Ok text) false
    (fun _ => false) (Ok EmptyString).

(** 250 characters. *)
Definition long_text : string := string_of_list_ascii (repeat "a"%char 250).

End Demo.

(** ** Further vocabulary *)

Module Terms.
Import Analyzer.

(** Pixel data as PIL decodes it: every band value is a byte. *)
Definition byte_pixels (px : list (list Z)) : Prop :=
  Forall (Forall (fun v => 0 <= v <= 255)) px.

(** What the brightness flags say about the brightness they were computed
    from (lines 227-229 and 252-254). *)
Definition flags_match_brightness (st : stats) : Prop :=
  match brightness st with
  | Some b => is_bright st = Qltb 180 b /\ is_dark st = Qltb b 75
  | None => is_bright st = false /\ is_dark st = false
  end.

(** A text that is empty or begins with a character that is not
    whitespace. *)
Definition starts_nonspace (s : string) : Prop :=
  match s with
  | String c _ => Str.isspace c = false
  | EmptyString => True
  end.

(** The two sentences of the text-likelihood clause (lines 475-477). *)
Definition text_sentence (likely : bool) : string :=
  if likely then "The image appears to contain primarily text content"
  else "The image appears to be a visual/graphical element rather than text-based".

(** The clause of a caption that was asked for and failed (line 497). *)
Definition vision_note : string :=
  "(Vision model analysis was requested but unavailable)".

(** The sentence returned for a description without clauses (line 503). *)
Definition fallback_description : string :=
  "Image analysis completed. This appears to be a visual image with the dimensions and color characteristics described above.".

(** The clause that reports a caption (line 495). *)
Definition caption_clause (caption : string) : string :=
  "Content description: " ++ caption.

(** A loaded flag that is set comes with both handles. *)
Definition loaded_has_handles (s : pstate) : Prop :=
  _vision_model_loaded s = true ->
  exists p m, _vision_processor s = Some p /\ _vision_model s = Some m.

(** The labels the colour analysis can end with: a colour image with one
    of the four hues of line 241, or the initial values. *)
Definition color_labels (ty hue : string) : Prop :=
  (ty = "color" /\ In hue ["red"; "green"; "blue"; "mixed"])
  \/ (ty = "unknown" /\ hue = "unknown").

(** The clause for a brightness that is neither bright nor dark
    (line 471). *)
Definition moderate_clause (k : Z) : string :=
  "The image has moderate brightness (average: " ++ Str.of_Z k ++ "/255)".

(** The file name of an extracted image (line 236). *)
Definition image_filename (page_num img_index : Z) : string :=
  "page_" ++ Str.of_Z (page_num + 1) ++ "_img_" ++ Str.of_Z (img_index + 1)
    ++ ".png".

(** The PNG data of a pixmap (lines 228-234). *)
Definition png_data (w : world) (pix : pixmap) : exc string :=
  if pix_n pix - pix_alpha pix <? 4 then pixmap_png w pix
  else let? pix1 := pixmap_to_rgb w pix in pixmap_png w pix1.

(** [c in s] for a character. *)
Fixpoint has_char (c : ascii) (s : string) : bool :=
  match s with
  | EmptyString => false
  | String x s' => Ascii.eqb x c || has_char c s'
  end.

End Terms.

(** ** More concrete worlds *)

Module Demo2.
Import Analyzer Demo.

(** A 30 x 80 image on a machine with Tesseract. *)
Definition narrow_scan_world : world :=
  world_of (Ok (uniform RGB 30 80 [10; 10; 10])) true (Ok "never read") false
    (fun _ => false) (Ok EmptyString).

(** The globals once Tesseract has been found. *)
Definition configured_state : pstate :=
  set_tesseract_cmd "/usr/bin/tesseract" fresh_state.

(** A machine without Tesseract whose captioning model loads at once and
    describes every image as [a red square]. *)
Definition caption_world : world :=
  world_of (Ok red_square) false (Ok EmptyString) true (fun _ => true)
    (Ok "a red square").

(** A machine without Tesseract and without the vision dependencies on
    which no file can be opened. *)
Definition broken_file_world : world :=
  world_of (Raise "cannot identify image file") false (Ok EmptyString) false
    (fun _ => false) (Ok EmptyString).

(** The globals once a model has been loaded as processor 1 and model 2. *)
Definition loaded_state : pstate :=
  set_vision_model_loaded true
    (set_vision_model 2%nat (set_vision_processor 1%nat fresh_state)).

End Demo2.

(** ** [server.py]: paths, downloads and the tools on page text *)

Module Pdf.
Import Server.

(** What [httpx] makes of a GET with redirects followed: the body of a
    response that [raise_for_status] accepts, or one of the errors that
    the [except] clauses of lines 47-52 tell apart. *)
Inductive http_result : Type :=
| HttpOk (content : string)
| HttpStatusError (status_code : Z) (text : string)
| HttpRequestError (msg : string)
| HttpOtherError (msg : string).

(** A page of an open document: what the tools read of it.
    [get_images] gives the xref of each image; [get_text_blocks] says of
    each block of [get_text("dict")["blocks"]] whether it has ["lines"]. *)
Record page : Type := {
  get_text : exc string;
  get_images : exc (list Z);
  get_text_blocks : exc (list bool);
  rect_width : Q;
  rect_height : Q;
  rotation : Z
}.

(** An open [fitz.Document]. [pdf_version] is the value of line 578 as a
    whole. *)
Record document : Type := {
  doc_pages : list page;
  needs_pass : bool;
  pdf_version : exc pyval
}.

(** The world of the server. A [Path] is kept as the string it was made
    from; [path_str] is its [str]. [fs_exists] and [path_suffix] are
    [Path.exists] and [Path.suffix] on a path given by the caller.
    [mkstemp_name n] is the name of the temporary file that the [n]-th
    [NamedTemporaryFile(delete=False, suffix='.pdf')] creates,
    [temp_write] its [write] and [close]. [index_error i] is the message
    of the [IndexError] of [doc[i]]. *)
Record pdf_world : Type := {
  http_get : string -> http_result;
  path_str : string -> string;
  fs_exists : string -> bool;
  path_suffix : string -> string;
  mkstemp_name : nat -> exc string;
  temp_write : string -> string -> exc unit;
  unlink : string -> exc unit;
  fitz_open : string -> exc document;
  index_error : Z -> string
}.

(** The temporary files of the server that are on disk, and the number
    of temporary files created so far. *)
Record sstate : Type := {
  temp_files : list string;
  temps_made : nat
}.

(** Code that creates and removes temporary files and may raise. *)
Definition SM (A : Type) : Type := sstate -> exc A * sstate.

Definition sret {A} (a : A) : SM A := fun s => (Ok a, s).

Definition sraise {A} (e : string) : SM A := fun s => (Raise e, s).

Definition sbind {A B} (m : SM A) (k : A -> SM B) : SM B :=
  fun s =>
    match m s with
    | (Ok a, s') => k a s'
    | (Raise e, s') => (Raise e, s')
    end.

Definition slift {A} (e : exc A) : SM A := fun s => (e, s).

Notation "x <-- m ;; k" := (sbind m (fun x => k))
  (at level 61, m at next level, right associativity).

(** The line feed. *)
Definition newline : string := String (ascii_of_nat 10) EmptyString.

(** An optional string argument that is given: not [None] and not
    empty. *)
Definition given (x : option string) : bool :=
  match x with
  | Some s => Analyzer.nonempty s
  | None => false
  end.

Definition arg (x : option string) : string :=
  match x with
  | Some s => s
  | None => EmptyString
  end.

(** An optional string as a value. *)
Definition opt_val (x : option string) : pyval :=
  match x with
  | Some s => PStr s
  | None => PNone
  end.

(** [url if url else None] *)
Definition url_field (url : option string) : pyval :=
  if given url then PStr (arg url) else PNone.

(** [range(a, b)] *)
Definition py_range (a b : Z) : list Z :=
  map (fun k => a + Z.of_nat k) (seq 0 (Z.to_nat (b - a))).

(** An argument of [range]: an [int], or a [TypeError]. *)
Definition as_index (v : pyval) : exc Z :=
  match v with
  | PInt z => Ok z
  | PBool b => Ok (if b then 1 else 0)
  | PFloat _ => Raise "'float' object cannot be interpreted as an integer"
  | _ => Raise "object cannot be interpreted as an integer"
  end.

(** [len(s.split())] *)
Definition word_count (s : string) : Z := Z.of_nat (List.length (Str.split s)).

(** [len(s)] *)
Definition len (s : string) : Z := Z.of_nat (String.length s).

Section WithWorld.

Variable w : pdf_world.

(** [download_pdf_from_url(url)]; an unexpected content type is only
    logged. *)
Definition download_pdf_from_url (url : string) : exc string :=
  match http_get w url with
  | HttpOk content => Ok content
  | HttpStatusError status_code text =>
      Raise ("HTTP error downloading PDF: " ++ Str.of_Z status_code ++ " - "
               ++ text)
  | HttpRequestError msg => Raise ("Request error downloading PDF: " ++ msg)
  | HttpOtherError msg => Raise ("Error downloading PDF from URL: " ++ msg)
  end.

(** [tempfile.NamedTemporaryFile(delete=False, suffix='.pdf')]: the file
    is on disk from here on. *)
Definition new_temp_file : SM string :=
  fun s =>
    match mkstemp_name w (temps_made s) with
    | Ok name =>
        (Ok name,
         {| temp_files := name :: temp_files s;
            temps_made := S (temps_made s) |})
    | Raise e => (Raise e, s)
    end.

(** [validate_file_path(file_path)] *)
Definition validate_file_path (file_path : string) : exc string :=
  if negb (fs_exists w file_path) then Raise ("File not found: " ++ file_path)
  else if negb (String.eqb (Str.lower (path_suffix w file_path)) ".pdf")
  then Raise ("File is not a PDF: " ++ file_path)
  else Ok file_path.

(** [get_pdf_path_or_download(file_path, url)] *)
Definition get_pdf_path_or_download (file_path url : option string)
  : SM (string * bool) :=
  if given file_path && given url then
    sraise "Cannot specify both file_path and url. Use one or the other."
  else if given url then
    pdf_bytes <-- slift (download_pdf_from_url (arg url)) ;;
    name <-- new_temp_file ;;
    _ <-- slift (temp_write w name pdf_bytes) ;;
    sret (name, true)
  else if given file_path then
    let path := arg file_path in
    if negb (fs_exists w path) then sraise ("File not found: " ++ path)
    else if negb (String.eqb (Str.lower (path_suffix w path)) ".pdf")
    then sraise ("File is not a PDF: " ++ path)
    else sret (path, false)
  else sraise "Either file_path or url must be provided".

(** [if temp_file and temp_file.exists(): try: temp_file.unlink()
    except: ...], where the handler logs or passes. *)
Definition cleanup (temp_file : option string) : SM unit :=
  fun s =>
    match temp_file with
    | Some p =>
        if existsb (String.eqb p) (temp_files s) then
          match unlink w p with
          | Ok _ =>
              (Ok tt,
               {| temp_files :=
                    filter (fun q => negb (String.eqb p q)) (temp_files s);
                  temps_made := temps_made s |})
          | Raise _ => (Ok tt, s)
          end
        else (Ok tt, s)
    | None => (Ok tt, s)
    end.

(** [doc[i]] for an [int]: a negative number counts from the end (the
    tools never pass one). *)
Definition doc_getitem (doc : document) (i : Z) : exc page :=
  let n := Z.of_nat (List.length (doc_pages doc)) in
  if i <? n then
    match nth_error (doc_pages doc) (Z.to_nat (if i <? 0 then i mod n else i))
    with
    | Some p => Ok p
    | None => Raise (index_error w i)
    end
  else Raise (index_error w i).

(** The dictionary every tool returns from its [except] clause. *)
Definition failure (e : string) (file_path url : option string) : dict :=
  [ ("success", PBool false);
    ("error", PStr e);
    ("file_path", opt_val file_path);
    ("url", url_field url) ].

(** [str(path) if not is_temp else None] *)
Definition file_path_field (path : string) (is_temp : bool) : pyval :=
  if is_temp then PNone else PStr (path_str w path).

(** [f"{start_page + 1}-{end_page + 1}"] *)
Definition pages_processed (start_page end_page : Z) : string :=
  Str.of_Z (start_page + 1) ++ "-" ++ Str.of_Z (end_page + 1).

(** Lines 127-135 of [read_pdf_text]: the loop over the pages. *)
Fixpoint read_pages (doc : document) (page_nums : list Z)
    (pages_text : list pyval) (total_text : string)
  : exc (list pyval * string) :=
  match page_nums with
  | [] => Ok (pages_text, total_text)
  | page_num :: rest =>
      let? page := doc_getitem doc page_num in
      let? page_text := get_text page in
      read_pages doc rest
        (pages_text ++
         [PDict [ ("page_number", PInt (page_num + 1));
                  ("text", PStr page_text);
                  ("word_count", PInt (word_count page_text)) ]])%list
        (total_text ++ page_text ++ newline)
  end.

(** Lines 121-147 of [read_pdf_text]: the [with] block up to the
    result. *)
Definition read_pdf_text_result (path : string) (is_temp : bool)
    (url : option string) (page_range : option dict) : exc dict :=
  let? doc := fitz_open w (path_str w path) in
  let total_pages := Z.of_nat (List.length (doc_pages doc)) in
  let? range := get_page_range total_pages page_range in
  let? start_page := as_index (fst range) in
  let? end_page := as_index (snd range) in
  let? r := read_pages doc (py_range start_page (end_page + 1)) [] EmptyString in
  Ok [ ("success", PBool true);
       ("file_path", file_path_field path is_temp);
       ("url", url_field url);
       ("pages_processed", PStr (pages_processed start_page end_page));
       ("total_pages", PInt total_pages);
       ("pages_text", PList (fst r));
       ("combined_text", PStr (Str.strip (snd r)));
       ("total_word_count", PInt (word_count (snd r)));
       ("total_character_count", PInt (len (snd r))) ].

(** A tool: the path is found or downloaded, the body is run, the
    temporary file is removed, and every exception becomes a failure
    dictionary. The handler sees [temp_file] as [None] when the path
    could not be had. *)
Definition tool (file_path url : option string)
    (body : string -> bool -> exc dict) : sstate -> dict * sstate :=
  fun s =>
    match get_pdf_path_or_download file_path url s with
    | (Raise e, s1) => (failure e file_path url, s1)
    | (Ok (path, is_temp), s1) =>
        let temp_file := if is_temp then Some path else None in
        match body path is_temp with
        | Ok result => (result, snd (cleanup temp_file s1))
        | Raise e => (failure e file_path url, snd (cleanup temp_file s1))
        end
    end.

(** [read_pdf_text(file_path, url, page_range)] *)
Definition read_pdf_text (file_path url : option string)
    (page_range : option dict) : sstate -> dict * sstate :=
  tool file_path url
    (fun path is_temp => read_pdf_text_result path is_temp url page_range).

(** The counters of ["content_analysis"], in the order of lines
    581-587. *)
Inductive counter : Type :=
| pages_with_text
| pages_with_images
| pages_text_only
| pages_images_only
| pages_mixed_content
| total_text_blocks
| total_images.

Definition counter_name (f : counter) : string :=
  match f with
  | pages_with_text => "pages_with_text"
  | pages_with_images => "pages_with_images"
  | pages_text_only => "pages_text_only"
  | pages_images_only => "pages_images_only"
  | pages_mixed_content => "pages_mixed_content"
  | total_text_blocks => "total_text_blocks"
  | total_images => "total_images"
  end.

Definition all_counters : list counter :=
  [ pages_with_text; pages_with_images; pages_text_only; pages_images_only;
    pages_mixed_content; total_text_blocks; total_images ].

Definition counter_eqb (f g : counter) : bool :=
  String.eqb (counter_name f) (counter_name g).

(** The values of the counters. *)
Definition counters : Type := counter -> Z.

Definition no_counts : counters := fun _ => 0.

(** [structure_analysis["content_analysis"][f] += n] *)
Definition bump (f : counter) (n : Z) (c : counters) : counters :=
  fun g => if counter_eqb g f then c g + n else c g.

(** Lines 592-642 of [analyze_pdf_structure]: the loop over the pages. *)
Fixpoint structure_pages (doc : document) (page_nums : list Z) (c : counters)
    (page_details : list pyval) : exc (counters * list pyval) :=
  match page_nums with
  | [] => Ok (c, page_details)
  | page_num :: rest =>
      let? page := doc_getitem doc page_num in
      let? text_blocks := get_text_blocks page in
      let text_block_count :=
        Z.of_nat (List.length (filter (fun b => b) text_blocks)) in
      let? images := get_images page in
      let image_count := Z.of_nat (List.length images) in
      let? raw := get_text page in
      let page_text := Str.strip raw in
      let has_text := Analyzer.nonempty page_text in
      let has_images := 0 <? image_count in
      let (content_type, c) :=
        if has_text && has_images then ("mixed", bump pages_mixed_content 1 c)
        else if has_text then ("text_only", bump pages_text_only 1 c)
        else if has_images then ("images_only", bump pages_images_only 1 c)
        else ("empty", c) in
      let c := if has_text then bump pages_with_text 1 c else c in
      let c := if has_images then bump pages_with_images 1 c else c in
      let c := bump total_text_blocks text_block_count c in
      let c := bump total_images image_count c in
      structure_pages doc rest c
        (page_details ++
         [PDict [ ("page_number", PInt (page_num + 1));
                  ("content_type", PStr content_type);
                  ("text_blocks", PInt text_block_count);
                  ("image_count", PInt image_count);
                  ("text_length", PInt (len page_text));
                  ("dimensions",
                    PDict [ ("width", PFloat (rect_width page));
                            ("height", PFloat (rect_height page)) ]);
                  ("rotation", PInt (rotation page)) ]])%list
  end.

(** [round(a / n, 2)] for two [int]s. *)
Definition rounded_ratio (a n : Z) : exc pyval :=
  if n =? 0 then Raise "division by zero"
  else Ok (PFloat (py_round (inject_Z a / inject_Z n) 2)).

(** Lines 573-665 of [analyze_pdf_structure]: the [with] block up to the
    result. *)
Definition analyze_pdf_structure_result (path : string) (is_temp : bool)
    (url : option string) : exc dict :=
  let? doc := fitz_open w (path_str w path) in
  let total_pages := Z.of_nat (List.length (doc_pages doc)) in
  let? version := pdf_version doc in
  let? r := structure_pages doc (py_range 0 total_pages) no_counts [] in
  let c := fst r in
  let? avg_images := rounded_ratio (c total_images) total_pages in
  let? avg_blocks := rounded_ratio (c total_text_blocks) total_pages in
  Ok [ ("success", PBool true);
       ("file_path", file_path_field path is_temp);
       ("url", url_field url);
       ("document_structure",
         PDict [ ("total_pages", PInt total_pages);
                 ("is_encrypted", PBool (needs_pass doc));
                 ("pdf_version", version) ]);
       ("content_analysis",
         PDict (map (fun f => (counter_name f, PInt (c f))) all_counters));
       ("page_details", PList (snd r));
       ("summary",
         PDict [ ("content_distribution",
                   PDict [ ("text_only_pages", PInt (c pages_text_only));
                           ("images_only_pages", PInt (c pages_images_only));
                           ("mixed_content_pages",
                             PInt (c pages_mixed_content));
                           ("empty_pages",
                             PInt (total_pages
                                   - (c pages_text_only + c pages_images_only
                                      + c pages_mixed_content))) ]);
                 ("avg_images_per_page", avg_images);
                 ("avg_text_blocks_per_page", avg_blocks) ]) ].

(** [analyze_pdf_structure(file_path, url)] *)
Definition analyze_pdf_structure (file_path url : option string)
  : sstate -> dict * sstate :=
  tool file_path url
    (fun path is_temp => analyze_pdf_structure_result path is_temp url).

End WithWorld.

(** The integer under a key of a dictionary under a key. *)
Definition nested_int (outer inner : string) (d : dict) : option Z :=
  match dict_get outer d with
  | Some (PDict d') =>
      match dict_get inner d' with
      | Some (PInt z) => Some z
      | _ => None
      end
  | _ => None
  end.

End Pdf.

(** ** Concrete documents *)

Module PdfDemo.
Import Pdf.

Definition text_page (t : string) (images : list Z) : page :=
  {| get_text := Ok t;
     get_images := Ok images;
     get_text_blocks := Ok [true];
     rect_width := 612;
     rect_height := 792;
     rotation := 0 |}.

Definition doc_of (ps : list page) : document :=
  {| doc_pages := ps; needs_pass := false; pdf_version := Ok (PStr "unknown") |}.

(** A machine on which [report.pdf] has the pages [ps], every download
    gives a file with the same pages, and temporary files can be written
    and removed. *)
Definition pdf_world_of (ps : list page) : pdf_world :=
  {| http_get := fun _ => HttpOk "%PDF";
     path_str := fun p => p;
     fs_exists := fun p => String.eqb p "report.pdf";
     path_suffix := fun _ => ".pdf";
     mkstemp_name := fun n => Ok ("/tmp/tmp" ++ Str.of_Z (Z.of_nat n) ++ ".pdf");
     temp_write := fun _ _ => Ok tt;
     unlink := fun _ => Ok tt;
     fitz_open := fun _ => Ok (doc_of ps);
     index_error := fun _ => "page not in document" |}.

Definition two_pages : list page :=
  [text_page "Annual report 2023" [7]; text_page "Thank you" []].

Definition no_temp : sstate := {| temp_files := []; temps_made := 0 |}.

(** The same machine with a server that answers every request with the
    status 404. *)
Definition offline_world : pdf_world :=
  {| http_get := fun _ => HttpStatusError 404 "Not Found";
     path_str := path_str (pdf_world_of two_pages);
     fs_exists := fs_exists (pdf_world_of two_pages);
     path_suffix := path_suffix (pdf_world_of two_pages);
     mkstemp_name := mkstemp_name (pdf_world_of two_pages);
     temp_write := temp_write (pdf_world_of two_pages);
     unlink := unlink (pdf_world_of two_pages);
     fitz_open := fitz_open (pdf_world_of two_pages);
     index_error := index_error (pdf_world_of two_pages) |}.

(** The same machine with a full disk. *)
Definition full_disk_world : pdf_world :=
  {| http_get := http_get (pdf_world_of two_pages);
     path_str := path_str (pdf_world_of two_pages);
     fs_exists := fs_exists (pdf_world_of two_pages);
     path_suffix := path_suffix (pdf_world_of two_pages);
     mkstemp_name := mkstemp_name (pdf_world_of two_pages);
     temp_write := fun _ _ => Raise "No space left on device";
     unlink := unlink (pdf_world_of two_pages);
     fitz_open := fitz_open (pdf_world_of two_pages);
     index_error := index_error (pdf_world_of two_pages) |}.

End PdfDemo.
(** ** Vocabulary for the statements about the tools *)

Module PdfTerms.
Import Pdf.

(** An entry of ["pages_text"] (lines 130-134). *)
Definition page_entry (e : Z * string) : pyval :=
  PDict [ ("page_number", PInt (fst e + 1));
          ("text", PStr (snd e));
          ("word_count", PInt (word_count (snd e))) ].

(** The texts, each followed by a line feed. *)
Definition joined_lines (texts : list string) : string :=
  fold_right (fun t rest => t ++ newline ++ rest) EmptyString texts.

Definition Zsum (l : list Z) : Z := fold_right Z.add 0 l.

(** What the counters of [analyze_pdf_structure] keep after [n]
    pages. *)
Definition counts_ok (c : counters) (n : Z) : Prop :=
  c pages_with_text = c pages_text_only + c pages_mixed_content
  /\ c pages_with_images = c pages_images_only + c pages_mixed_content
  /\ 0 <= c pages_text_only /\ 0 <= c pages_images_only
  /\ 0 <= c pages_mixed_content
  /\ c pages_text_only + c pages_images_only + c pages_mixed_content <= n.

(** Page [i] of the document has the text [t]. *)
Definition page_has_text (doc : document) (i : Z) (t : string) : Prop :=
  0 <= i
  /\ exists p, nth_error (doc_pages doc) (Z.to_nat i) = Some p
               /\ get_text p = Ok t.

End PdfTerms.

(* ================================================================= *)
(** * Theorems *)

Lemma Qltb_lt (x y : Q) : Qltb x y = true <-> (x < y)%Q.
Proof. unfold Qltb, Qlt. apply Z.ltb_lt. Qed.

Lemma Qltb_ge (x y : Q) : Qltb x y = false <-> (y <= x)%Q.
Proof. unfold Qltb, Qle. apply Z.ltb_ge. Qed.

Lemma Qltb_inject_Z (x y : Z) : Qltb (inject_Z x) (inject_Z y) = (x <? y).
Proof. unfold Qltb; simpl. now rewrite !Z.mul_1_r. Qed.

Section PageRange.
Import Server.

Lemma lt_int (x y : Z) : lt (PInt x) (PInt y) = Ok (x <? y).
Proof. unfold lt; simpl. now rewrite Qltb_inject_Z. Qed.

Lemma min2_int (x y : Z) : min2 (PInt x) (PInt y) = Ok (PInt (Z.min x y)).
Proof.
  unfold min2. rewrite lt_int. simpl.
  destruct (Z.ltb_spec y x); do 2 f_equal; lia.
Qed.

Lemma max2_int (x y : Z) : max2 (PInt x) (PInt y) = Ok (PInt (Z.max x y)).
Proof.
  unfold max2, gt. rewrite lt_int. simpl.
  destruct (Z.ltb_spec x y); do 2 f_equal; lia.
Qed.

Lemma get_page_range_int (total_pages : Z) (pr : dict) :
  int_or_absent "start" pr -> int_or_absent "end" pr ->
  exists s e : Z,
    get_page_range total_pages (Some pr) =
      Ok (PInt (Z.max 0 (Z.min (s - 1) (total_pages - 1))),
          PInt (Z.max (Z.max 0 (Z.min (s - 1) (total_pages - 1)))
                      (Z.min (e - 1) (total_pages - 1)))).
Proof.
  intros Hs He.
  assert (exists s, dict_get_default "start" (PInt 1) pr = PInt s) as [s Es].
  { unfold dict_get_default. destruct Hs as [-> | [z ->]]; eauto. }
  assert (exists e, dict_get_default "end" (PInt total_pages) pr = PInt e) as [e Ee].
  { unfold dict_get_default. destruct He as [-> | [z ->]]; eauto. }
  exists s, e. unfold get_page_range. rewrite Es, Ee.
  cbn [sub as_num exc_bind]. rewrite min2_int. cbn [exc_bind].
  rewrite max2_int. cbn [exc_bind]. rewrite min2_int. cbn [exc_bind].
  rewrite max2_int. reflexivity.
Qed.

(** C10. For a document with at least one page and a [page_range] that is
    [None] or a dict whose ['start'] and ['end'] (when present) are
    integers, [get_page_range] returns a pair of 0-based indices with
    [0 <= start <= end <= total_pages - 1]. *)
Theorem get_page_range_within_bounds (total_pages : Z) (page_range : option dict) :
  1 <= total_pages ->
  int_page_range page_range ->
  exists s e : Z,
    get_page_range total_pages page_range = Ok (PInt s, PInt e)
    /\ 0 <= s /\ s <= e /\ e <= total_pages - 1.
Proof.
  intros Hn Hpr. destruct page_range as [pr |].
  - destruct Hpr as [Hs He].
    destruct (get_page_range_int total_pages pr Hs He) as (s & e & E).
    do 2 eexists. split; [exact E | lia].
  - exists 0, (total_pages - 1). split; [reflexivity | lia].
Qed.

Lemma get_page_range_within_bounds_witness :
  exists s e : Z,
    get_page_range 5 (Some [("start", PInt (-3)); ("end", PInt 40)])
      = Ok (PInt s, PInt e)
    /\ 0 <= s /\ s <= e /\ e <= 5 - 1.
Proof.
  apply (get_page_range_within_bounds 5
           (Some [("start", PInt (-3)); ("end", PInt 40)])).
  - lia.
  - split; right; eexists; reflexivity.
Defined.

End PageRange.

(* ----------------------------------------------------------------- *)
(** ** The sub-analyses always return a dictionary *)

Section SubAnalyses.
Import Analyzer.

Variable w : world.

Ltac run_M :=
  unfold bind, ret, lift, try_except, get_state, modify; cbn [fst snd].

Lemma ocr_run_returns path lang s :
  exists d, ocr_run w path lang s = (Ok d, s) /\ ocr_shape d.
Proof.
  unfold ocr_run. run_M.
  destruct (image_open w path) as [img | e].
  - destruct ((img_width img <? 50) || (img_height img <? 50)).
    + eexists; split; [reflexivity | constructor].
    + destruct (image_to_string w (tesseract_cmd s) img lang) as [raw | e].
      * eexists; split; [reflexivity | apply ocr_shape_success].
      * eexists; split; [reflexivity | constructor].
  - eexists; split; [reflexivity | constructor].
Qed.

Lemma ocr_checked_returns path lang s :
  exists d s', ocr_checked w path lang s = (Ok d, s') /\ ocr_shape d
    /\ _vision_processor s' = _vision_processor s
    /\ _vision_model s' = _vision_model s
    /\ _vision_model_loaded s' = _vision_model_loaded s
    /\ load_attempts s' = load_attempts s.
Proof.
  unfold ocr_checked. run_M.
  destruct (get_tesseract_version w (tesseract_cmd s)) as [v | e].
  - destruct (ocr_run_returns path lang s) as (d & E & Hd).
    exists d, s. rewrite E. auto 10.
  - destruct (_find_tesseract_executable w) as [p |].
    + destruct (nonempty p && path_exists w p).
      * destruct (get_tesseract_version w p) as [v | e2].
        -- destruct (ocr_run_returns path lang (set_tesseract_cmd p s))
             as (d & E & Hd).
           exists d, (set_tesseract_cmd p s). rewrite E.
           repeat split; auto.
        -- do 2 eexists. split; [reflexivity |]. repeat split; constructor.
      * do 2 eexists. split; [reflexivity |]. repeat split; constructor.
    + do 2 eexists. split; [reflexivity |]. repeat split; constructor.
Qed.

Lemma analyze_image_ocr_returns path lang s :
  exists d s', analyze_image_ocr w path lang s = (Ok d, s') /\ ocr_shape d
    /\ _vision_processor s' = _vision_processor s
    /\ _vision_model s' = _vision_model s
    /\ _vision_model_loaded s' = _vision_model_loaded s
    /\ load_attempts s' = load_attempts s.
Proof.
  unfold analyze_image_ocr. run_M.
  destruct (negb (nonempty (tesseract_cmd s))
            || negb (path_exists w (tesseract_cmd s))).
  - destruct (_find_tesseract_executable w) as [p |].
    + destruct (nonempty p && path_exists w p).
      * destruct (ocr_checked_returns path lang (set_tesseract_cmd p s))
          as (d & s' & E & Hd & H).
        exists d, s'. rewrite E. auto.
      * do 2 eexists. split; [reflexivity |]. repeat split; constructor.
    + do 2 eexists. split; [reflexivity |]. repeat split; constructor.
  - apply ocr_checked_returns.
Qed.

Lemma analyze_image_basic_returns path :
  exists d, analyze_image_basic w path = Ok d /\ basic_shape d.
Proof.
  unfold analyze_image_basic.
  destruct (image_open w path) as [img | e]; cbn [exc_bind].
  - destruct (stat_size w path) as [size | e]; cbn [exc_bind].
    + eexists; split; [reflexivity | constructor].
    + eexists; split; [reflexivity | constructor].
  - eexists; split; [reflexivity | constructor].
Qed.

End SubAnalyses.

(* ----------------------------------------------------------------- *)
(** ** The captioning-model handle *)

Section VisionModel.
Import Analyzer.

Variable w : world.

Ltac run_M :=
  unfold bind, ret, lift, try_except, get_state, modify; cbn [fst snd].

(** With the dependencies missing, nothing is attempted. *)
Lemma load_unavailable name s :
  VISION_MODEL_AVAILABLE w = false ->
  load_vision_model w name s = (Ok false, s).
Proof. intros H. unfold load_vision_model. now rewrite H. Qed.

(** A loaded model is reused. *)
Lemma load_cached name s :
  VISION_MODEL_AVAILABLE w = true ->
  _vision_model_loaded s = true ->
  load_vision_model w name s = (Ok true, s).
Proof.
  intros Ha Hl. unfold load_vision_model. rewrite Ha. cbn [negb]. run_M.
  now rewrite Hl.
Qed.

(** Without a loaded model, every call makes one attempt; it ends with
    the flag set and [True], or with the flag still clear and
    [False]. *)
Lemma load_attempted name s :
  VISION_MODEL_AVAILABLE w = true ->
  _vision_model_loaded s = false ->
  exists b s',
    load_vision_model w name s = (Ok b, s')
    /\ load_attempts s' = S (load_attempts s)
    /\ _vision_model_loaded s' = b
    /\ tesseract_cmd s' = tesseract_cmd s
    /\ (b = true -> exists p m,
          _vision_processor s' = Some p /\ _vision_model s' = Some m).
Proof.
  intros Ha Hl. unfold load_vision_model. rewrite Ha. cbn [negb]. run_M.
  rewrite Hl.
  destruct (processor_from_pretrained w (load_attempts s) name) as [p | e].
  2: { do 2 eexists. split; [reflexivity |]. cbn. repeat split; auto. discriminate. }
  destruct (model_from_pretrained w (load_attempts s) name) as [m | e].
  2: { do 2 eexists. split; [reflexivity |]. cbn. repeat split; auto. discriminate. }
  destruct (model_to w (load_attempts s) m _) as [[] | e].
  2: { do 2 eexists. split; [reflexivity |]. cbn. repeat split; auto. discriminate. }
  destruct (model_eval w (load_attempts s) m) as [[] | e].
  2: { do 2 eexists. split; [reflexivity |]. cbn. repeat split; auto. discriminate. }
  do 2 eexists. split; [reflexivity |]. cbn. repeat split; eauto.
Qed.

(** [load_vision_model] never raises, and a [True] means both handles
    are set. *)
Lemma load_vision_model_returns name s :
  exists b s',
    load_vision_model w name s = (Ok b, s')
    /\ tesseract_cmd s' = tesseract_cmd s
    /\ (_vision_model_loaded s = true ->
        (exists p m, _vision_processor s = Some p /\ _vision_model s = Some m) ->
        s' = s)
    /\ (b = true -> _vision_model_loaded s = false ->
        exists p m, _vision_processor s' = Some p /\ _vision_model s' = Some m).
Proof.
  destruct (VISION_MODEL_AVAILABLE w) eqn:Ha.
  - destruct (_vision_model_loaded s) eqn:Hl.
    + exists true, s. rewrite load_cached by assumption.
      repeat split; auto. discriminate.
    + destruct (load_attempted name s Ha Hl) as (b & s' & E & _ & _ & Hc & Hh).
      exists b, s'. repeat split; auto. discriminate.
  - exists false, s. rewrite load_unavailable by assumption.
    repeat split; auto; discriminate.
Qed.

Lemma analyze_image_vision_returns path name s :
  exists d s', analyze_image_vision w path name s = (Ok d, s') /\ vision_shape d.
Proof.
  unfold analyze_image_vision.
  destruct (load_vision_model_returns name s) as (b & s' & E & _).
  unfold bind at 1. rewrite E. destruct b; cbn [negb].
  2: { do 2 eexists. split; [reflexivity | constructor]. }
  run_M.
  destruct (image_open w path) as [img | e].
  2: { do 2 eexists. split; [reflexivity | constructor]. }
  destruct (if is_RGB (img_mode img) then Ok img else convert_RGB img)
    as [img' | e].
  2: { do 2 eexists. split; [reflexivity | constructor]. }
  destruct (_vision_processor s') as [p |].
  2: { do 2 eexists. split; [reflexivity | constructor]. }
  destruct (_vision_model s') as [m |].
  2: { do 2 eexists. split; [reflexivity | constructor]. }
  destruct (generate_caption w p m _ img') as [c | e].
  - do 2 eexists. split; [reflexivity | apply vision_shape_success].
  - do 2 eexists. split; [reflexivity | constructor].
Qed.

End VisionModel.

Section VisionCaching.
Import Analyzer Demo.

Lemma load_calls_unavailable w names s :
  VISION_MODEL_AVAILABLE w = false ->
  load_calls w names s = (map (fun _ => Ok false) names, s).
Proof.
  intros Ha. induction names as [| name names IH]; cbn [load_calls map].
  - reflexivity.
  - rewrite (load_unavailable w name s Ha), IH. reflexivity.
Qed.

Lemma load_calls_cached w names s :
  VISION_MODEL_AVAILABLE w = true ->
  _vision_model_loaded s = true ->
  load_calls w names s = (map (fun _ => Ok true) names, s).
Proof.
  intros Ha Hl. induction names as [| name names IH]; cbn [load_calls map].
  - reflexivity.
  - rewrite (load_cached w name s Ha Hl), IH. reflexivity.
Qed.

Lemma calls_until_loaded_all_true names :
  calls_until_loaded (map (fun _ : string => Ok true) names)
  = Nat.min 1 (List.length names).
Proof. destruct names; reflexivity. Qed.

Lemma load_calls_attempts w names : forall s,
  VISION_MODEL_AVAILABLE w = true ->
  _vision_model_loaded s = false ->
  load_attempts (snd (load_calls w names s))
  = (load_attempts s + calls_until_loaded (fst (load_calls w names s)))%nat.
Proof.
  induction names as [| name names IH]; intros s Ha Hl; cbn [load_calls].
  - cbn. lia.
  - destruct (load_attempted w name s Ha Hl) as (b & s' & E & Hn & Hb & _).
    rewrite E. destruct b.
    + rewrite (load_calls_cached w names s' Ha Hb). cbn. lia.
    + specialize (IH s' Ha Hb).
      destruct (load_calls w names s') as [rs s'']. cbn in *. lia.
Qed.

(** C4 (amended). Over any run of calls to [load_vision_model]: with the
    dependencies missing no load is ever attempted; once the model is
    loaded every call returns [True] and attempts nothing; and from a
    state without a loaded model the load is attempted by every call up
    to and including the first that succeeds, so a failed attempt is
    not remembered and the next call tries again. *)
Theorem load_attempted_until_success (w : world) (names : list string) (s : pstate) :
  (VISION_MODEL_AVAILABLE w = false ->
     load_calls w names s = (map (fun _ => Ok false) names, s))
  /\ (VISION_MODEL_AVAILABLE w = true -> _vision_model_loaded s = true ->
        load_calls w names s = (map (fun _ => Ok true) names, s))
  /\ (VISION_MODEL_AVAILABLE w = true -> _vision_model_loaded s = false ->
        load_attempts (snd (load_calls w names s))
        = (load_attempts s + calls_until_loaded (fst (load_calls w names s)))%nat).
Proof.
  split; [| split].
  - apply load_calls_unavailable.
  - apply load_calls_cached.
  - apply load_calls_attempts.
Qed.

Lemma load_attempted_until_success_witness :
  fst (load_calls (flaky_world 2) ["m"; "m"; "m"; "m"] fresh_state)
    = [Ok false; Ok false; Ok true; Ok true]
  /\ load_attempts (snd (load_calls (flaky_world 2) ["m"; "m"; "m"; "m"] fresh_state))
     = (load_attempts fresh_state
        + calls_until_loaded
            (fst (load_calls (flaky_world 2) ["m"; "m"; "m"; "m"] fresh_state)))%nat.
Proof.
  split.
  - vm_compute. reflexivity.
  - apply (load_attempted_until_success (flaky_world 2) ["m"; "m"; "m"; "m"]
             fresh_state); reflexivity.
Defined.

(** C4, counterexample. On a machine where the load keeps failing, the
    first call attempts the load and fails, and the second call attempts
    it again. *)
Lemma failure_is_not_cached :
  ~ failure_is_cached (flaky_world 5) fresh_state "m" "m".
Proof.
  unfold failure_is_cached. intros H.
  specialize (H _ eq_refl eq_refl). vm_compute in H. discriminate.
Qed.

End VisionCaching.

(* ----------------------------------------------------------------- *)
(** ** Arrays *)

Section Arrays.
Import Analyzer.

Lemma rows_of_concat (c : nat) (rows : list (list Z)) : forall fuel,
  (0 < c)%nat ->
  Forall (fun r => List.length r = c) rows ->
  (List.length rows <= fuel)%nat ->
  rows_of fuel c (List.concat rows) = rows.
Proof.
  induction rows as [| r rows IH]; intros fuel Hc Hall Hfuel.
  - destruct fuel; reflexivity.
  - pose proof (Forall_inv Hall) as Hr. cbn beta in Hr.
    pose proof (Forall_inv_tail Hall) as Hrows.
    destruct fuel as [| fuel]; [cbn in Hfuel; lia |].
    cbn [List.concat].
    assert (firstn c (r ++ List.concat rows)%list = r) as Hf.
    { rewrite <- Hr, firstn_app, firstn_all, Nat.sub_diag.
      cbn [firstn]. apply app_nil_r. }
    assert (skipn c (r ++ List.concat rows)%list = List.concat rows) as Hs.
    { rewrite <- Hr, skipn_app, skipn_all, Nat.sub_diag. reflexivity. }
    destruct r as [| a r]; [cbn in Hr; lia |].
    cbn [app rows_of] in *. rewrite Hf, Hs.
    f_equal. apply IH; auto. cbn in Hfuel. lia.
Qed.

Lemma concat_length_ge (c : nat) (rows : list (list Z)) :
  (0 < c)%nat ->
  Forall (fun r => List.length r = c) rows ->
  (List.length rows <= List.length (List.concat rows))%nat.
Proof.
  intros Hc Hall. induction Hall as [| r rows Hr _ IH]; cbn [List.concat].
  - cbn. lia.
  - rewrite length_app. cbn [List.length]. lia.
Qed.

(** Reshaping the flattened pixels gives the pixels back. *)
Lemma reshape_rows_concat (c : nat) (rows : list (list Z)) :
  (0 < c)%nat ->
  Forall (fun r => List.length r = c) rows ->
  reshape_rows c (List.concat rows) = rows.
Proof.
  intros Hc Hall. unfold reshape_rows.
  apply rows_of_concat; auto. now apply concat_length_ge with (c := c).
Qed.

Lemma take_rows_pick (rows : list (list Z)) (idx : list nat) :
  Forall (fun i => (i < List.length rows)%nat) idx ->
  take_rows rows idx = Ok (pick rows idx).
Proof.
  induction 1 as [| i idx Hi _ IH]; cbn [take_rows pick map].
  - reflexivity.
  - destruct (nth_error rows i) as [r |] eqn:E.
    + rewrite IH. cbn [exc_bind]. unfold pick.
      now rewrite (nth_error_nth _ _ _ E).
    + apply nth_error_None in E. lia.
Qed.

Lemma rgb_pixels_length (m : mode) (px : list (list Z)) :
  wf_pixels m px ->
  Forall (fun r => List.length r = 3%nat) (rgb_pixels m px).
Proof.
  unfold wf_pixels, rgb_pixels. intros H. apply Forall_map.
  eapply Forall_impl; [| exact H]. intros p Hp. cbn beta.
  destruct m; unfold convert_pixel, bands in *;
    [reflexivity | reflexivity | assumption | rewrite length_firstn; lia].
Qed.

Lemma pick_length3 (rows : list (list Z)) (idx : list nat) :
  Forall (fun r => List.length r = 3%nat) rows ->
  Forall (fun i => (i < List.length rows)%nat) idx ->
  Forall (fun r => List.length r = 3%nat) (pick rows idx).
Proof.
  intros Hrows Hidx. unfold pick. apply Forall_map.
  eapply Forall_impl; [| exact Hidx]. intros i Hi. cbn beta.
  rewrite Forall_forall in Hrows. apply Hrows. now apply nth_In.
Qed.

Lemma dot3_luminance (rows : list (list Z)) :
  Forall (fun r => List.length r = 3%nat) rows ->
  dot3 rows (2989 # 10000) (5870 # 10000) (1140 # 10000)
  = Ok (map luminance rows).
Proof.
  induction 1 as [| r rows Hr _ IH]; cbn [dot3 map].
  - reflexivity.
  - destruct r as [| a [| b [| c [| ? ?]]]]; try discriminate.
    cbn [firstn]. rewrite IH. reflexivity.
Qed.

End Arrays.

(* ----------------------------------------------------------------- *)
(** ** The colour analysis on decoded pixels *)

Section ColourAnalysis.
Import Analyzer.

Variable w : world.

Lemma Qltb_div255 (x y : Z) :
  Qltb (inject_Z x / 255) (inject_Z y / 255) = (x <? y).
Proof.
  unfold Qltb, Qdiv, Qmult, Qinv, inject_Z; cbn.
  destruct (Z.ltb_spec x y); [apply Z.ltb_lt | apply Z.ltb_ge]; lia.
Qed.

(** Scaling to [0, 1] does not change which channel holds the maximum. *)
Lemma argmax_winner (p : list Z) :
  List.length p = 3%nat ->
  argmax (map (fun v => (inject_Z v / 255)%Q) p) = winner p.
Proof.
  intros Hp. destruct p as [| a [| b [| c [| ? ?]]]]; try discriminate.
  unfold winner. cbn [map argmax argmax_from nth].
  rewrite !Qltb_div255.
  destruct (Z.ltb_spec a b), (Z.ltb_spec b c), (Z.ltb_spec a c),
    (Z.leb_spec b a), (Z.leb_spec c a), (Z.leb_spec c b);
    cbn [andb]; try reflexivity; lia.
Qed.

Lemma max_channel_winner (smp : list (list Z)) :
  Forall (fun r => List.length r = 3%nat) smp ->
  map argmax (map (map (fun v => (inject_Z v / 255)%Q)) smp) = map winner smp.
Proof.
  induction 1 as [| p smp Hp _ IH]; cbn [map].
  - reflexivity.
  - now rewrite IH, argmax_winner.
Qed.

Lemma count_eq_le (k : nat) (a : list nat) :
  (count_eq k a <= List.length a)%nat.
Proof. unfold count_eq. apply filter_length_le. Qed.

(** A winning fraction exceeds 0.4 exactly when [2 n < 5 count]. *)
Lemma fraction_exceeds (count n : nat) :
  (count <= n)%nat ->
  Qltb (4 # 10) (of_nat_Q count / of_nat_Q n) = (2 * n <? 5 * count)%nat.
Proof.
  intros Hle. destruct n as [| n].
  - assert (count = 0%nat) as -> by lia. reflexivity.
  - unfold Qltb, Qdiv, Qmult, Qinv, of_nat_Q, inject_Z.
    cbn [Qnum Qden Z.of_nat]. cbn [Qnum Qden].
    rewrite Z.mul_1_r, Pos.mul_1_l.
    destruct (Nat.ltb_spec (2 * S n) (5 * count));
      [apply Z.ltb_lt | apply Z.ltb_ge]; lia.
Qed.

(** On any decodable image the colour analysis runs its RGB branch to the
    end: the pixels it sees are the converted ones, whatever the native
    mode was. *)
Lemma color_analysis_rgb (img : image) (px : list (list Z)) :
  img_load img = Ok px ->
  wf_pixels (img_mode img) px ->
  let rgb := rgb_pixels (img_mode img) px in
  Forall (fun i => (i < List.length rgb)%nat) (sample_of w (List.length rgb)) ->
  color_analysis w img initial_stats
  = rgb_stats w rgb (pick rgb (sample_of w (List.length rgb))).
Proof.
  intros Hload Hwf rgb Hidx.
  pose proof (rgb_pixels_length _ _ Hwf) as Hrgb. fold rgb in Hrgb.
  assert (exists img_rgb,
            (if is_RGB (img_mode img) then Ok img else convert_RGB img)
            = Ok img_rgb
            /\ np_array img_rgb
               = Ok {| shape := [Z.to_nat (img_height img);
                                 Z.to_nat (img_width img); 3%nat];
                       data := List.concat rgb |}) as (img_rgb & E1 & E2).
  { destruct (img_mode img) eqn:Em; cbn [is_RGB].
    3: { exists img. split; [reflexivity |].
         unfold np_array. rewrite Hload, Em. cbn [exc_bind bands].
         subst rgb. unfold rgb_pixels. cbn [convert_pixel].
         now rewrite map_id. }
    all: eexists; unfold convert_RGB; rewrite Hload, Em; cbn [exc_bind];
      (split; [reflexivity |]); reflexivity. }
  unfold color_analysis. rewrite E1, E2.
  unfold color_block. cbn [shape data List.length Nat.eqb nth].
  rewrite (reshape_rows_concat 3 rgb) by (auto; lia).
  fold (sample_of w (List.length rgb)).
  rewrite (take_rows_pick rgb _ Hidx).
  set (smp := pick rgb (sample_of w (List.length rgb))).
  assert (Forall (fun r => List.length r = 3%nat) smp) as Hsmp
    by (apply pick_length3; assumption).
  unfold text_block. cbn [shape data List.length Nat.eqb nth orb andb].
  rewrite (reshape_rows_concat 3 rgb) by (auto; lia).
  rewrite (dot3_luminance rgb Hrgb).
  rewrite (max_channel_winner smp Hsmp).
  rewrite !fraction_exceeds by apply count_eq_le.
  rewrite length_map. reflexivity.
Qed.

End ColourAnalysis.

(* ----------------------------------------------------------------- *)
(** ** The basic statistics *)

Section BasicStatistics.
Import Analyzer Demo.

(** A readable image with a known file size gets the full dictionary,
    whatever its dimensions. *)
Lemma analyze_image_basic_loaded (w : world) (path : string) (img : image)
    (px : list (list Z)) (size : Z) :
  image_open w path = Ok img ->
  img_load img = Ok px ->
  wf_pixels (img_mode img) px ->
  stat_size w path = Ok size ->
  let rgb := rgb_pixels (img_mode img) px in
  Forall (fun i => (i < List.length rgb)%nat) (sample_of w (List.length rgb)) ->
  analyze_image_basic w path
  = Ok (basic_result (img_width img) (img_height img) (format_or_unknown img)
          (mode_name (img_mode img)) size
          (rgb_stats w rgb (pick rgb (sample_of w (List.length rgb))))).
Proof.
  intros Hopen Hload Hwf Hsize rgb Hidx.
  unfold analyze_image_basic. rewrite Hopen. cbn [exc_bind].
  rewrite Hsize. cbn [exc_bind].
  now rewrite (color_analysis_rgb w img px Hload Hwf Hidx).
Qed.

Lemma dominant_hue_of_result width height fmt cm size st :
  dict_get "dominant_hue" (basic_result width height fmt cm size st)
  = Some (PStr (dominant_hue st)).
Proof. reflexivity. Qed.

Lemma is_colorful_of_result width height fmt cm size st :
  dict_get "is_colorful" (basic_result width height fmt cm size st)
  = Some (PBool (is_colorful st)).
Proof. reflexivity. Qed.

Lemma brightness_of_result width height fmt cm size st :
  dict_get "brightness" (basic_result width height fmt cm size st)
  = match brightness st with
    | Some b => Some (PFloat (py_round b 1))
    | None => Some PNone
    end.
Proof. cbn. now destruct (brightness st). Qed.

Lemma wins_le k smp : (wins k smp <= List.length smp)%nat.
Proof.
  unfold wins. etransitivity; [apply count_eq_le |]. now rewrite length_map.
Qed.

Lemma exceeds_iff k smp :
  (2 * List.length smp <? 5 * wins k smp)%nat = true
  <-> (4 # 10 < win_fraction k smp)%Q.
Proof.
  unfold win_fraction.
  rewrite <- (fraction_exceeds _ _ (wins_le k smp)). apply Qltb_lt.
Qed.

(** C6 (amended). For a readable RGB image the label is read off the
    fractions of sampled pixels that each channel wins (a tie inside a
    pixel goes to the first channel in the order red, green, blue) by
    asking red first, then green, then blue: it is "red" exactly when
    red's fraction exceeds 0.4, "green" exactly when red's does not and
    green's does, "blue" exactly when neither red's nor green's does and
    blue's does, and "mixed" exactly when none does. *)
Theorem dominant_hue_by_priority (w : world) (path : string) (img : image)
    (px : list (list Z)) (size : Z) :
  image_open w path = Ok img ->
  img_mode img = RGB ->
  img_load img = Ok px ->
  wf_pixels RGB px ->
  stat_size w path = Ok size ->
  Forall (fun i => (i < List.length px)%nat) (sample_of w (List.length px)) ->
  let smp := pick px (sample_of w (List.length px)) in
  let above k := (4 # 10 < win_fraction k smp)%Q in
  exists result hue,
    analyze_image_basic w path = Ok result
    /\ dict_get "dominant_hue" result = Some (PStr hue)
    /\ (hue = "red" <-> above 0%nat)
    /\ (hue = "green" <-> ~ above 0%nat /\ above 1%nat)
    /\ (hue = "blue" <-> ~ above 0%nat /\ ~ above 1%nat /\ above 2%nat)
    /\ (hue = "mixed" <-> ~ above 0%nat /\ ~ above 1%nat /\ ~ above 2%nat).
Proof.
  intros Hopen Hmode Hload Hwf Hsize Hidx smp above.
  assert (rgb_pixels (img_mode img) px = px) as Hrgb.
  { rewrite Hmode. unfold rgb_pixels. cbn [convert_pixel]. apply map_id. }
  rewrite <- Hmode in Hwf.
  pose proof (analyze_image_basic_loaded w path img px size Hopen Hload Hwf Hsize)
    as E. cbn zeta in E. rewrite Hrgb in E. specialize (E Hidx).
  do 2 eexists. split; [exact E |]. split; [apply dominant_hue_of_result |].
  cbn [dominant_hue rgb_stats]. fold smp. unfold hue_of_wins.
  subst above. cbn beta. rewrite <- !exceeds_iff.
  destruct (2 * List.length smp <? 5 * wins 0 smp)%nat;
    destruct (2 * List.length smp <? 5 * wins 1 smp)%nat;
    destruct (2 * List.length smp <? 5 * wins 2 smp)%nat;
    repeat split; intros; try discriminate; try reflexivity;
    intuition discriminate.
Qed.

(** A file whose header reads but whose pixel data does not decode: the
    inner handler only logs, so the result holds the header fields, the
    initial values of the statistics and no error string. *)
Lemma undecodable_image_statistics (w : world) (path : string) (img : image)
    (e : string) (size : Z) :
  image_open w path = Ok img ->
  img_load img = Raise e ->
  stat_size w path = Ok size ->
  exists result,
    analyze_image_basic w path = Ok result
    /\ has_error_key (PDict result) = false
    /\ dict_get "brightness" result = Some PNone
    /\ dict_get "average_color_rgb" result = Some PNone
    /\ dict_get "is_colorful" result = Some (PBool false)
    /\ dict_get "dominant_hue" result = Some (PStr "unknown").
Proof.
  intros Hopen Hload Hsize.
  assert (color_analysis w img initial_stats = initial_stats) as Hst.
  { unfold color_analysis.
    destruct (is_RGB (img_mode img)); unfold convert_RGB, np_array;
      rewrite Hload; reflexivity. }
  unfold analyze_image_basic. rewrite Hopen. cbn [exc_bind].
  rewrite Hsize, Hst. cbn [exc_bind].
  eexists. split; [reflexivity |].
  split; [| repeat split].
  unfold basic_result. destruct (img_height img >? 0); reflexivity.
Qed.

End BasicStatistics.

Section BasicStatisticsRuns.
Import Analyzer Demo.

Lemma dominant_hue_by_priority_witness :
  let smp := pick (repeat [255; 0; 0] 8 ++ repeat [0; 255; 0] 8)
               (sample_of (bare_world two_tone) 16) in
  let above k := (4 # 10 < win_fraction k smp)%Q in
  exists result hue,
    analyze_image_basic (bare_world two_tone) "x.png" = Ok result
    /\ dict_get "dominant_hue" result = Some (PStr hue)
    /\ (hue = "red" <-> above 0%nat)
    /\ (hue = "green" <-> ~ above 0%nat /\ above 1%nat)
    /\ (hue = "blue" <-> ~ above 0%nat /\ ~ above 1%nat /\ above 2%nat)
    /\ (hue = "mixed" <-> ~ above 0%nat /\ ~ above 1%nat /\ ~ above 2%nat).
Proof.
  apply (dominant_hue_by_priority (bare_world two_tone) "x.png" two_tone
           (repeat [255; 0; 0] 8 ++ repeat [0; 255; 0] 8) 2048).
  - reflexivity.
  - reflexivity.
  - reflexivity.
  - unfold wf_pixels. simpl. repeat constructor.
  - reflexivity.
  - vm_compute. repeat constructor.
Defined.

(** C6, counterexample. In an image half red and half green both
    fractions are 0.5; green's exceeds 0.4 and yet the label is "red". *)
Lemma green_above_04_labelled_red :
  ~ hue_iff_own_fraction (bare_world two_tone) "x.png".
Proof.
  intros H.
  specialize (H two_tone _ _ eq_refl eq_refl eq_refl eq_refl 1%nat).
  destruct H as [_ H]; [lia |].
  assert (dict_get "dominant_hue"
            (basic_result 4 4 "PNG" "RGB" 2048
               (color_analysis (bare_world two_tone) two_tone initial_stats))
          = Some (PStr "green")) as E.
  { apply H. vm_compute. reflexivity. }
  vm_compute in E. discriminate.
Qed.

(** C2, the failing run. A 10 x 10 image of mode L, every pixel 128, is
    reported with colour mode "L" and yet typed "color" and labelled
    "red": the conversion to RGB comes first, so the grayscale branch is
    never taken and the red channel wins every tie. *)
Theorem grayscale_image_labelled_red :
  exists result,
    analyze_image_basic (bare_world gray_square) "x.png" = Ok result
    /\ dict_get "color_mode" result = Some (PStr "L")
    /\ dict_get "dominant_color_type" result = Some (PStr "color")
    /\ dict_get "dominant_hue" result = Some (PStr "red").
Proof. eexists. split; [vm_compute; reflexivity |]. repeat split. Qed.

(** C3, counterexample. A 5 x 5 image gets its statistics and no
    error. *)
Lemma tiny_image_gets_statistics :
  ~ small_image_rejected (bare_world tiny) "x.png".
Proof.
  intros H.
  destruct (H tiny _ eq_refl (or_introl eq_refl) eq_refl) as [E _].
  vm_compute in E. discriminate.
Qed.

End BasicStatisticsRuns.

Section SizeCheck.
Import Analyzer Server Demo.

Lemma extract_image_skips_small (w : world) (output_dir : string)
    (page_num img_index xref : Z) (analyze_images use_vision_model : bool)
    (ocr_language : string) (pix : pixmap) (s : pstate) :
  new_pixmap w xref = Ok pix ->
  pix_width pix < 10 \/ pix_height pix < 10 ->
  extract_image w output_dir page_num img_index xref analyze_images
    use_vision_model ocr_language s = (Ok None, s).
Proof.
  intros Hpix Hsmall. unfold extract_image, try_except, bind, lift.
  rewrite Hpix.
  assert ((pix_width pix <? 10) || (pix_height pix <? 10) = true) as ->.
  { apply orb_true_iff. rewrite !Z.ltb_lt. exact Hsmall. }
  reflexivity.
Qed.

(** C3 (amended). [analyze_image_basic] has no size threshold: a readable
    image of any dimensions, also below ten pixels, gets a result without
    an error and with its brightness and average colour. The threshold of
    ten pixels is applied before the analysis, in the extraction loop,
    which skips such an image: no entry is produced, nothing is analysed
    and the globals are untouched. *)
Theorem size_threshold_is_in_extraction (w : world) :
  (forall path img px size,
      image_open w path = Ok img ->
      img_load img = Ok px ->
      wf_pixels (img_mode img) px ->
      stat_size w path = Ok size ->
      Forall (fun i => (i < List.length px)%nat) (sample_of w (List.length px)) ->
      exists result b c0 c1 c2,
        analyze_image_basic w path = Ok result
        /\ dict_in "error" result = false
        /\ dict_get "dimensions" result
           = Some (PDict [("width", PInt (img_width img));
                          ("height", PInt (img_height img))])
        /\ dict_get "brightness" result = Some (PFloat b)
        /\ dict_get "average_color_rgb" result
           = Some (PList [PInt c0; PInt c1; PInt c2]))
  /\ (forall output_dir page_num img_index xref analyze_images use_vision_model
        ocr_language pix s,
        new_pixmap w xref = Ok pix ->
        pix_width pix < 10 \/ pix_height pix < 10 ->
        extract_image w output_dir page_num img_index xref analyze_images
          use_vision_model ocr_language s = (Ok None, s)).
Proof.
  split.
  - intros path img px size Hopen Hload Hwf Hsize Hidx.
    pose proof (analyze_image_basic_loaded w path img px size Hopen Hload Hwf
                  Hsize) as E.
    cbn zeta in E. unfold rgb_pixels in E. rewrite length_map in E.
    specialize (E Hidx).
    do 5 eexists. split; [exact E |]. repeat split.
  - intros. now apply extract_image_skips_small with (pix := pix).
Qed.

Lemma size_threshold_is_in_extraction_witness :
  (exists result b c0 c1 c2,
      analyze_image_basic (bare_world tiny) "x.png" = Ok result
      /\ dict_in "error" result = false
      /\ dict_get "dimensions" result
         = Some (PDict [("width", PInt 5); ("height", PInt 5)])
      /\ dict_get "brightness" result = Some (PFloat b)
      /\ dict_get "average_color_rgb" result
         = Some (PList [PInt c0; PInt c1; PInt c2]))
  /\ extract_image (bare_world tiny) "out" 0 0 9 true true "eng" fresh_state
     = (Ok None, fresh_state).
Proof.
  destruct (size_threshold_is_in_extraction (bare_world tiny)) as [Hstats Hskip].
  split.
  - apply (Hstats "x.png" tiny (repeat [200; 30; 30] 25) 2048).
    + reflexivity.
    + reflexivity.
    + unfold wf_pixels. simpl. repeat constructor.
    + reflexivity.
    + vm_compute. repeat constructor.
  - apply (Hskip "out" 0 0 9 true true "eng"
             {| pix_width := 9; pix_height := 9; pix_n := 3; pix_alpha := 0 |}).
    + reflexivity.
    + left. reflexivity.
Defined.

End SizeCheck.

(* ----------------------------------------------------------------- *)
(** ** Means and deviations of constant data *)

Section ConstantData.
Local Open Scope Q_scope.

Lemma Qsum_correct (xs : list Q) : Qsum xs == fold_right Qplus 0 xs.
Proof.
  induction xs as [| x xs IH]; cbn [Qsum fold_right].
  - reflexivity.
  - fold (Qsum xs). now rewrite Qred_correct, IH.
Qed.

Lemma mean_correct (xs : list Q) :
  mean xs == fold_right Qplus 0 xs / of_nat_Q (List.length xs).
Proof. unfold mean. now rewrite Qred_correct, Qsum_correct. Qed.

Lemma of_nat_Q_succ (k : nat) : of_nat_Q (S k) == of_nat_Q k + 1.
Proof.
  unfold of_nat_Q. rewrite Nat2Z.inj_succ, <- Z.add_1_r.
  now rewrite inject_Z_plus.
Qed.

Lemma of_nat_Q_pos (k : nat) : (0 < k)%nat -> 0 < of_nat_Q k.
Proof.
  intros Hk. unfold of_nat_Q. change 0 with (inject_Z 0).
  rewrite <- Zlt_Qlt. lia.
Qed.

Lemma sum_repeat (c : Q) (k : nat) :
  fold_right Qplus 0 (repeat c k) == of_nat_Q k * c.
Proof.
  induction k as [| k IH]; cbn [repeat fold_right].
  - unfold of_nat_Q. cbn. ring.
  - rewrite IH, of_nat_Q_succ. ring.
Qed.

Lemma mean_repeat (c : Q) (k : nat) : (0 < k)%nat -> mean (repeat c k) == c.
Proof.
  intros Hk. rewrite mean_correct, sum_repeat, repeat_length.
  pose proof (of_nat_Q_pos k Hk). field. lra.
Qed.

Lemma Qred_zero (x : Q) : x == 0 -> Qred x = 0.
Proof. intros H. now rewrite (Qred_complete _ _ H). Qed.

(** Constant data has no spread, as a number in lowest terms. *)
Lemma variance_repeat (c : Q) (k : nat) : variance (repeat c k) = 0.
Proof.
  unfold variance. rewrite map_repeat.
  set (d := (c - mean (repeat c k)) * (c - mean (repeat c k))).
  unfold mean at 1. apply Qred_zero.
  rewrite Qsum_correct, sum_repeat, repeat_length.
  destruct k as [| k].
  - cbn. reflexivity.
  - assert (d == 0) as ->.
    { subst d. rewrite mean_repeat by lia. ring. }
    unfold Qdiv. ring.
Qed.

Lemma py_round_proper (x y : Q) (nd : nat) : x == y -> py_round x nd = py_round y nd.
Proof.
  intros H. unfold py_round.
  assert (Qred (x * inject_Z (10 ^ Z.of_nat nd))
          = Qred (y * inject_Z (10 ^ Z.of_nat nd))) as ->; [| reflexivity].
  apply Qred_complete. now rewrite H.
Qed.

End ConstantData.

Section UniformImages.
Import Analyzer Demo.

Lemma pick_repeat (q : list Z) (n : nat) (idx : list nat) :
  Forall (fun i => (i < n)%nat) idx ->
  pick (repeat q n) idx = repeat q (List.length idx).
Proof.
  induction 1 as [| i idx Hi _ IH]; cbn [pick map List.length repeat].
  - reflexivity.
  - f_equal; [| exact IH].
    clear - Hi. revert i Hi. induction n as [| n IHn]; intros i Hi; [lia |].
    destruct i as [| i]; cbn [repeat nth]; [reflexivity |].
    apply IHn. lia.
Qed.

Lemma column_repeat (j : nat) (q : list Z) (k : nat) :
  column j (repeat q k) = repeat (inject_Z (nth j q 0)) k.
Proof. unfold column. apply map_repeat. Qed.

Lemma sum_concat_repeat (r g b : Z) (k : nat) :
  (fold_right Qplus 0 (map inject_Z (List.concat (repeat [r; g; b] k)))
   == of_nat_Q k * inject_Z (r + g + b))%Q.
Proof.
  induction k as [| k IH]; cbn [repeat List.concat app map fold_right].
  - unfold of_nat_Q. cbn. ring.
  - rewrite IH, of_nat_Q_succ, !inject_Z_plus. ring.
Qed.

Lemma length_concat_repeat (r g b : Z) (k : nat) :
  List.length (map inject_Z (List.concat (repeat [r; g; b] k))) = (3 * k)%nat.
Proof.
  rewrite length_map. induction k as [| k IH]; cbn [repeat List.concat].
  - reflexivity.
  - rewrite length_app, IH. cbn. lia.
Qed.

(** The brightness of a uniform sample is the plain average of the three
    channel values. *)
Lemma mean_concat_repeat (r g b : Z) (k : nat) :
  (0 < k)%nat ->
  (mean (map inject_Z (List.concat (repeat [r; g; b] k)))
   == inject_Z (r + g + b) / 3)%Q.
Proof.
  intros Hk. rewrite mean_correct, sum_concat_repeat, length_concat_repeat.
  assert (of_nat_Q (3 * k) == 3 * of_nat_Q k)%Q as ->.
  { unfold of_nat_Q. rewrite Nat2Z.inj_mul, inject_Z_mult. reflexivity. }
  pose proof (of_nat_Q_pos k Hk). field. lra.
Qed.

End UniformImages.

Section UniformStatistics.
Import Analyzer Demo.

(** C5 (amended). For a readable image all of whose pixels have the same
    colour, [is_colorful] is false and the reported brightness is the
    plain average of the three channel values of that colour after
    conversion to RGB, rounded to one decimal; the luminance weights play
    no part in it. The square root of numpy is only asked to send 0
    to 0. *)
Theorem uniform_image_statistics (w : world) (path : string) (img : image)
    (p : list Z) (n : nat) (size : Z) :
  image_open w path = Ok img ->
  img_load img = Ok (repeat p n) ->
  List.length p = bands (img_mode img) ->
  stat_size w path = Ok size ->
  valid_sample n (sample_of w n) ->
  (np_sqrt w 0 == 0)%Q ->
  let q := convert_pixel (img_mode img) p in
  exists result,
    analyze_image_basic w path = Ok result
    /\ dict_get "is_colorful" result = Some (PBool false)
    /\ dict_get "brightness" result
       = Some (PFloat (py_round
                         (inject_Z (nth 0 q 0 + nth 1 q 0 + nth 2 q 0) / 3) 1)).
Proof.
  intros Hopen Hload Hp Hsize [Hne Hidx] Hsqrt q.
  assert (wf_pixels (img_mode img) (repeat p n)) as Hwf.
  { unfold wf_pixels. apply Forall_forall. intros x Hx.
    now rewrite (repeat_spec _ _ _ Hx). }
  assert (rgb_pixels (img_mode img) (repeat p n) = repeat q n) as Hrgb
    by apply map_repeat.
  pose proof (analyze_image_basic_loaded w path img _ size Hopen Hload Hwf Hsize)
    as E.
  cbn zeta in E. rewrite Hrgb, repeat_length in E. specialize (E Hidx).
  rewrite (pick_repeat q n _ Hidx) in E.
  set (k := List.length (sample_of w n)) in E.
  assert (0 < k)%nat as Hk.
  { subst k. destruct (sample_of w n); [congruence | cbn; lia]. }
  assert (List.length q = 3%nat) as Hq.
  { pose proof (rgb_pixels_length _ _ Hwf) as H3. rewrite Hrgb in H3.
    destruct n as [| n]; [inversion Hidx; subst; [congruence | lia] |].
    now inversion H3. }
  destruct q as [| r [| g [| b [| ? ?]]]] eqn:Eq; try discriminate.
  eexists. split; [exact E |]. split.
  - rewrite is_colorful_of_result. cbn [is_colorful rgb_stats].
    do 2 f_equal. cbn [map]. rewrite !column_repeat, !variance_repeat.
    apply Qltb_ge. rewrite mean_correct. cbn [fold_right List.length].
    rewrite Hsqrt. unfold of_nat_Q. cbn. unfold Qdiv. 
    rewrite !Qplus_0_l, Qmult_0_l. discriminate.
  - rewrite brightness_of_result. cbn [brightness rgb_stats nth].
    do 2 f_equal. apply py_round_proper. now apply mean_concat_repeat.
Qed.

Lemma uniform_image_statistics_witness :
  exists result,
    analyze_image_basic (bare_world red_square) "x.png" = Ok result
    /\ dict_get "is_colorful" result = Some (PBool false)
    /\ dict_get "brightness" result
       = Some (PFloat (py_round (inject_Z (255 + 0 + 0) / 3) 1)).
Proof.
  apply (uniform_image_statistics (bare_world red_square) "x.png" red_square
           [255; 0; 0] 100 2048).
  - reflexivity.
  - reflexivity.
  - reflexivity.
  - reflexivity.
  - split; [vm_compute; discriminate | vm_compute; repeat constructor].
  - vm_compute. reflexivity.
Defined.

(** C5, counterexample. A pure red image is reported with brightness 85,
    the average of 255, 0 and 0, while the luminance of pure red is
    76.2195: more than a whole unit apart. *)
Lemma red_brightness_is_not_luminance :
  ~ uniform_brightness_is_luminance (bare_world red_square) "x.png".
Proof.
  intros H.
  destruct (H red_square [255; 0; 0] 100%nat _ eq_refl eq_refl eq_refl)
    as (_ & b & Eb & Hb).
  vm_compute in Eb. injection Eb as <-.
  vm_compute in Hb. apply Hb. reflexivity.
Qed.

End UniformStatistics.

Section GrayscaleImages.
Import Analyzer Demo.

Lemma winner_gray (m : mode) (p : list Z) :
  m = L \/ m = LA -> winner (convert_pixel m p) = 0%nat.
Proof.
  intros [-> | ->]; unfold winner; cbn [convert_pixel nth];
    now rewrite Z.leb_refl.
Qed.

Lemma wins_all (smp : list (list Z)) :
  Forall (fun p => winner p = 0%nat) smp -> wins 0 smp = List.length smp.
Proof.
  unfold wins, count_eq.
  induction 1 as [| p smp Hp _ IH]; simpl.
  - reflexivity.
  - rewrite Hp. simpl. f_equal. exact IH.
Qed.

(** Every image of a grayscale mode is labelled "red", never
    "grayscale": after the conversion each pixel has three equal
    channels and the first wins the tie. *)
Lemma gray_image_hue_red (w : world) (path : string) (img : image)
    (px : list (list Z)) (size : Z) :
  image_open w path = Ok img ->
  img_mode img = L \/ img_mode img = LA ->
  img_load img = Ok px ->
  wf_pixels (img_mode img) px ->
  stat_size w path = Ok size ->
  valid_sample (List.length px) (sample_of w (List.length px)) ->
  exists result,
    analyze_image_basic w path = Ok result
    /\ dict_get "dominant_hue" result = Some (PStr "red").
Proof.
  intros Hopen Hmode Hload Hwf Hsize [Hne Hidx].
  pose proof (analyze_image_basic_loaded w path img px size Hopen Hload Hwf
                Hsize) as E.
  cbn zeta in E. unfold rgb_pixels in E. rewrite length_map in E.
  specialize (E Hidx). eexists. split; [exact E |].
  rewrite dominant_hue_of_result. cbn [dominant_hue rgb_stats].
  set (smp := pick _ _).
  assert (Forall (fun p => winner p = 0%nat) smp) as Hall.
  { subst smp. unfold pick. apply Forall_map.
    eapply Forall_impl; [| exact Hidx]. intros i Hi. cbn beta.
    rewrite nth_indep with (d' := convert_pixel (img_mode img) [])
      by now rewrite length_map.
    rewrite map_nth. now apply winner_gray. }
  rewrite (wins_all smp Hall). unfold hue_of_wins.
  assert (0 < List.length smp)%nat as Hpos.
  { subst smp. unfold pick. rewrite length_map.
    destruct (sample_of w (List.length px)); [congruence | cbn; lia]. }
  destruct (Nat.ltb_spec (2 * List.length smp) (5 * List.length smp));
    [reflexivity | lia].
Qed.

(** C7, the failing run. The image is of mode L, half its pixels 1 and
    half 255: the gray values have mean exactly 128, so by the
    specification's wording the flag is false. The code has converted the
    image to RGB before it asks for the shape, weighs the three equal
    channels, whose weights sum to 0.9999, gets the mean 127.9872 and
    sets the flag. *)
Theorem grayscale_text_likelihood_scaled :
  exists result,
    analyze_image_basic (bare_world checker) "x.png" = Ok result
    /\ dict_get "color_mode" result = Some (PStr "L")
    /\ dict_get "is_likely_text" result = Some (PBool true)
    /\ text_likelihood_spec (bare_world checker) L
         (repeat [1] 50 ++ repeat [255] 50) = false.
Proof.
  eexists. split; [vm_compute; reflexivity |]. repeat split.
Qed.

End GrayscaleImages.

(* ----------------------------------------------------------------- *)
(** ** Strings *)

Section Strings.

Lemma append_assoc (a b c : string) : (a ++ b) ++ c = a ++ (b ++ c).
Proof. induction a as [| x a IH]; cbn; [reflexivity | now rewrite IH]. Qed.

Lemma append_nil_r (a : string) : a ++ EmptyString = a.
Proof. induction a as [| x a IH]; cbn; [reflexivity | now rewrite IH]. Qed.

Lemma prefix_append (a b : string) : String.prefix a (a ++ b) = true.
Proof.
  induction a as [| x a IH]; cbn.
  - now destruct b.
  - destruct (ascii_dec x x); [exact IH | congruence].
Qed.

Lemma contains_infix (x pre post : string) :
  Str.contains x (pre ++ x ++ post) = true.
Proof.
  induction pre as [| c pre IH].
  - cbn [append]. destruct (x ++ post) eqn:E; cbn [Str.contains];
      rewrite <- E, prefix_append; reflexivity.
  - cbn [append Str.contains]. rewrite IH.
    now destruct (String.prefix x (String c (pre ++ x ++ post))).
Qed.

(** A joined text holds each of its parts. *)
Lemma join_infix (sep x : string) (parts : list string) :
  In x parts -> exists pre post, Str.join sep parts = pre ++ x ++ post.
Proof.
  induction parts as [| p parts IH]; intros Hin; [destruct Hin |].
  destruct Hin as [-> | Hin].
  - exists EmptyString. destruct parts as [| p' parts].
    + exists EmptyString. cbn. now rewrite append_nil_r.
    + eexists. cbn [Str.join append]. reflexivity.
  - destruct (IH Hin) as (pre & post & E).
    destruct parts as [| p' parts]; [destruct Hin |].
    exists (p ++ sep ++ pre), post.
    change (Str.join sep (p :: p' :: parts))
      with (p ++ sep ++ Str.join sep (p' :: parts)).
    now rewrite E, !append_assoc.
Qed.

Lemma take_length (n : nat) (t : string) :
  (n <= String.length t)%nat -> String.length (Str.take n t) = n.
Proof.
  revert t. induction n as [| n IH]; intros t Hn.
  - now destruct t.
  - destruct t as [| c t]; cbn in *; [lia |]. rewrite IH; lia.
Qed.

Lemma take_prefix (n : nat) (t : string) : String.prefix (Str.take n t) t = true.
Proof.
  revert t. induction n as [| n IH]; intros t.
  - now destruct t.
  - destruct t as [| c t]; cbn; [reflexivity |].
    destruct (ascii_dec c c); [apply IH | congruence].
Qed.

End Strings.

(* ----------------------------------------------------------------- *)
(** ** Description synthesis *)

Section Description.
Import Analyzer Demo.

Variable w : world.

Lemma gt_float (q t : Q) : gt (PFloat q) (PFloat t) = Ok (Qltb t q).
Proof. reflexivity. Qed.

Lemma lt_float (q t : Q) : lt (PFloat q) (PFloat t) = Ok (Qltb q t).
Proof. reflexivity. Qed.

(** On a full result the orientation clause is always produced. *)
Lemma orientation_clause_result width height fmt cm size st :
  exists desc,
    orientation_clause w (basic_result width height fmt cm size st)
    = Ok [ "This is a " ++ desc ++ " image (" ++ Str.of_Z width ++ "x"
             ++ Str.of_Z height ++ " pixels)" ].
Proof.
  unfold orientation_clause, basic_result.
  cbn [dict_in dict_get dict_get_default getitem String.eqb Ascii.eqb Bool.eqb
         exc_bind].
  destruct (height >? 0).
  - rewrite gt_float.
    destruct (Qltb 2 _); cbn [exc_bind];
      [exists "wide, panoramic"; reflexivity |].
    rewrite lt_float. cbn [exc_bind].
    destruct (Qltb _ (6 # 10));
      [exists "tall, portrait-oriented" | exists "standard"]; reflexivity.
  - exists "tall, portrait-oriented". reflexivity.
Qed.

Lemma brightness_clause_result width height fmt cm size st :
  exists b, brightness_clause (basic_result width height fmt cm size st) = Ok b.
Proof.
  unfold brightness_clause. rewrite brightness_of_result.
  destruct (brightness st) as [b |]; [| eexists; reflexivity].
  destruct (truthy _); [eexists; reflexivity |].
  destruct (truthy _); [eexists; reflexivity |].
  cbn. eexists; reflexivity.
Qed.

Lemma colorful_clause_result width height fmt cm size st :
  colorful_clause (basic_result width height fmt cm size st)
  = [colorful_sentence (is_colorful st)].
Proof.
  unfold colorful_clause. rewrite is_colorful_of_result. cbn [truthy].
  now destruct (is_colorful st).
Qed.

Lemma hue_clause_result width height fmt cm size st :
  hue_clause w (basic_result width height fmt cm size st)
  = let hue := dominant_hue st in
    if String.eqb hue "unknown" || String.eqb hue "mixed" then []
    else if String.eqb hue "grayscale" then ["The image is grayscale"]
    else ["The image has a " ++ hue ++ "-dominant color palette"].
Proof.
  unfold hue_clause. rewrite dominant_hue_of_result. cbn [ne_str py_str].
  cbn zeta.
  destruct (String.eqb_spec (dominant_hue st) "unknown") as [-> | _];
    [reflexivity |].
  destruct (String.eqb_spec (dominant_hue st) "grayscale") as [-> | _];
    [reflexivity |].
  cbn [negb andb orb]. now destruct (String.eqb (dominant_hue st) "mixed").
Qed.

Lemma ocr_clause_failure msg : ocr_clause w (ocr_failure msg) = Ok [].
Proof. reflexivity. Qed.

Lemma nonempty_spec (t : string) : nonempty t = true <-> t <> EmptyString.
Proof.
  unfold nonempty. destruct (String.eqb_spec t EmptyString); cbn; split;
    congruence.
Qed.

Lemma ocr_clause_success (t : string) :
  ocr_clause w (ocr_success t)
  = Ok (if nonempty t then
          [ "The image contains the following text: " ++ Str.dquote
              ++ (if (200 <? String.length t)%nat then Str.take 200 t ++ "..."
                  else t)
              ++ Str.dquote ]
        else []).
Proof.
  unfold ocr_clause, ocr_success.
  cbn [dict_get dict_get_default String.eqb Ascii.eqb Bool.eqb truthy].
  fold (nonempty t). destruct (nonempty t); [| reflexivity].
  unfold ocr_preview. now destruct (200 <? String.length t)%nat.
Qed.

Lemma ocr_clause_returns ocr_result :
  ocr_shape ocr_result -> exists oc, ocr_clause w ocr_result = Ok oc.
Proof.
  intros [msg | t]; [rewrite ocr_clause_failure | rewrite ocr_clause_success];
    eexists; reflexivity.
Qed.

(** On the results the sub-analyses can return, the synthesis never
    raises and always produces the text-likelihood clause. *)
Lemma description_parts_returns use_vision ocr_result basic_info vision_result :
  ocr_shape ocr_result ->
  basic_shape basic_info ->
  exists parts,
    description_parts w use_vision ocr_result basic_info vision_result = Ok parts
    /\ parts <> [].
Proof.
  intros Hocr Hbasic. destruct (ocr_clause_returns _ Hocr) as [oc Eoc].
  unfold description_parts. rewrite Eoc.
  destruct Hbasic as [e | width height fmt cm size st].
  - cbn. eexists. split; [reflexivity | discriminate].
  - destruct (orientation_clause_result width height fmt cm size st) as [d ->].
    destruct (brightness_clause_result width height fmt cm size st) as [b ->].
    cbn [exc_bind]. eexists. split; [reflexivity | discriminate].
Qed.

End Description.

(* ----------------------------------------------------------------- *)
(** ** The hybrid analysis *)

Section Hybrid.
Import Analyzer Demo.

Variable w : world.

(** Every call runs its sub-analyses to a dictionary each and returns
    the combined dictionary. *)
Lemma analyze_image_hybrid_run (path : string) (use_vision : bool)
    (lang model : string) (s : pstate) :
  exists ocr_result s1 basic_info vision_result s2 parts,
    analyze_image_ocr w path lang s = (Ok ocr_result, s1)
    /\ ocr_shape ocr_result
    /\ analyze_image_basic w path = Ok basic_info
    /\ basic_shape basic_info
    /\ (if use_vision then analyze_image_vision w path model s1
        else (Ok [], s1)) = (Ok vision_result, s2)
    /\ (if use_vision then vision_shape vision_result else vision_result = [])
    /\ description_parts w use_vision ocr_result basic_info vision_result
       = Ok parts
    /\ parts <> []
    /\ analyze_image_hybrid w path use_vision lang model s
       = (Ok (hybrid_result use_vision ocr_result basic_info vision_result
                (join_description parts)), s2).
Proof.
  destruct (analyze_image_ocr_returns w path lang s)
    as (ocr_result & s1 & Eocr & Hocr & _).
  destruct (analyze_image_basic_returns w path) as (basic_info & Ebasic & Hbasic).
  assert (exists vision_result s2,
            (if use_vision then analyze_image_vision w path model s1
             else (Ok [], s1)) = (Ok vision_result, s2)
            /\ (if use_vision then vision_shape vision_result
                else vision_result = [])) as (vision_result & s2 & Evis & Hvis).
  { destruct use_vision.
    - destruct (analyze_image_vision_returns w path model s1) as (d & s2 & E & H).
      now exists d, s2.
    - now exists [], s1. }
  destruct (description_parts_returns w use_vision ocr_result basic_info
              vision_result Hocr Hbasic) as (parts & Eparts & Hparts).
  exists ocr_result, s1, basic_info, vision_result, s2, parts.
  repeat (split; [assumption |]).
  unfold analyze_image_hybrid, bind, lift, ret.
  rewrite Eocr, Ebasic.
  destruct use_vision; cbv beta iota.
  - rewrite Evis, Eparts. reflexivity.
  - injection Evis as <- <-. rewrite Eparts. reflexivity.
Qed.

Lemma description_parts_ocr use_vision ocr_result basic_info vision_result
    parts oc :
  description_parts w use_vision ocr_result basic_info vision_result = Ok parts ->
  ocr_clause w ocr_result = Ok oc ->
  forall c, In c oc -> In c parts.
Proof.
  unfold description_parts. intros E Eoc c Hc. rewrite Eoc in E.
  destruct (orientation_clause w basic_info); [| discriminate].
  destruct (brightness_clause basic_info); [| discriminate].
  cbn [exc_bind] in E. injection E as <-.
  rewrite !in_app_iff. auto 10.
Qed.

End Hybrid.

Section HybridClaims.
Import Analyzer Demo.

Lemma has_error_key_ints (l : list Q) :
  has_error_key (PList (map (fun x => PInt (py_int x)) l)) = false.
Proof. induction l as [| x l IH]; simpl; [reflexivity | exact IH]. Qed.

Lemma has_error_key_cons (k : string) (x : pyval) (d : dict) :
  has_error_key (PDict ((k, x) :: d))
  = String.eqb k "error" || has_error_key x || has_error_key (PDict d).
Proof. reflexivity. Qed.

Lemma has_error_key_basic_result width height fmt cm size st :
  has_error_key (PDict (basic_result width height fmt cm size st)) = false.
Proof.
  unfold basic_result.
  destruct (avg_color st) as [[| c cs] |], (brightness st), (height >? 0);
    simpl; try reflexivity;
    rewrite orb_false_r;
    change (has_error_key (PList (map (fun x => PInt (py_int x)) cs)) = false);
    apply has_error_key_ints.
Qed.

(** What decides the error key of the basic analysis: the two calls of
    its outer [try] that can raise, [Image.open] (line 177) and
    [Path.stat] (line 276). *)
Lemma analyze_image_basic_outcome (w : world) (path : string)
    (basic_info : dict) :
  analyze_image_basic w path = Ok basic_info ->
  (forall e, image_open w path = Raise e -> basic_info = [("error", PStr e)])
  /\ (forall img e,
        image_open w path = Ok img -> stat_size w path = Raise e ->
        basic_info = [("error", PStr e)])
  /\ (forall img size,
        image_open w path = Ok img -> stat_size w path = Ok size ->
        dict_in "error" basic_info = false).
Proof.
  unfold analyze_image_basic. intros H. repeat split.
  - intros e He. rewrite He in H. cbn [exc_bind] in H. now injection H as <-.
  - intros img e Hi He. rewrite Hi in H. cbn [exc_bind] in H.
    rewrite He in H. cbn [exc_bind] in H. now injection H as <-.
  - intros img size Hi Hs. rewrite Hi in H. cbn [exc_bind] in H.
    rewrite Hs in H. cbn [exc_bind] in H. now injection H as <-.
Qed.

(** C1 (amended). For every image path and every combination of options
    the hybrid analysis returns a dictionary and never raises, and so do
    its three sub-analyses. The only error string the returned
    dictionary can hold is that of the basic analysis. It is there when
    [Image.open] raised, and when the image opened but [Path.stat]
    raised; [basic_info] is then that error and nothing else. It is not
    there when both calls returned and the image holds at least one
    pixel or its pixel data does not decode. A failure of the OCR or of
    the captioning shows as an empty [ocr_text] or [vision_description];
    the error strings of those two sub-results are not carried over. *)
Theorem analyze_image_hybrid_returns (w : world) (path : string)
    (use_vision : bool) (lang model : string) (s : pstate) :
  exists ocr_result s1 basic_info vision_result s2 result,
    analyze_image_ocr w path lang s = (Ok ocr_result, s1)
    /\ analyze_image_basic w path = Ok basic_info
    /\ (if use_vision then analyze_image_vision w path model s1
        else (Ok [], s1)) = (Ok vision_result, s2)
    /\ analyze_image_hybrid w path use_vision lang model s = (Ok result, s2)
    /\ map fst result
       = ["ocr_text"; "basic_info"; "vision_description"; "description";
          "analysis_summary"]
    /\ dict_get "basic_info" result = Some (PDict basic_info)
    /\ has_error_key (PDict result) = dict_in "error" basic_info
    /\ (dict_in "error" basic_info = true ->
        exists e, basic_info = [("error", PStr e)])
    /\ (dict_in "error" ocr_result = true ->
        dict_get "ocr_text" result = Some (PStr EmptyString))
    /\ (use_vision = true -> dict_in "error" vision_result = true ->
        dict_get "vision_description" result = Some (PStr EmptyString))
    /\ (forall e,
          image_open w path = Raise e -> basic_info = [("error", PStr e)])
    /\ (forall img e,
          image_open w path = Ok img -> stat_size w path = Raise e ->
          basic_info = [("error", PStr e)])
    /\ (forall img size,
          image_open w path = Ok img -> stat_size w path = Ok size ->
          img_load img <> Ok [] ->
          dict_in "error" basic_info = false).
Proof.
  destruct (analyze_image_hybrid_run w path use_vision lang model s)
    as (ocr_result & s1 & basic_info & vision_result & s2 & parts
        & Eocr & Hocr & Ebasic & Hbasic & Evis & Hvis & _ & _ & Erun).
  destruct (analyze_image_basic_outcome w path basic_info Ebasic)
    as (Hopen & Hstat & Hfull).
  exists ocr_result, s1, basic_info, vision_result, s2.
  eexists. repeat (split; [eassumption |]).
  split; [reflexivity |]. split; [reflexivity |].
  split; [| split; [| split; [| split; [| split; [| split]]]]].
  - unfold hybrid_result.
    destruct use_vision; [destruct Hvis | subst vision_result];
      destruct Hocr, Hbasic;
      rewrite !has_error_key_cons, ?has_error_key_basic_result; reflexivity.
  - intros H. destruct Hbasic; [eexists; reflexivity | discriminate].
  - intros H. destruct Hocr; [reflexivity | discriminate].
  - intros Hv H. subst use_vision. destruct Hvis; [reflexivity | discriminate].
  - exact Hopen.
  - exact Hstat.
  - intros img size Hi Hs _. exact (Hfull img size Hi Hs).
Qed.

Lemma analyze_image_hybrid_returns_witness :
  exists basic_info result s2,
    analyze_image_hybrid (bare_world gray_square) "x.png" false "eng"
      "Salesforce/blip-image-captioning-base" fresh_state
    = (Ok result, s2)
    /\ dict_get "basic_info" result = Some (PDict basic_info)
    /\ dict_in "error" basic_info = false.
Proof.
  destruct (analyze_image_hybrid_returns (bare_world gray_square)
              "x.png" false "eng" "Salesforce/blip-image-captioning-base"
              fresh_state)
    as (ocr & s1 & basic & vis & s2 & result & _ & _ & _ & E & _ & Hb & _ & _
        & _ & _ & _ & _ & Hfull).
  exists basic, result, s2. split; [exact E |]. split; [exact Hb |].
  apply (Hfull gray_square 2048); [reflexivity | reflexivity |].
  discriminate.
Defined.

(** C1, counterexample. Without Tesseract the OCR sub-analysis fails with
    its own error string, and the dictionary returned by the hybrid
    analysis holds no error string anywhere. *)
Lemma ocr_failure_goes_unreported :
  ~ ocr_failure_is_reported (bare_world gray_square) "x.png" false "eng"
      "Salesforce/blip-image-captioning-base" fresh_state.
Proof.
  intros H.
  eassert (analyze_image_ocr (bare_world gray_square) "x.png" "eng" fresh_state
           = _) as Eocr by (vm_compute; reflexivity).
  eassert (analyze_image_hybrid (bare_world gray_square) "x.png" false "eng"
             "Salesforce/blip-image-captioning-base" fresh_state = _) as Erun
    by (vm_compute; reflexivity).
  specialize (H _ _ _ _ Eocr eq_refl Erun).
  revert H. vm_compute. discriminate.
Qed.

(** C8 (amended). On a full analysis result the description starts with
    the orientation clause, and what follows it depends on the hue: for
    "unknown" and for "mixed" the colourfulness clause follows directly,
    with no hue clause; for "grayscale" the clause "The image is
    grayscale" stands between the two; for every other hue the clause
    naming that hue stands between the two. *)
Theorem hue_clause_placement (w : world) (use_vision : bool)
    (ocr_result vision_result : dict) (width height : Z) (fmt cm : string)
    (size : Z) (st : stats) (oc : list string) :
  ocr_clause w ocr_result = Ok oc ->
  let hue := dominant_hue st in
  let parts :=
    description_parts w use_vision ocr_result
      (basic_result width height fmt cm size st) vision_result in
  let colorful := colorful_sentence (is_colorful st) in
  exists o rest,
    String.prefix "This is a " o = true
    /\ (hue = "unknown" \/ hue = "mixed" ->
        parts = Ok (o :: colorful :: rest))
    /\ (hue = "grayscale" ->
        parts = Ok (o :: "The image is grayscale" :: colorful :: rest))
    /\ (hue <> "unknown" -> hue <> "mixed" -> hue <> "grayscale" ->
        parts
        = Ok (o :: ("The image has a " ++ hue ++ "-dominant color palette")
                :: colorful :: rest)).
Proof.
  intros Eoc hue parts colorful.
  destruct (orientation_clause_result w width height fmt cm size st) as [d Eo].
  destruct (brightness_clause_result width height fmt cm size st) as [b Eb].
  exists ("This is a " ++ d ++ " image (" ++ Str.of_Z width ++ "x"
            ++ Str.of_Z height ++ " pixels)").
  exists (b ++ text_clause (basic_result width height fmt cm size st) ++ oc
            ++ vision_clause w use_vision vision_result)%list.
  split; [apply prefix_append |].
  subst parts. unfold description_parts.
  rewrite Eo, Eb, Eoc, hue_clause_result, colorful_clause_result.
  cbn [exc_bind]. fold hue. fold colorful. cbn zeta.
  split; [| split].
  - intros [-> | ->]; reflexivity.
  - intros ->. reflexivity.
  - intros H1 H2 H3.
    apply String.eqb_neq in H1, H2, H3. now rewrite H1, H2, H3.
Qed.

Lemma hue_clause_placement_witness :
  let st := rgb_stats (bare_world three_tone)
              [[255; 0; 0]; [0; 255; 0]; [0; 0; 255]]
              [[255; 0; 0]; [0; 255; 0]; [0; 0; 255]] in
  let hue := dominant_hue st in
  let parts :=
    description_parts (bare_world three_tone) false
      (ocr_failure "Tesseract not installed or not in PATH")
      (basic_result 3 1 "PNG" "RGB" 2048 st) [] in
  let colorful := colorful_sentence (is_colorful st) in
  exists o rest,
    String.prefix "This is a " o = true
    /\ (hue = "unknown" \/ hue = "mixed" ->
        parts = Ok (o :: colorful :: rest))
    /\ (hue = "grayscale" ->
        parts = Ok (o :: "The image is grayscale" :: colorful :: rest))
    /\ (hue <> "unknown" -> hue <> "mixed" -> hue <> "grayscale" ->
        parts
        = Ok (o :: ("The image has a " ++ hue ++ "-dominant color palette")
                :: colorful :: rest)).
Proof.
  apply (hue_clause_placement (bare_world three_tone) false
           (ocr_failure "Tesseract not installed or not in PATH") []
           3 1 "PNG" "RGB" 2048 _ []).
  reflexivity.
Defined.

(** C8, counterexample. An image with one red, one green and one blue
    pixel has the hue "mixed", which is not "unknown", and its
    description holds no hue clause. *)
Lemma mixed_hue_has_no_clause :
  ~ hue_clause_unless_unknown (bare_world three_tone) "x.png" fresh_state.
Proof.
  intros H.
  eassert (analyze_image_hybrid (bare_world three_tone) "x.png" false "eng"
             "Salesforce/blip-image-captioning-base" fresh_state = _) as Erun
    by (vm_compute; reflexivity).
  edestruct H as [Hc | Hc];
    [exact Erun | reflexivity | reflexivity | discriminate | reflexivity | |];
    revert Hc; vm_compute; discriminate.
Qed.

End HybridClaims.

Section OcrClause.
Import Analyzer Demo.

(** C9. Whenever the OCR produced a non-empty text, the description holds
    the OCR clause, which quotes the text unmodified when it has at most
    200 characters and otherwise quotes exactly its first 200 characters
    followed by three dots. *)
Theorem ocr_text_truncated_at_200 (w : world) (path : string)
    (use_vision : bool) (lang model : string) (s s1 : pstate)
    (ocr_result : dict) (t : string) :
  analyze_image_ocr w path lang s = (Ok ocr_result, s1) ->
  dict_get "ocr_text" ocr_result = Some (PStr t) ->
  t <> EmptyString ->
  let preview :=
    if (200 <? String.length t)%nat then Str.take 200 t ++ "..." else t in
  let clause :=
    "The image contains the following text: " ++ Str.dquote ++ preview
      ++ Str.dquote in
  exists result s2 parts description,
    analyze_image_hybrid w path use_vision lang model s = (Ok result, s2)
    /\ dict_get "description" result = Some (PStr description)
    /\ description = Str.join ". " parts ++ "."
    /\ In clause parts
    /\ Str.contains clause description = true
    /\ ((200 < String.length t)%nat ->
        String.length (Str.take 200 t) = 200%nat
        /\ String.prefix (Str.take 200 t) t = true).
Proof.
  intros Eocr Htext Hne preview clause.
  destruct (analyze_image_hybrid_run w path use_vision lang model s)
    as (ocr_result' & s1' & basic_info & vision_result & s2 & parts
        & Eocr' & Hocr & _ & _ & _ & _ & Eparts & Hparts & Erun).
  rewrite Eocr in Eocr'. injection Eocr' as <- <-.
  assert (ocr_result = ocr_success t) as ->.
  { destruct Hocr as [msg | t'].
    - cbn in Htext. injection Htext as <-. congruence.
    - cbn in Htext. now injection Htext as ->. }
  assert (In clause parts) as Hin.
  { apply (description_parts_ocr w _ _ _ _ _ [clause] Eparts); [| now left].
    rewrite ocr_clause_success.
    apply nonempty_spec in Hne. rewrite Hne. reflexivity. }
  exists (hybrid_result use_vision (ocr_success t) basic_info vision_result
            (join_description parts)), s2, parts, (join_description parts).
  assert (join_description parts = Str.join ". " parts ++ ".") as Hjoin
    by (destruct parts; [congruence | reflexivity]).
  split; [exact Erun |]. split; [reflexivity |]. split; [exact Hjoin |].
  split; [exact Hin |]. split.
  - rewrite Hjoin.
    destruct (join_infix ". " clause parts Hin) as (pre & post & ->).
    rewrite !append_assoc. apply contains_infix.
  - intros Hlen. split; [apply take_length; lia | apply take_prefix].
Qed.

Lemma ocr_text_truncated_at_200_witness :
  let preview := Str.take 200 long_text ++ "..." in
  let clause :=
    "The image contains the following text: " ++ Str.dquote ++ preview
      ++ Str.dquote in
  exists result s2 parts description,
    analyze_image_hybrid (scan_world long_text) "scan.png" false "eng"
      "Salesforce/blip-image-captioning-base" fresh_state = (Ok result, s2)
    /\ dict_get "description" result = Some (PStr description)
    /\ description = Str.join ". " parts ++ "."
    /\ In clause parts
    /\ Str.contains clause description = true
    /\ ((200 < String.length long_text)%nat ->
        String.length (Str.take 200 long_text) = 200%nat
        /\ String.prefix (Str.take 200 long_text) long_text = true).
Proof.
  apply (ocr_text_truncated_at_200 (scan_world long_text) "scan.png" false "eng"
           "Salesforce/blip-image-captioning-base" fresh_state
           (set_tesseract_cmd "/usr/bin/tesseract" fresh_state)
           (ocr_success long_text) long_text).
  - vm_compute. reflexivity.
  - reflexivity.
  - discriminate.
Defined.

End OcrClause.

(* ================================================================= *)
(** * Further properties of the code *)

(* ----------------------------------------------------------------- *)
(** ** Rounding *)

Section Rounding.

Lemma round_half_even_lower (n : Z) (d : positive) (k : Z) :
  (2 * k - 1) * Zpos d < 2 * n -> k <= round_half_even (n # d).
Proof.
  intros H. unfold round_half_even. cbn [Qnum Qden].
  pose proof (Z.div_mod n (Zpos d) ltac:(lia)) as Hdm.
  pose proof (Z.mod_pos_bound n (Zpos d) ltac:(lia)) as Hm.
  set (f := n / Zpos d) in *. set (m := n mod Zpos d) in *.
  destruct (Z.compare_spec (2 * m) (Zpos d)); [destruct (Z.even f) | |]; nia.
Qed.

Lemma round_half_even_upper (n : Z) (d : positive) (k : Z) :
  2 * n < (2 * k + 1) * Zpos d -> round_half_even (n # d) <= k.
Proof.
  intros H. unfold round_half_even. cbn [Qnum Qden].
  pose proof (Z.div_mod n (Zpos d) ltac:(lia)) as Hdm.
  pose proof (Z.mod_pos_bound n (Zpos d) ltac:(lia)) as Hm.
  set (f := n / Zpos d) in *. set (m := n mod Zpos d) in *.
  destruct (Z.compare_spec (2 * m) (Zpos d)); [destruct (Z.even f) | |]; nia.
Qed.

(** Rounding never crosses an integer: a value at or above [k] stays at
    or above it. *)
Lemma round_half_even_ge (q : Q) (k : Z) :
  (inject_Z k <= q)%Q -> k <= round_half_even q.
Proof.
  destruct q as [n d]. unfold Qle. cbn [Qnum Qden inject_Z]. intros H.
  apply round_half_even_lower. lia.
Qed.

Lemma round_half_even_le (q : Q) (k : Z) :
  (q <= inject_Z k)%Q -> round_half_even q <= k.
Proof.
  destruct q as [n d]. unfold Qle. cbn [Qnum Qden inject_Z]. intros H.
  apply round_half_even_upper. lia.
Qed.

Lemma pow10_pos (nd : nat) : 0 < 10 ^ Z.of_nat nd.
Proof. apply Z.pow_pos_nonneg; lia. Qed.

Lemma py_round_eq (x : Q) (nd : nat) :
  (py_round x nd
   == inject_Z (round_half_even (Qred (x * inject_Z (10 ^ Z.of_nat nd))))
      / inject_Z (10 ^ Z.of_nat nd))%Q.
Proof.
  unfold py_round. rewrite Qred_correct.
  pose proof (pow10_pos nd) as Hp.
  set (p := 10 ^ Z.of_nat nd) in *.
  set (r := round_half_even _).
  unfold Qeq, Qdiv, Qmult, Qinv, inject_Z. cbn [Qnum Qden].
  destruct p as [| p' | p']; try lia. cbn [Qnum Qden Z.to_pos]. lia.
Qed.

(** [round(x, nd)] of a value at or above the integer [k] is at or above
    [k], and likewise below. *)
Lemma py_round_ge (x : Q) (nd : nat) (k : Z) :
  (inject_Z k <= x)%Q -> (inject_Z k <= py_round x nd)%Q.
Proof.
  intros H. rewrite py_round_eq.
  pose proof (pow10_pos nd) as Hp. set (p := 10 ^ Z.of_nat nd) in *.
  assert (k * p <= round_half_even (Qred (x * inject_Z p))) as Hr.
  { apply round_half_even_ge. rewrite Qred_correct, inject_Z_mult.
    apply Qmult_le_compat_r; [exact H |].
    change 0%Q with (inject_Z 0). rewrite <- Zle_Qle. lia. }
  apply Qle_shift_div_l.
  - change 0%Q with (inject_Z 0). rewrite <- Zlt_Qlt. lia.
  - rewrite <- inject_Z_mult, <- Zle_Qle. exact Hr.
Qed.

Lemma py_round_le (x : Q) (nd : nat) (k : Z) :
  (x <= inject_Z k)%Q -> (py_round x nd <= inject_Z k)%Q.
Proof.
  intros H. rewrite py_round_eq.
  pose proof (pow10_pos nd) as Hp. set (p := 10 ^ Z.of_nat nd) in *.
  assert (round_half_even (Qred (x * inject_Z p)) <= k * p) as Hr.
  { apply round_half_even_le. rewrite Qred_correct, inject_Z_mult.
    apply Qmult_le_compat_r; [exact H |].
    change 0%Q with (inject_Z 0). rewrite <- Zle_Qle. lia. }
  apply Qle_shift_div_r.
  - change 0%Q with (inject_Z 0). rewrite <- Zlt_Qlt. lia.
  - rewrite <- inject_Z_mult, <- Zle_Qle. exact Hr.
Qed.

End Rounding.

Section RoundingHalves.

Lemma round_half_even_above (q : Q) (k : Z) :
  (inject_Z (2 * k - 1) < 2 * q)%Q -> k <= round_half_even q.
Proof.
  destruct q as [n d]. unfold Qlt, Qmult. cbn [Qnum Qden inject_Z]. intros H.
  apply round_half_even_lower. lia.
Qed.

Lemma round_half_even_below (q : Q) (k : Z) :
  (2 * q < inject_Z (2 * k + 1))%Q -> round_half_even q <= k.
Proof.
  destruct q as [n d]. unfold Qlt, Qmult. cbn [Qnum Qden inject_Z]. intros H.
  apply round_half_even_upper. lia.
Qed.

End RoundingHalves.

(* ----------------------------------------------------------------- *)
(** ** Brightness *)

Section Brightness.
Import Analyzer Demo Terms.

Variable w : world.

Lemma color_block_flags img_array st :
  flags_match_brightness st ->
  match color_block w img_array st with
  | Done st' | Failed st' _ => flags_match_brightness st'
  end.
Proof.
  intros H. unfold color_block.
  destruct (List.length (shape img_array) =? 3)%nat; [| exact (conj eq_refl eq_refl)].
  destruct (take_rows _ _); [| exact H].
  destruct (nth 2 (shape img_array) 0%nat =? 3)%nat;
    [| destruct (nth 2 (shape img_array) 0%nat =? 4)%nat];
    exact (conj eq_refl eq_refl).
Qed.

Lemma text_block_flags img_array st :
  flags_match_brightness st ->
  match text_block w img_array st with
  | Done st' | Failed st' _ => flags_match_brightness st'
  end.
Proof.
  intros H. unfold text_block.
  destruct (_ || _)%bool; [exact H |].
  destruct (dot3 _ _ _ _); exact H.
Qed.

(** On every image, readable or not, the flags the colour analysis ends
    with are those of the brightness it ends with. *)
Lemma color_analysis_flags (img : image) :
  flags_match_brightness (color_analysis w img initial_stats).
Proof.
  assert (flags_match_brightness initial_stats) as H0 by (split; reflexivity).
  unfold color_analysis.
  destruct (if is_RGB (img_mode img) then Ok img else convert_RGB img)
    as [img_rgb |]; [| exact H0].
  destruct (np_array img_rgb) as [a |]; [| exact H0].
  pose proof (color_block_flags a initial_stats H0) as H1.
  destruct (color_block w a initial_stats) as [st1 | st1 ?]; [| exact H1].
  pose proof (text_block_flags a st1 H1) as H2.
  destruct (text_block w a st1); exact H2.
Qed.

End Brightness.

Section BrightnessFlags.
Import Analyzer Demo Terms.

Lemma is_bright_of_result width height fmt cm size st :
  dict_get "is_bright" (basic_result width height fmt cm size st)
  = Some (PBool (is_bright st)).
Proof. reflexivity. Qed.

Lemma is_dark_of_result width height fmt cm size st :
  dict_get "is_dark" (basic_result width height fmt cm size st)
  = Some (PBool (is_dark st)).
Proof. reflexivity. Qed.

Lemma analyze_image_basic_cases (w : world) (path : string) (result : dict) :
  analyze_image_basic w path = Ok result ->
  (exists e, result = [("error", PStr e)])
  \/ (exists img size,
        image_open w path = Ok img
        /\ stat_size w path = Ok size
        /\ result = basic_result (img_width img) (img_height img)
                      (format_or_unknown img) (mode_name (img_mode img)) size
                      (color_analysis w img initial_stats)).
Proof.
  unfold analyze_image_basic. intros H.
  destruct (image_open w path) as [img | e]; cbn [exc_bind] in H.
  - destruct (stat_size w path) as [size | e]; cbn [exc_bind] in H;
      injection H as <-.
    + right. exists img, size. auto.
    + left. eauto.
  - injection H as <-. left. eauto.
Qed.

(** X1. On every image, the result never says both bright and dark; when
    it says bright the brightness it shows is at least 180, and when it
    says dark the brightness it shows is at most 75. *)
Theorem bright_and_dark_exclusive (w : world) (path : string) (result : dict) :
  analyze_image_basic w path = Ok result ->
  ~ (dict_get "is_bright" result = Some (PBool true)
     /\ dict_get "is_dark" result = Some (PBool true))
  /\ (dict_get "is_bright" result = Some (PBool true) ->
      exists b, dict_get "brightness" result = Some (PFloat b) /\ (180 <= b)%Q)
  /\ (dict_get "is_dark" result = Some (PBool true) ->
      exists b, dict_get "brightness" result = Some (PFloat b) /\ (b <= 75)%Q).
Proof.
  intros H.
  destruct (analyze_image_basic_cases w path result H)
    as [[e ->] | (img & size & _ & _ & ->)].
  { repeat split; [intros [E _] | intros E | intros E]; discriminate. }
  rewrite is_bright_of_result, is_dark_of_result, brightness_of_result.
  pose proof (color_analysis_flags w img) as Hf.
  unfold flags_match_brightness in Hf.
  destruct (brightness (color_analysis w img initial_stats)) as [b |];
    destruct Hf as [-> ->].
  2: { repeat split; [intros [E _] | intros E | intros E]; discriminate. }
  split; [| split].
  - intros [Eb Ed]. injection Eb as Eb. injection Ed as Ed.
    apply Qltb_lt in Eb, Ed. lra.
  - intros Eb. injection Eb as Eb. apply Qltb_lt in Eb.
    eexists. split; [reflexivity |].
    change 180%Q with (inject_Z 180). apply py_round_ge.
    change (inject_Z 180) with 180%Q. lra.
  - intros Ed. injection Ed as Ed. apply Qltb_lt in Ed.
    eexists. split; [reflexivity |].
    change 75%Q with (inject_Z 75). apply py_round_le.
    change (inject_Z 75) with 75%Q. lra.
Qed.

Lemma bright_and_dark_exclusive_witness :
  exists result,
    analyze_image_basic (bare_world red_square) "x.png" = Ok result
    /\ ~ (dict_get "is_bright" result = Some (PBool true)
          /\ dict_get "is_dark" result = Some (PBool true))
    /\ (dict_get "is_bright" result = Some (PBool true) ->
        exists b, dict_get "brightness" result = Some (PFloat b) /\ (180 <= b)%Q)
    /\ (dict_get "is_dark" result = Some (PBool true) ->
        exists b, dict_get "brightness" result = Some (PFloat b) /\ (b <= 75)%Q).
Proof.
  eexists. split; [vm_compute; reflexivity |].
  apply (bright_and_dark_exclusive (bare_world red_square) "x.png").
  vm_compute. reflexivity.
Defined.

End BrightnessFlags.

(* ----------------------------------------------------------------- *)
(** ** Statistics of byte-valued pixels *)

Section ByteRange.
Import Analyzer Demo Terms.
Local Open Scope Q_scope.

Lemma sum_bounds (lo hi : Q) (xs : list Q) :
  Forall (fun x => lo <= x /\ x <= hi) xs ->
  of_nat_Q (List.length xs) * lo <= fold_right Qplus 0 xs
  /\ fold_right Qplus 0 xs <= of_nat_Q (List.length xs) * hi.
Proof.
  induction 1 as [| x xs [Hlo Hhi] _ [IHlo IHhi]]; cbn [fold_right List.length].
  - change (of_nat_Q 0) with 0. rewrite !Qmult_0_l. split; apply Qle_refl.
  - rewrite of_nat_Q_succ.
    set (n := of_nat_Q (List.length xs)) in *.
    setoid_replace ((n + 1) * lo) with (n * lo + lo) by ring.
    setoid_replace ((n + 1) * hi) with (n * hi + hi) by ring.
    split; lra.
Qed.

(** A mean lies between the bounds of the data. *)
Lemma mean_bounds (lo hi : Q) (xs : list Q) :
  xs <> [] ->
  Forall (fun x => lo <= x /\ x <= hi) xs ->
  lo <= mean xs /\ mean xs <= hi.
Proof.
  intros Hne Hall. rewrite mean_correct.
  destruct (sum_bounds lo hi xs Hall) as [Hlo Hhi].
  assert (0 < of_nat_Q (List.length xs)) as Hn.
  { apply of_nat_Q_pos. destruct xs; [congruence | cbn; lia]. }
  split.
  - apply Qle_shift_div_l; [exact Hn | lra].
  - apply Qle_shift_div_r; [exact Hn | lra].
Qed.

Lemma py_int_bounds (q : Q) (lo hi : Z) :
  (0 <= lo)%Z -> inject_Z lo <= q -> q <= inject_Z hi ->
  (lo <= py_int q <= hi)%Z.
Proof.
  destruct q as [n d]. unfold Qle, py_int. cbn [Qnum Qden inject_Z].
  intros Hlo H1 H2.
  assert (0 <= n)%Z as Hn by nia.
  rewrite Z.quot_div_nonneg by lia.
  split.
  - apply Z.div_le_lower_bound; lia.
  - apply Z.div_le_upper_bound; lia.
Qed.

Lemma byte_Q (v : Z) : (0 <= v <= 255)%Z -> 0 <= inject_Z v /\ inject_Z v <= 255.
Proof.
  intros [H1 H2]. split.
  - change 0 with (inject_Z 0). now rewrite <- Zle_Qle.
  - change 255 with (inject_Z 255). now rewrite <- Zle_Qle.
Qed.

Lemma convert_pixel_bytes (m : mode) (p : list Z) :
  Forall (fun v => (0 <= v <= 255)%Z) p ->
  Forall (fun v => (0 <= v <= 255)%Z) (convert_pixel m p).
Proof.
  intros H.
  assert (0 <= nth 0 p 0%Z <= 255)%Z as H0.
  { destruct p as [| v p]; cbn; [lia | now inversion H]. }
  destruct m; cbn [convert_pixel]; auto.
  rewrite <- (firstn_skipn 3 p) in H. now apply Forall_app in H.
Qed.

Lemma nth_byte (k : nat) (p : list Z) :
  Forall (fun v => (0 <= v <= 255)%Z) p -> (0 <= nth k p 0%Z <= 255)%Z.
Proof.
  intros H. destruct (Nat.lt_ge_cases k (List.length p)) as [Hk | Hk].
  - rewrite Forall_forall in H. apply H. now apply nth_In.
  - rewrite nth_overflow by assumption. lia.
Qed.

Lemma column_bytes (k : nat) (rows : list (list Z)) :
  Forall (Forall (fun v => (0 <= v <= 255)%Z)) rows ->
  Forall (fun x => 0 <= x /\ x <= 255) (column k rows).
Proof.
  intros H. unfold column. apply Forall_map.
  eapply Forall_impl; [| exact H]. intros r Hr. cbn beta.
  apply byte_Q, nth_byte, Hr.
Qed.

Lemma concat_bytes (rows : list (list Z)) :
  Forall (Forall (fun v => (0 <= v <= 255)%Z)) rows ->
  Forall (fun x => 0 <= x /\ x <= 255) (map inject_Z (List.concat rows)).
Proof.
  intros H. apply Forall_map. apply Forall_concat.
  eapply Forall_impl; [| exact H]. intros r Hr. cbn beta.
  eapply Forall_impl; [| exact Hr]. intros v Hv. now apply byte_Q.
Qed.

Lemma pick_bytes (rows : list (list Z)) (idx : list nat) :
  Forall (Forall (fun v => (0 <= v <= 255)%Z)) rows ->
  Forall (Forall (fun v => (0 <= v <= 255)%Z)) (pick rows idx).
Proof.
  intros H. unfold pick. apply Forall_map. apply Forall_forall. intros i _.
  destruct (Nat.lt_ge_cases i (List.length rows)) as [Hi | Hi].
  - rewrite Forall_forall in H. apply H. now apply nth_In.
  - rewrite nth_overflow by assumption. constructor.
Qed.

(** X2. For a readable image whose band values are bytes, the brightness
    shown lies between 0 and 255 and so does each of the three average
    colour values. *)
Theorem statistics_within_byte_range (w : world) (path : string) (img : image)
    (px : list (list Z)) (size : Z) :
  image_open w path = Ok img ->
  img_load img = Ok px ->
  wf_pixels (img_mode img) px ->
  byte_pixels px ->
  stat_size w path = Ok size ->
  valid_sample (List.length px) (sample_of w (List.length px)) ->
  exists result b c0 c1 c2,
    analyze_image_basic w path = Ok result
    /\ dict_get "brightness" result = Some (PFloat b)
    /\ 0 <= b /\ b <= 255
    /\ dict_get "average_color_rgb" result
       = Some (PList [PInt c0; PInt c1; PInt c2])
    /\ (0 <= c0 <= 255)%Z /\ (0 <= c1 <= 255)%Z /\ (0 <= c2 <= 255)%Z.
Proof.
  intros Hopen Hload Hwf Hbytes Hsize [Hne Hidx].
  pose proof (analyze_image_basic_loaded w path img px size Hopen Hload Hwf
                Hsize) as E.
  cbn zeta in E. unfold rgb_pixels in E. rewrite length_map in E.
  specialize (E Hidx). fold (rgb_pixels (img_mode img) px) in E.
  set (rgb := rgb_pixels (img_mode img) px) in *.
  set (smp := pick rgb (sample_of w (List.length px))) in *.
  assert (Forall (Forall (fun v => (0 <= v <= 255)%Z)) rgb) as Hrgb.
  { subst rgb. unfold rgb_pixels. apply Forall_map.
    eapply Forall_impl; [| exact Hbytes]. intros p Hp.
    now apply convert_pixel_bytes. }
  assert (rgb <> []) as Hrgb_ne.
  { subst rgb. unfold rgb_pixels.
    destruct px; [| discriminate].
    destruct (sample_of w (List.length (@nil (list Z)))) as [| i ?];
      [congruence | inversion Hidx; cbn in *; lia]. }
  assert (Forall (Forall (fun v => (0 <= v <= 255)%Z)) smp) as Hsmp
    by now apply pick_bytes.
  assert (Forall (fun r => List.length r = 3%nat) smp) as Hsmp3.
  { apply pick_length3; [now apply rgb_pixels_length |].
    subst rgb. unfold rgb_pixels. now rewrite length_map. }
  assert (map inject_Z (List.concat smp) <> []) as Hsmp_ne.
  { subst smp. unfold pick.
    destruct (sample_of w (List.length px)) as [| i idx]; [congruence |].
    cbn [map] in *. inversion Hsmp3 as [| r rs Hr _ Heq]; subst.
    destruct (nth i rgb []) as [| v r']; [discriminate | discriminate]. }
  destruct (mean_bounds 0 255 _ Hsmp_ne (concat_bytes smp Hsmp)) as [Hb0 Hb1].
  assert (forall k, (0 <= py_int (mean (column k rgb)) <= 255)%Z) as Hc.
  { intros k.
    assert (column k rgb <> []) as Hcol
      by (unfold column; destruct rgb; [congruence | discriminate]).
    destruct (mean_bounds 0 255 _ Hcol (column_bytes k rgb Hrgb)) as [H0 H1].
    apply py_int_bounds; [lia | exact H0 | exact H1]. }
  do 5 eexists. split; [exact E |].
  rewrite brightness_of_result. cbn [brightness rgb_stats].
  split; [reflexivity |].
  split; [change 0 with (inject_Z 0); now apply py_round_ge |].
  split; [change 255 with (inject_Z 255); now apply py_round_le |].
  split; [reflexivity |].
  repeat split; apply Hc.
Qed.

Lemma statistics_within_byte_range_witness :
  exists result b c0 c1 c2,
    analyze_image_basic (bare_world tiny) "x.png" = Ok result
    /\ dict_get "brightness" result = Some (PFloat b)
    /\ 0 <= b /\ b <= 255
    /\ dict_get "average_color_rgb" result
       = Some (PList [PInt c0; PInt c1; PInt c2])
    /\ (0 <= c0 <= 255)%Z /\ (0 <= c1 <= 255)%Z /\ (0 <= c2 <= 255)%Z.
Proof.
  apply (statistics_within_byte_range (bare_world tiny) "x.png" tiny
           (repeat [200; 30; 30]%Z 25) 2048).
  - reflexivity.
  - reflexivity.
  - unfold wf_pixels. simpl. repeat constructor.
  - unfold byte_pixels. simpl. repeat constructor; lia.
  - reflexivity.
  - split; [vm_compute; discriminate | vm_compute; repeat constructor].
Defined.

End ByteRange.

(* ----------------------------------------------------------------- *)
(** ** Orientation *)

Section Orientation.
Import Analyzer Demo Terms.

(** The aspect ratio in hundredths, as line 287 rounds it. *)
Lemma aspect_ratio_hundredths (width height : Z) :
  0 < height ->
  exists r : Z,
    (py_round (inject_Z width / inject_Z height) 2 == inject_Z r / 100)%Q
    /\ (forall k, (2 * k - 1) * height < 200 * width -> k <= r)
    /\ (forall k, 200 * width < (2 * k + 1) * height -> r <= k).
Proof.
  intros Hh.
  assert (0 < inject_Z height)%Q as HhQ
    by (change 0%Q with (inject_Z 0); now rewrite <- Zlt_Qlt).
  exists (round_half_even
            (Qred (inject_Z width / inject_Z height * inject_Z (10 ^ Z.of_nat 2)))).
  split; [apply py_round_eq |].
  change (10 ^ Z.of_nat 2) with 100.
  assert (2 * (inject_Z width / inject_Z height * inject_Z 100)
          == inject_Z (200 * width) / inject_Z height)%Q as E.
  { rewrite inject_Z_mult. change (inject_Z 100) with 100%Q.
    change (inject_Z 200) with 200%Q. field. lra. }
  split; intros k Hk.
  - apply round_half_even_above. rewrite Qred_correct, E.
    apply Qlt_shift_div_l; [exact HhQ |].
    rewrite <- inject_Z_mult, <- Zlt_Qlt. exact Hk.
  - apply round_half_even_below. rewrite Qred_correct, E.
    apply Qlt_shift_div_r; [exact HhQ |].
    rewrite <- inject_Z_mult, <- Zlt_Qlt. exact Hk.
Qed.

(** X3. The orientation named in the first clause, in terms of the pixel
    dimensions: wide above a ratio of 2.005, tall below a ratio of 0.595,
    standard in between. *)
Theorem orientation_by_dimensions (w : world) (width height : Z)
    (fmt cm : string) (size : Z) (st : stats) :
  0 < height ->
  let clause d :=
    Ok [ "This is a " ++ d ++ " image (" ++ Str.of_Z width ++ "x"
           ++ Str.of_Z height ++ " pixels)" ] in
  let basic_info := basic_result width height fmt cm size st in
  (401 * height < 200 * width ->
   orientation_clause w basic_info = clause "wide, panoramic")
  /\ (200 * width < 119 * height ->
      orientation_clause w basic_info = clause "tall, portrait-oriented")
  /\ (119 * height < 200 * width -> 200 * width < 401 * height ->
      orientation_clause w basic_info = clause "standard").
Proof.
  intros Hh clause basic_info.
  destruct (aspect_ratio_hundredths width height Hh) as (r & Ea & Hlo & Hhi).
  assert (orientation_clause w basic_info
          = let a := py_round (inject_Z width / inject_Z height) 2 in
            clause (if Qltb 2 a then "wide, panoramic"
                    else if Qltb a (6 # 10) then "tall, portrait-oriented"
                    else "standard")) as ->.
  { subst basic_info clause. unfold orientation_clause, basic_result.
    cbn [dict_in dict_get dict_get_default getitem String.eqb Ascii.eqb
           Bool.eqb exc_bind].
    assert ((height >? 0) = true) as -> by (apply Z.gtb_lt; lia).
    rewrite gt_float. cbn zeta.
    destruct (Qltb 2 _); cbn [exc_bind]; [reflexivity |].
    rewrite lt_float. cbn [exc_bind]. now destruct (Qltb _ (6 # 10)). }
  cbn zeta. set (a := py_round _ 2) in *.
  assert (a * 100 == inject_Z r)%Q as Er by (rewrite Ea; field).
  assert (forall k, k <= r -> (inject_Z k <= a * 100)%Q) as Hge
    by (intros k Hk; rewrite Er; now rewrite <- Zle_Qle).
  assert (forall k, r <= k -> (a * 100 <= inject_Z k)%Q) as Hle
    by (intros k Hk; rewrite Er; now rewrite <- Zle_Qle).
  split; [| split].
  - intros H. specialize (Hge 201 (Hlo 201 ltac:(lia))).
    assert (Qltb 2 a = true) as -> by (apply Qltb_lt; 
      change (inject_Z 201) with 201%Q in Hge; lra).
    reflexivity.
  - intros H. specialize (Hle 59 (Hhi 59 ltac:(lia))).
    change (inject_Z 59) with 59%Q in Hle.
    assert (Qltb 2 a = false) as -> by (apply Qltb_ge; lra).
    assert (Qltb a (6 # 10) = true) as -> by (apply Qltb_lt; lra).
    reflexivity.
  - intros H1 H2.
    specialize (Hge 60 (Hlo 60 ltac:(lia))).
    specialize (Hle 200 (Hhi 200 ltac:(lia))).
    change (inject_Z 60) with 60%Q in Hge.
    change (inject_Z 200) with 200%Q in Hle.
    assert (Qltb 2 a = false) as -> by (apply Qltb_ge; lra).
    assert (Qltb a (6 # 10) = false) as -> by (apply Qltb_ge; lra).
    reflexivity.
Qed.

Lemma orientation_by_dimensions_witness :
  orientation_clause (bare_world tiny)
    (basic_result 1600 400 "PNG" "RGB" 2048 initial_stats)
  = Ok [ "This is a " ++ "wide, panoramic" ++ " image (" ++ Str.of_Z 1600
           ++ "x" ++ Str.of_Z 400 ++ " pixels)" ]
  /\ orientation_clause (bare_world tiny)
       (basic_result 400 1600 "PNG" "RGB" 2048 initial_stats)
     = Ok [ "This is a " ++ "tall, portrait-oriented" ++ " image ("
              ++ Str.of_Z 400 ++ "x" ++ Str.of_Z 1600 ++ " pixels)" ].
Proof.
  split.
  - apply (orientation_by_dimensions (bare_world tiny) 1600 400 "PNG" "RGB"
             2048 initial_stats); lia.
  - apply (orientation_by_dimensions (bare_world tiny) 400 1600 "PNG" "RGB"
             2048 initial_stats); lia.
Defined.

End Orientation.

(* ----------------------------------------------------------------- *)
(** ** [strip] and [split] *)

Section StripSplit.
Import Analyzer Demo Terms.

Lemma lstrip_starts (s : string) : starts_nonspace (Str.lstrip s).
Proof.
  induction s as [| c s IH]; cbn [Str.lstrip]; [exact I |].
  destruct (Str.isspace c) eqn:E; [exact IH | exact E].
Qed.

Lemma lstrip_fixed (s : string) : starts_nonspace s -> Str.lstrip s = s.
Proof. destruct s as [| c s]; cbn; [reflexivity | now intros ->]. Qed.

Lemma rstrip_starts (s : string) :
  starts_nonspace s -> starts_nonspace (Str.rstrip s).
Proof.
  destruct s as [| c s]; cbn [Str.rstrip starts_nonspace]; [auto |].
  intros Hc. destruct (Str.rstrip s); [rewrite Hc |]; exact Hc.
Qed.

Lemma rstrip_rstrip (s : string) : Str.rstrip (Str.rstrip s) = Str.rstrip s.
Proof.
  induction s as [| c s IH]; [reflexivity |].
  cbn [Str.rstrip]. destruct (Str.rstrip s) as [| d r] eqn:E.
  - destruct (Str.isspace c) eqn:Ec; [reflexivity |].
    cbn [Str.rstrip]. now rewrite Ec.
  - cbn [Str.rstrip]. fold Str.rstrip. 
    change (match Str.rstrip (String d r) with
            | EmptyString =>
                if Str.isspace c then EmptyString else String c EmptyString
            | String a s0 => String c (String a s0)
            end = String c (String d r)).
    now rewrite IH.
Qed.

(** Stripping a stripped text changes nothing. *)
Lemma strip_strip (s : string) : Str.strip (Str.strip s) = Str.strip s.
Proof.
  unfold Str.strip.
  rewrite (lstrip_fixed (Str.rstrip (Str.lstrip s)))
    by apply rstrip_starts, lstrip_starts.
  apply rstrip_rstrip.
Qed.

Lemma strip_starts (s : string) : starts_nonspace (Str.strip s).
Proof. unfold Str.strip. apply rstrip_starts, lstrip_starts. Qed.

Lemma split_aux_nonempty (s : string) (cur : list ascii) :
  cur <> [] -> Str.split_aux s cur <> [].
Proof.
  revert cur. induction s as [| c s IH]; intros cur Hcur.
  - cbn. destruct cur; [congruence | discriminate].
  - cbn [Str.split_aux]. destruct (Str.isspace c).
    + destruct cur; [congruence | discriminate].
    + apply IH. discriminate.
Qed.

(** A non-empty text that begins with a non-space character has at least
    one word. *)
Lemma split_nonempty (t : string) :
  starts_nonspace t -> t <> EmptyString ->
  (1 <= List.length (Str.split t))%nat.
Proof.
  destruct t as [| c t]; [congruence |]. cbn [starts_nonspace]. intros Hc _.
  unfold Str.split. cbn [Str.split_aux]. rewrite Hc.
  pose proof (split_aux_nonempty t [c] ltac:(discriminate)) as H.
  destruct (Str.split_aux t [c]); [congruence | cbn; lia].
Qed.

End StripSplit.

(* ----------------------------------------------------------------- *)
(** ** The OCR sub-analysis *)

Section OcrProperties.
Import Analyzer Demo Demo2 Terms.

Variable w : world.

Ltac run_M :=
  unfold bind, ret, lift, try_except, get_state, modify; cbn [fst snd].

Lemma ocr_failure_has_error msg : dict_in "error" (ocr_failure msg) = true.
Proof. reflexivity. Qed.

Lemma ocr_run_sound path lang s d s' :
  ocr_run w path lang s = (Ok d, s') ->
  dict_in "error" d = false ->
  s' = s
  /\ exists img raw,
       image_open w path = Ok img
       /\ 50 <= img_width img /\ 50 <= img_height img
       /\ image_to_string w (tesseract_cmd s) img lang = Ok raw
       /\ d = ocr_success (Str.strip raw).
Proof.
  unfold ocr_run. run_M. intros H Herr.
  destruct (image_open w path) as [img | e].
  2: { injection H as <- <-. discriminate. }
  destruct ((img_width img <? 50) || (img_height img <? 50)) eqn:Esmall.
  { injection H as <- <-. discriminate. }
  destruct (image_to_string w (tesseract_cmd s) img lang) as [raw | e] eqn:Eraw.
  2: { injection H as <- <-. discriminate. }
  injection H as <- <-. split; [reflexivity |].
  apply orb_false_iff in Esmall. destruct Esmall as [H1 H2].
  apply Z.ltb_ge in H1, H2. exists img, raw. auto.
Qed.

Lemma ocr_checked_sound path lang s d s' :
  ocr_checked w path lang s = (Ok d, s') ->
  dict_in "error" d = false ->
  (s' = s \/ path_exists w (tesseract_cmd s') = true)
  /\ (exists v, get_tesseract_version w (tesseract_cmd s') = Ok v)
  /\ exists img raw,
       image_open w path = Ok img
       /\ 50 <= img_width img /\ 50 <= img_height img
       /\ image_to_string w (tesseract_cmd s') img lang = Ok raw
       /\ d = ocr_success (Str.strip raw).
Proof.
  unfold ocr_checked. run_M. intros H Herr.
  destruct (get_tesseract_version w (tesseract_cmd s)) as [v | e] eqn:Ev.
  - destruct (ocr_run_sound _ _ _ _ _ H Herr) as (-> & Hrun).
    split; [now left |]. split; [eauto | exact Hrun].
  - destruct (_find_tesseract_executable w) as [p |].
    2: { injection H as <- <-. discriminate. }
    destruct (nonempty p && path_exists w p) eqn:Ep.
    2: { injection H as <- <-. discriminate. }
    destruct (get_tesseract_version w p) as [v | e2] eqn:Ev2.
    2: { injection H as <- <-. discriminate. }
    destruct (ocr_run_sound _ _ _ _ _ H Herr) as (-> & Hrun).
    apply andb_true_iff in Ep. destruct Ep as [_ Ep].
    split; [now right |]. split; [cbn; eauto | exact Hrun].
Qed.

Lemma ocr_success_is_sound_aux path lang s s' d :
  analyze_image_ocr w path lang s = (Ok d, s') ->
  dict_in "error" d = false ->
  exists raw, d = ocr_success (Str.strip raw).
Proof.
  intros H Herr.
  destruct (analyze_image_ocr_returns w path lang s) as (d' & s1 & E & Hd & _).
  rewrite E in H. injection H as -> ->.
  unfold analyze_image_ocr in E. clear Hd. revert E. run_M. intros H.
  assert (forall s0 d0 s0', ocr_checked w path lang s0 = (Ok d0, s0') ->
            dict_in "error" d0 = false -> exists raw, d0 = ocr_success (Str.strip raw))
    as Hc.
  { intros s0 d0 s0' H0 He0.
    destruct (ocr_checked_sound _ _ _ _ _ H0 He0)
      as (_ & _ & img & raw & _ & _ & _ & _ & ->). eauto. }
  destruct (negb (nonempty (tesseract_cmd s))
            || negb (path_exists w (tesseract_cmd s))).
  - destruct (_find_tesseract_executable w) as [p |].
    2: { injection H as <- <-. discriminate. }
    destruct (nonempty p && path_exists w p).
    2: { injection H as <- <-. discriminate. }
    eapply Hc; eassumption.
  - eapply Hc; eassumption.
Qed.

Lemma analyze_image_ocr_sound (path lang : string) (s s' : pstate) (d : dict) :
  analyze_image_ocr w path lang s = (Ok d, s') ->
  dict_in "error" d = false ->
  path_exists w (tesseract_cmd s') = true
  /\ (exists v, get_tesseract_version w (tesseract_cmd s') = Ok v)
  /\ exists img raw,
       image_open w path = Ok img
       /\ 50 <= img_width img /\ 50 <= img_height img
       /\ image_to_string w (tesseract_cmd s') img lang = Ok raw
       /\ d = ocr_success (Str.strip raw).
Proof.
  unfold analyze_image_ocr. run_M. intros H Herr.
  destruct (negb (nonempty (tesseract_cmd s))
            || negb (path_exists w (tesseract_cmd s))) eqn:Ecmd.
  - destruct (_find_tesseract_executable w) as [p |].
    2: { injection H as <- <-. discriminate. }
    destruct (nonempty p && path_exists w p) eqn:Ep.
    2: { injection H as <- <-. discriminate. }
    apply andb_true_iff in Ep. destruct Ep as [_ Ep].
    destruct (ocr_checked_sound _ _ _ _ _ H Herr) as ([-> | Hex] & Hv & Hrun);
      auto.
  - apply orb_false_iff in Ecmd. destruct Ecmd as [_ Ecmd].
    apply negb_false_iff in Ecmd.
    destruct (ocr_checked_sound _ _ _ _ _ H Herr) as ([-> | Hex] & Hv & Hrun);
      auto.
Qed.

(** X4. A result of the OCR sub-analysis without an error only comes from
    an image at least 50 pixels wide and high, read by a Tesseract
    command that exists on disk and answered its version check; its text
    is the engine's output, stripped. *)
Theorem ocr_success_is_sound (path lang : string) (s s' : pstate) (d : dict) :
  analyze_image_ocr w path lang s = (Ok d, s') ->
  dict_in "error" d = false ->
  path_exists w (tesseract_cmd s') = true
  /\ (exists v, get_tesseract_version w (tesseract_cmd s') = Ok v)
  /\ exists img raw,
       image_open w path = Ok img
       /\ 50 <= img_width img /\ 50 <= img_height img
       /\ image_to_string w (tesseract_cmd s') img lang = Ok raw
       /\ d = ocr_success (Str.strip raw).
Proof. apply analyze_image_ocr_sound. Qed.

(** X5. The text fields of a result without an error: the text is already
    stripped, [has_text] says whether it is non-empty, a non-empty text
    has at least one word and an empty one has none, and the character
    count is its length. *)
Theorem ocr_text_fields (path lang : string) (s s' : pstate) (d : dict) :
  analyze_image_ocr w path lang s = (Ok d, s') ->
  dict_in "error" d = false ->
  exists t words,
    dict_get "ocr_text" d = Some (PStr t)
    /\ Str.strip t = t
    /\ dict_get "has_text" d = Some (PBool (nonempty t))
    /\ dict_get "word_count" d = Some (PInt words)
    /\ (t <> EmptyString -> 1 <= words)
    /\ (t = EmptyString -> words = 0)
    /\ dict_get "character_count" d = Some (PInt (Z.of_nat (String.length t))).
Proof.
  intros H Herr.
  destruct (ocr_success_is_sound_aux path lang s s' d H Herr)
    as (raw & ->).
  eexists _, _. split; [reflexivity |].
  split; [apply strip_strip |]. split; [reflexivity |].
  split; [reflexivity |]. split; [| split; [| reflexivity]].
  - intros Hne. apply nonempty_spec in Hne as Hne'. rewrite Hne'.
    pose proof (split_nonempty _ (strip_starts raw) Hne). lia.
  - intros ->. reflexivity.
Qed.

End OcrProperties.

Section OcrRuns.
Import Analyzer Demo Demo2 Terms.

Lemma ocr_success_is_sound_witness :
  exists d s',
    analyze_image_ocr (scan_world "  Invoice 42 ") "scan.png" "eng" fresh_state
    = (Ok d, s')
    /\ path_exists (scan_world "  Invoice 42 ") (tesseract_cmd s') = true
    /\ (exists v,
          get_tesseract_version (scan_world "  Invoice 42 ") (tesseract_cmd s')
          = Ok v)
    /\ exists img raw,
         image_open (scan_world "  Invoice 42 ") "scan.png" = Ok img
         /\ 50 <= img_width img /\ 50 <= img_height img
         /\ image_to_string (scan_world "  Invoice 42 ") (tesseract_cmd s') img
              "eng" = Ok raw
         /\ d = ocr_success (Str.strip raw).
Proof.
  eexists _, _. split; [vm_compute; reflexivity |].
  apply (ocr_success_is_sound (scan_world "  Invoice 42 ") "scan.png" "eng"
           fresh_state).
  - vm_compute. reflexivity.
  - reflexivity.
Defined.

Lemma ocr_text_fields_witness :
  exists d s',
    analyze_image_ocr (scan_world "  Invoice 42 ") "scan.png" "eng" fresh_state
    = (Ok d, s')
    /\ exists t words,
         dict_get "ocr_text" d = Some (PStr t)
         /\ Str.strip t = t
         /\ dict_get "has_text" d = Some (PBool (nonempty t))
         /\ dict_get "word_count" d = Some (PInt words)
         /\ (t <> EmptyString -> 1 <= words)
         /\ (t = EmptyString -> words = 0)
         /\ dict_get "character_count" d
            = Some (PInt (Z.of_nat (String.length t))).
Proof.
  eexists _, _. split; [vm_compute; reflexivity |].
  apply (ocr_text_fields (scan_world "  Invoice 42 ") "scan.png" "eng"
           fresh_state (set_tesseract_cmd "/usr/bin/tesseract" fresh_state)).
  - vm_compute. reflexivity.
  - reflexivity.
Defined.

(** X6. With a Tesseract that is configured, exists and answers, an image
    narrower or shorter than 50 pixels is refused as too small: the
    engine is not run on it and the globals stay as they were. *)
Theorem small_image_skips_ocr (w : world) (path lang : string) (s : pstate)
    (img : image) (v : string) :
  nonempty (tesseract_cmd s) = true ->
  path_exists w (tesseract_cmd s) = true ->
  get_tesseract_version w (tesseract_cmd s) = Ok v ->
  image_open w path = Ok img ->
  img_width img < 50 \/ img_height img < 50 ->
  analyze_image_ocr w path lang s
  = (Ok (ocr_failure "Image too small for OCR"), s).
Proof.
  intros Hne Hex Hv Hopen Hsmall.
  unfold analyze_image_ocr, bind, get_state. rewrite Hne, Hex. cbn [negb orb].
  unfold ocr_checked, bind, get_state. rewrite Hv.
  unfold ocr_run, try_except, bind, get_state, lift, ret. rewrite Hopen.
  assert ((img_width img <? 50) || (img_height img <? 50) = true) as ->.
  { apply orb_true_iff. rewrite !Z.ltb_lt. exact Hsmall. }
  reflexivity.
Qed.

Lemma small_image_skips_ocr_witness :
  analyze_image_ocr narrow_scan_world "scan.png" "eng" configured_state
  = (Ok (ocr_failure "Image too small for OCR"), configured_state).
Proof.
  apply (small_image_skips_ocr narrow_scan_world "scan.png" "eng"
           configured_state (uniform RGB 30 80 [10; 10; 10]) "5.3.0").
  - reflexivity.
  - reflexivity.
  - reflexivity.
  - reflexivity.
  - left. reflexivity.
Defined.

(** X7. Where a Tesseract path comes from. A non-empty answer of
    [shutil.which] is returned as it is, before anything else is tried;
    any other path returned is returned on Windows only and exists on
    disk. *)
Theorem tesseract_path_provenance (w : world) :
  (forall p, which w "tesseract" = Some p -> p <> EmptyString ->
     _find_tesseract_executable w = Some p)
  /\ (forall p, _find_tesseract_executable w = Some p ->
        (which w "tesseract" = Some p /\ p <> EmptyString)
        \/ (platform_system w = "Windows" /\ path_exists w p = true)).
Proof.
  split.
  - intros p Hw Hp. unfold _find_tesseract_executable. rewrite Hw.
    apply nonempty_spec in Hp. now rewrite Hp.
  - intros p. unfold _find_tesseract_executable.
    destruct (match which w "tesseract" with
              | Some p0 => nonempty p0
              | None => false
              end) eqn:Ewhich.
    + intros E. left. split; [exact E |].
      rewrite E in Ewhich. now apply nonempty_spec.
    + destruct (String.eqb_spec (platform_system w) "Windows") as [Ewin | _];
        [| discriminate].
      intros E. apply find_some in E. right. split; [exact Ewin | apply E].
Qed.

Lemma tesseract_path_provenance_witness :
  _find_tesseract_executable (scan_world "x") = Some "/usr/bin/tesseract".
Proof.
  apply (tesseract_path_provenance (scan_world "x")).
  - reflexivity.
  - discriminate.
Defined.

End OcrRuns.

(* ----------------------------------------------------------------- *)
(** ** What a description is made of *)

Section DescriptionShape.
Import Analyzer Demo Demo2 Terms.

Variable w : world.

Lemma text_clause_sentence (basic_info : dict) :
  exists likely, text_clause basic_info = [text_sentence likely].
Proof.
  unfold text_clause. destruct (truthy _); [exists true | exists false];
    reflexivity.
Qed.

(** The parts always end with the vision clause and hold the
    text-likelihood clause. *)
Lemma description_parts_layout use_vision ocr_result basic_info vision_result
    parts :
  description_parts w use_vision ocr_result basic_info vision_result = Ok parts ->
  exists front likely,
    parts = (front ++ vision_clause w use_vision vision_result)%list
    /\ In (text_sentence likely) front
    /\ exists o b oc,
         orientation_clause w basic_info = Ok o
         /\ brightness_clause basic_info = Ok b
         /\ ocr_clause w ocr_result = Ok oc
         /\ front = (o ++ hue_clause w basic_info ++ colorful_clause basic_info
                       ++ b ++ text_clause basic_info ++ oc)%list.
Proof.
  unfold description_parts. intros E.
  destruct (orientation_clause w basic_info) as [o |]; [| discriminate].
  destruct (brightness_clause basic_info) as [b |]; [| discriminate].
  destruct (ocr_clause w ocr_result) as [oc |]; [| discriminate].
  cbn [exc_bind] in E. injection E as <-.
  destruct (text_clause_sentence basic_info) as [likely Et].
  exists (o ++ hue_clause w basic_info ++ colorful_clause basic_info ++ b
            ++ text_clause basic_info ++ oc)%list, likely.
  split; [now rewrite <- !app_assoc |].
  split; [rewrite Et, !in_app_iff; cbn; auto 10 |].
  exists o, b, oc. auto.
Qed.

Lemma brightness_clause_Th width height fmt cm size st :
  exists b,
    brightness_clause (basic_result width height fmt cm size st) = Ok b
    /\ Forall (fun c => String.prefix "Th" c = true) b.
Proof.
  unfold brightness_clause. rewrite brightness_of_result.
  destruct (brightness st) as [b |]; [| eexists; split; [reflexivity | constructor]].
  destruct (truthy _);
    [eexists; split; [reflexivity | repeat constructor] |].
  destruct (truthy _);
    [eexists; split; [reflexivity | repeat constructor] |].
  cbn. eexists; split; [reflexivity | repeat constructor].
Qed.

(** Every clause other than the vision clause begins with "Th". *)
Lemma front_clauses_Th ocr_result basic_info o b oc :
  ocr_shape ocr_result ->
  basic_shape basic_info ->
  orientation_clause w basic_info = Ok o ->
  brightness_clause basic_info = Ok b ->
  ocr_clause w ocr_result = Ok oc ->
  Forall (fun c => String.prefix "Th" c = true)
    (o ++ hue_clause w basic_info ++ colorful_clause basic_info ++ b
       ++ text_clause basic_info ++ oc)%list.
Proof.
  intros Hocr Hbasic Eo Eb Eoc.
  assert (Forall (fun c => String.prefix "Th" c = true) oc) as Hoc.
  { destruct Hocr as [msg | t].
    - rewrite ocr_clause_failure in Eoc. injection Eoc as <-. constructor.
    - rewrite ocr_clause_success in Eoc. injection Eoc as <-.
      destruct (nonempty t); repeat constructor. }
  assert (Forall (fun c => String.prefix "Th" c = true) (text_clause basic_info))
    as Ht.
  { destruct (text_clause_sentence basic_info) as [[] ->]; repeat constructor. }
  destruct Hbasic as [e | width height fmt cm size st].
  - cbn in Eo, Eb. injection Eo as <-. injection Eb as <-.
    cbn [app]. change (hue_clause w [("error", PStr e)]) with (@nil string).
    change (colorful_clause [("error", PStr e)]) with (@nil string).
    cbn [app]. apply Forall_app. auto.
  - destruct (orientation_clause_result w width height fmt cm size st) as [d Ed].
    rewrite Ed in Eo. injection Eo as <-.
    destruct (brightness_clause_Th width height fmt cm size st) as (b' & Eb' & Hb).
    rewrite Eb' in Eb. injection Eb as <-.
    rewrite hue_clause_result, colorful_clause_result. cbn zeta.
    rewrite !Forall_app. repeat split; auto.
    + destruct (String.eqb (dominant_hue st) "unknown"
                || String.eqb (dominant_hue st) "mixed"); [constructor |].
      destruct (String.eqb (dominant_hue st) "grayscale");
        (constructor; [reflexivity | constructor]).
    + destruct (is_colorful st); (constructor; [reflexivity | constructor]).
Qed.

End DescriptionShape.

(* ----------------------------------------------------------------- *)
(** ** The description of the hybrid analysis *)

Section HybridDescription.
Import Analyzer Demo Demo2 Terms.

Variable w : world.

Lemma join_description_parts (parts : list string) :
  parts <> [] -> join_description parts = Str.join ". " parts ++ ".".
Proof. destruct parts; [congruence | reflexivity]. Qed.

Lemma vision_clause_off (vision_result : dict) :
  vision_clause w false vision_result = [].
Proof. reflexivity. Qed.

Lemma vision_clause_failure (msg : string) :
  vision_clause w true (vision_failure msg)
  = if nonempty msg then [vision_note] else [].
Proof. reflexivity. Qed.

Lemma vision_clause_success (c m : string) :
  vision_clause w true (vision_success c m)
  = if nonempty c then [caption_clause c] else [].
Proof.
  unfold vision_clause, vision_success.
  cbn [dict_get dict_get_default String.eqb Ascii.eqb Bool.eqb truthy andb].
  destruct (nonempty c) eqn:E; [| reflexivity].
  unfold nonempty in E. rewrite E. reflexivity.
Qed.

Lemma text_clause_flag (basic_info : dict) :
  basic_shape basic_info ->
  exists likely,
    dict_get_default "is_likely_text" (PBool false) basic_info = PBool likely
    /\ text_clause basic_info = [text_sentence likely].
Proof.
  intros [e | width height fmt cm size st].
  - exists false. split; reflexivity.
  - exists (is_likely_text st). split; [reflexivity |].
    unfold text_clause.
    change (dict_get_default "is_likely_text" (PBool false)
              (basic_result width height fmt cm size st))
      with (PBool (is_likely_text st)).
    cbn [truthy]. now destruct (is_likely_text st).
Qed.

Lemma contains_joined (x : string) (parts : list string) :
  In x parts -> Str.contains x (Str.join ". " parts ++ ".") = true.
Proof.
  intros Hin. destruct (join_infix ". " x parts Hin) as (pre & post & ->).
  rewrite !append_assoc. apply contains_infix.
Qed.

(** X8. The description of every hybrid analysis is made of clauses: it
    holds the text-likelihood sentence that agrees with the
    [is_likely_text] flag of the summary, and it is never the fallback
    sentence of line 503. *)
Theorem description_states_text_likelihood (path : string) (use_vision : bool)
    (lang model : string) (s : pstate) :
  exists result s' d summary likely,
    analyze_image_hybrid w path use_vision lang model s = (Ok result, s')
    /\ dict_get "description" result = Some (PStr d)
    /\ dict_get "analysis_summary" result = Some (PDict summary)
    /\ dict_get "is_likely_text" summary = Some (PBool likely)
    /\ Str.contains (text_sentence likely) d = true
    /\ d <> fallback_description.
Proof.
  destruct (analyze_image_hybrid_run w path use_vision lang model s)
    as (ocr_result & s1 & basic_info & vision_result & s2 & parts
        & Eocr & Hocr & Ebasic & Hbasic & Evis & Hvis & Eparts & Hne & Erun).
  destruct (text_clause_flag basic_info Hbasic) as (likely & Eflag & Etext).
  destruct (description_parts_layout w _ _ _ _ _ Eparts)
    as (front & likely' & -> & Hin & _).
  assert (In (text_sentence likely)
            (front ++ vision_clause w use_vision vision_result)%list) as Hin'.
  { apply in_or_app. left.
    destruct (description_parts_layout w _ _ _ _ _ Eparts)
      as (front' & l' & E' & _ & o & b & oc & _ & _ & _ & Efront).
    apply app_inv_tail in E'. subst front. rewrite Efront, Etext.
    rewrite !in_app_iff. cbn. auto 10. }
  assert (Str.contains (text_sentence likely)
            (join_description (front ++ vision_clause w use_vision vision_result))
          = true) as Hc.
  { rewrite join_description_parts by exact Hne. now apply contains_joined. }
  eexists _, s2, _, _, likely. split; [exact Erun |].
  split; [reflexivity |]. split; [reflexivity |].
  split; [cbn [dict_get String.eqb Ascii.eqb Bool.eqb]; now rewrite Eflag |].
  split; [exact Hc |].
  intros E. rewrite E in Hc. revert Hc. destruct likely; vm_compute; discriminate.
Qed.

Lemma prefix_Th (c : string) :
  String.prefix "Th" c = true ->
  c <> vision_note /\ forall cap, c <> caption_clause cap.
Proof.
  intros H. split; [| intros cap]; intros ->; revert H; vm_compute;
    discriminate.
Qed.

Lemma hybrid_keeps_vision_off (path lang model : string) (s : pstate) :
  exists ocr_result s1 basic_info parts,
    analyze_image_ocr w path lang s = (Ok ocr_result, s1)
    /\ ocr_shape ocr_result
    /\ analyze_image_basic w path = Ok basic_info
    /\ basic_shape basic_info
    /\ description_parts w false ocr_result basic_info [] = Ok parts
    /\ parts <> []
    /\ analyze_image_hybrid w path false lang model s
       = (Ok (hybrid_result false ocr_result basic_info []
                (join_description parts)), s1).
Proof.
  destruct (analyze_image_hybrid_run w path false lang model s)
    as (ocr_result & s1 & basic_info & vision_result & s2 & parts
        & Eocr & Hocr & Ebasic & Hbasic & Evis & Hvis & Eparts & Hne & Erun).
  subst vision_result. injection Evis as <-.
  exists ocr_result, s1, basic_info, parts. auto 10.
Qed.

(** X9. Without [use_vision] the hybrid analysis leaves the captioning
    model alone: no load is attempted and the model globals keep their
    values; the result's [vision_description] is [None]. Its description
    is made of the clauses that the synthesis gives for the results of
    the OCR and of the basic analysis of this image and an empty vision
    result, and none of these clauses is a caption or the note about a
    missing model. *)
Theorem without_vision_nothing_is_loaded (path lang model : string)
    (s : pstate) :
  exists result s' ocr_result basic_info parts,
    analyze_image_hybrid w path false lang model s = (Ok result, s')
    /\ analyze_image_ocr w path lang s = (Ok ocr_result, s')
    /\ analyze_image_basic w path = Ok basic_info
    /\ description_parts w false ocr_result basic_info [] = Ok parts
    /\ _vision_processor s' = _vision_processor s
    /\ _vision_model s' = _vision_model s
    /\ _vision_model_loaded s' = _vision_model_loaded s
    /\ load_attempts s' = load_attempts s
    /\ dict_get "vision_description" result = Some PNone
    /\ dict_get "description" result = Some (PStr (Str.join ". " parts ++ "."))
    /\ forall c, In c parts ->
         c <> vision_note /\ forall cap, c <> caption_clause cap.
Proof.
  destruct (hybrid_keeps_vision_off path lang model s)
    as (ocr_result & s1 & basic_info & parts
        & Eocr & Hocr & Ebasic & Hbasic & Eparts & Hne & Erun).
  destruct (analyze_image_ocr_returns w path lang s)
    as (d & s1' & E & _ & Hp & Hm & Hl & Ha).
  rewrite Eocr in E. injection E as <- <-.
  exists (hybrid_result false ocr_result basic_info [] (join_description parts)),
    s1, ocr_result, basic_info, parts.
  split; [exact Erun |]. repeat (split; [assumption |]).
  split; [reflexivity |].
  split; [cbn [hybrid_result dict_get String.eqb Ascii.eqb Bool.eqb];
          now rewrite join_description_parts |].
  destruct (description_parts_layout w _ _ _ _ _ Eparts)
    as (front & l & -> & _ & o & b & oc & Eo & Eb & Eoc & ->).
  rewrite vision_clause_off, app_nil_r. intros c Hc.
  apply prefix_Th.
  pose proof (front_clauses_Th w _ _ _ _ _ Hocr Hbasic Eo Eb Eoc) as HF.
  rewrite Forall_forall in HF. now apply HF.
Qed.

Lemma basic_unreadable (path e : string) :
  image_open w path = Raise e ->
  analyze_image_basic w path = Ok [("error", PStr e)].
Proof. intros H. unfold analyze_image_basic. now rewrite H. Qed.

Lemma ocr_unreadable (path lang : string) (s : pstate) (e : string) :
  image_open w path = Raise e ->
  exists msg s', analyze_image_ocr w path lang s = (Ok (ocr_failure msg), s').
Proof.
  intros H.
  destruct (analyze_image_ocr_returns w path lang s) as (d & s' & E & Hd & _).
  destruct Hd as [msg | t]; [eauto |]. exfalso.
  destruct (analyze_image_ocr_sound w _ _ _ _ _ E eq_refl)
    as (_ & _ & img & raw & Eopen & _).
  congruence.
Qed.

Lemma vision_unreadable (path name : string) (s : pstate) (e : string) :
  image_open w path = Raise e ->
  exists msg s',
    analyze_image_vision w path name s = (Ok (vision_failure msg), s')
    /\ (msg = "Vision model not available" \/ msg = e).
Proof.
  intros H. unfold analyze_image_vision.
  destruct (load_vision_model_returns w name s) as (b & s' & E & _).
  unfold bind at 1. rewrite E. destruct b; cbn [negb].
  - unfold bind, ret, lift, try_except. rewrite H. eauto.
  - unfold ret. eauto.
Qed.

Lemma description_parts_unreadable (use_vision : bool) (msg e : string)
    (vision_result : dict) :
  description_parts w use_vision (ocr_failure msg) [("error", PStr e)]
    vision_result
  = Ok (text_sentence false :: vision_clause w use_vision vision_result).
Proof. reflexivity. Qed.

(** X10. An image file that cannot be opened: the hybrid analysis still
    returns; [basic_info] holds nothing but the error of the open, the
    OCR text is empty, and the description is the sentence for a
    graphical element, followed, when a caption was asked for and the
    error has a message, by the note about the unavailable model. *)
Theorem unreadable_image_description (path : string) (use_vision : bool)
    (lang model : string) (s : pstate) (e : string) :
  image_open w path = Raise e ->
  exists result s',
    analyze_image_hybrid w path use_vision lang model s = (Ok result, s')
    /\ dict_get "basic_info" result = Some (PDict [("error", PStr e)])
    /\ dict_get "ocr_text" result = Some (PStr EmptyString)
    /\ (use_vision = false ->
        dict_get "description" result
        = Some (PStr (text_sentence false ++ ".")))
    /\ (use_vision = true -> e <> EmptyString ->
        dict_get "description" result
        = Some (PStr (text_sentence false ++ ". " ++ vision_note ++ "."))).
Proof.
  intros H.
  destruct (ocr_unreadable path lang s e H) as (msg & s1 & Eocr).
  pose proof (basic_unreadable path e H) as Ebasic.
  unfold analyze_image_hybrid, bind, lift, ret. rewrite Eocr, Ebasic.
  destruct use_vision.
  - destruct (vision_unreadable path model s1 e H) as (vmsg & s2 & Evis & Hmsg).
    rewrite Evis, description_parts_unreadable, vision_clause_failure.
    eexists _, s2. split; [reflexivity |]. split; [reflexivity |].
    split; [reflexivity |]. split; [discriminate |]. intros _ He.
    assert (nonempty vmsg = true) as ->.
    { apply nonempty_spec. destruct Hmsg as [-> | ->];
        [discriminate | exact He]. }
    reflexivity.
  - rewrite description_parts_unreadable, vision_clause_off.
    eexists _, s1. split; [reflexivity |]. split; [reflexivity |].
    split; [reflexivity |]. split; [reflexivity | discriminate].
Qed.

End HybridDescription.

Section HybridRuns.
Import Analyzer Demo Demo2 Terms.

Lemma unreadable_image_description_witness :
  image_open broken_file_world "x.png" = Raise "cannot identify image file"
  /\ exists result s',
       analyze_image_hybrid broken_file_world "x.png" true "eng" "blip"
         fresh_state = (Ok result, s')
       /\ dict_get "description" result
          = Some (PStr (text_sentence false ++ ". " ++ vision_note ++ ".")).
Proof.
  split; [reflexivity |].
  destruct (unreadable_image_description broken_file_world "x.png" true "eng"
              "blip" fresh_state "cannot identify image file" eq_refl)
    as (result & s' & E & _ & _ & _ & Hd).
  exists result, s'. split; [exact E |]. apply Hd; [reflexivity | discriminate].
Defined.

End HybridRuns.

(* ----------------------------------------------------------------- *)
(** ** Captions in the hybrid analysis *)

Section Captions.
Import Analyzer Demo Demo2 Terms.

Variable w : world.

Lemma vision_unavailable (path name : string) (s : pstate) :
  VISION_MODEL_AVAILABLE w = false ->
  analyze_image_vision w path name s
  = (Ok (vision_failure "Vision model not available"), s).
Proof.
  intros H. unfold analyze_image_vision, bind.
  now rewrite load_unavailable by exact H.
Qed.

(** The globals after [analyze_image_vision] are those its call of
    [load_vision_model] leaves. *)
Lemma vision_state (path name : string) (s : pstate) :
  snd (analyze_image_vision w path name s) = snd (load_vision_model w name s).
Proof.
  unfold analyze_image_vision.
  destruct (load_vision_model_returns w name s) as (b & s' & E & _).
  unfold bind at 1. rewrite E. destruct b; cbn [negb]; [| reflexivity].
  unfold bind, ret, lift, try_except, get_state.
  destruct (image_open w path) as [img | e]; [| reflexivity].
  destruct (if is_RGB (img_mode img) then Ok img else convert_RGB img)
    as [img' | e]; [| reflexivity].
  destruct (_vision_processor s') as [p |]; [| reflexivity].
  destruct (_vision_model s') as [m |]; [| reflexivity].
  now destruct (generate_caption w p m _ img').
Qed.

Lemma load_keeps_handles (name : string) (s : pstate) :
  loaded_has_handles s ->
  loaded_has_handles (snd (load_vision_model w name s))
  /\ (_vision_model_loaded s = true -> snd (load_vision_model w name s) = s).
Proof.
  intros Hinv.
  destruct (VISION_MODEL_AVAILABLE w) eqn:Ha.
  - destruct (_vision_model_loaded s) eqn:Hl.
    + rewrite load_cached by assumption. cbn [snd]. auto.
    + destruct (load_attempted w name s Ha Hl)
        as (b & s' & E & _ & Hb & _ & Hh).
      rewrite E. cbn [snd]. split; [| discriminate].
      intros Hl'. apply Hh. congruence.
  - rewrite load_unavailable by assumption. cbn [snd]. auto.
Qed.

(** X11. When the vision dependencies are missing and a caption is asked
    for, no load is attempted, [vision_description] is the empty string,
    and the last clause of the description is the note about the
    unavailable model. *)
Theorem missing_vision_is_noted (path lang model : string) (s : pstate) :
  VISION_MODEL_AVAILABLE w = false ->
  exists result s' front,
    analyze_image_hybrid w path true lang model s = (Ok result, s')
    /\ load_attempts s' = load_attempts s
    /\ dict_get "vision_description" result = Some (PStr EmptyString)
    /\ dict_get "description" result
       = Some (PStr (Str.join ". " (front ++ [vision_note]) ++ ".")).
Proof.
  intros Ha.
  destruct (analyze_image_hybrid_run w path true lang model s)
    as (ocr_result & s1 & basic_info & vision_result & s2 & parts
        & Eocr & Hocr & Ebasic & Hbasic & Evis & Hvis & Eparts & Hne & Erun).
  rewrite vision_unavailable in Evis by exact Ha. injection Evis as <- <-.
  destruct (analyze_image_ocr_returns w path lang s)
    as (d & s1' & E & _ & _ & _ & _ & Hat).
  rewrite Eocr in E. injection E as <- <-.
  destruct (description_parts_layout w _ _ _ _ _ Eparts)
    as (front & l & Eparts' & _).
  rewrite vision_clause_failure in Eparts'. cbn [nonempty String.eqb negb] in Eparts'.
  eexists _, s1, front. split; [exact Erun |]. split; [exact Hat |].
  split; [reflexivity |].
  cbn [hybrid_result dict_get String.eqb Ascii.eqb Bool.eqb].
  rewrite join_description_parts by exact Hne. now rewrite Eparts'.
Qed.

(** X12. Whenever the summary of a hybrid result says that a vision
    description exists, a caption was asked for, the caption is not
    empty, and the last clause of the description is that caption. *)
Theorem caption_is_last_clause (path : string) (use_vision : bool)
    (lang model : string) (s s' : pstate) (result summary : dict) :
  analyze_image_hybrid w path use_vision lang model s = (Ok result, s') ->
  dict_get "analysis_summary" result = Some (PDict summary) ->
  dict_get "has_vision_description" summary = Some (PBool true) ->
  exists c front,
    use_vision = true
    /\ c <> EmptyString
    /\ dict_get "vision_description" result = Some (PStr c)
    /\ dict_get "description" result
       = Some (PStr (Str.join ". " (front ++ [caption_clause c]) ++ ".")).
Proof.
  intros H Hsum Hflag.
  destruct (analyze_image_hybrid_run w path use_vision lang model s)
    as (ocr_result & s1 & basic_info & vision_result & s2 & parts
        & Eocr & Hocr & Ebasic & Hbasic & Evis & Hvis & Eparts & Hne & Erun).
  rewrite Erun in H. injection H as <- <-.
  cbn [hybrid_result dict_get String.eqb Ascii.eqb Bool.eqb] in Hsum.
  injection Hsum as <-.
  cbn [dict_get String.eqb Ascii.eqb Bool.eqb] in Hflag.
  destruct use_vision; [| discriminate].
  destruct Hvis as [msg | c m]; [discriminate |].
  cbn [vision_success dict_get dict_get_default String.eqb Ascii.eqb Bool.eqb]
    in Hflag.
  injection Hflag as Hc.
  destruct (description_parts_layout w _ _ _ _ _ Eparts)
    as (front & l & Eparts' & _).
  rewrite vision_clause_success, Hc in Eparts'.
  exists c, front. split; [reflexivity |].
  split; [now apply nonempty_spec |]. split; [reflexivity |].
  cbn [hybrid_result dict_get String.eqb Ascii.eqb Bool.eqb].
  rewrite join_description_parts by exact Hne. now rewrite Eparts'.
Qed.

(** X13. Once a model is loaded, the caption of every later call is made
    with the loaded processor and model, whatever model name the call
    asks for; the result reports the name that was asked for. *)
Theorem cached_model_serves_every_name (path name : string) (s : pstate)
    (p m : handle) (img img' : image) (c : string) :
  VISION_MODEL_AVAILABLE w = true ->
  _vision_model_loaded s = true ->
  _vision_processor s = Some p ->
  _vision_model s = Some m ->
  image_open w path = Ok img ->
  (if is_RGB (img_mode img) then Ok img else convert_RGB img) = Ok img' ->
  generate_caption w p m (if cuda_is_available w then "cuda" else "cpu") img'
  = Ok c ->
  analyze_image_vision w path name s = (Ok (vision_success c name), s).
Proof.
  intros Ha Hl Hp Hm Hopen Hconv Hcap.
  unfold analyze_image_vision. unfold bind at 1.
  rewrite load_cached by assumption. cbn [negb].
  unfold bind, ret, lift, try_except, get_state.
  rewrite Hopen, Hconv, Hp, Hm, Hcap. reflexivity.
Qed.

(** X14. The hybrid analysis keeps the model globals consistent: a set
    loaded flag comes with both handles, before and after every call;
    and a model that is loaded is neither loaded again nor replaced. *)
Theorem loaded_flag_has_handles (path : string) (use_vision : bool)
    (lang model : string) (s s' : pstate) (result : dict) :
  loaded_has_handles s ->
  analyze_image_hybrid w path use_vision lang model s = (Ok result, s') ->
  loaded_has_handles s'
  /\ (_vision_model_loaded s = true ->
      _vision_model_loaded s' = true
      /\ _vision_processor s' = _vision_processor s
      /\ _vision_model s' = _vision_model s
      /\ load_attempts s' = load_attempts s).
Proof.
  intros Hinv H.
  destruct (analyze_image_hybrid_run w path use_vision lang model s)
    as (ocr_result & s1 & basic_info & vision_result & s2 & parts
        & Eocr & Hocr & Ebasic & Hbasic & Evis & Hvis & Eparts & Hne & Erun).
  rewrite Erun in H. injection H as _ <-.
  destruct (analyze_image_ocr_returns w path lang s)
    as (d & s1' & E & _ & Hp & Hm & Hl & Hat).
  rewrite Eocr in E. injection E as _ <-.
  assert (loaded_has_handles s1) as Hinv1.
  { unfold loaded_has_handles. rewrite Hp, Hm, Hl. exact Hinv. }
  destruct use_vision.
  - pose proof (vision_state path model s1) as Hs. rewrite Evis in Hs.
    cbn [snd] in Hs.
    destruct (load_keeps_handles model s1 Hinv1) as [Hinv2 Hsame].
    rewrite <- Hs in Hinv2, Hsame. split; [exact Hinv2 |].
    intros Hl0. rewrite <- Hl in Hl0. rewrite (Hsame Hl0). auto.
  - injection Evis as _ <-. split; [exact Hinv1 |].
    intros Hl0. rewrite Hl. auto.
Qed.

End Captions.

Section CaptionRuns.
Import Analyzer Demo Demo2 Terms.

Lemma missing_vision_is_noted_witness :
  VISION_MODEL_AVAILABLE (bare_world gray_square) = false
  /\ exists result s' front,
       analyze_image_hybrid (bare_world gray_square) "x.png" true "eng" "blip"
         fresh_state = (Ok result, s')
       /\ load_attempts s' = load_attempts fresh_state
       /\ dict_get "vision_description" result = Some (PStr EmptyString)
       /\ dict_get "description" result
          = Some (PStr (Str.join ". " (front ++ [vision_note]) ++ ".")).
Proof.
  split; [reflexivity |].
  apply (missing_vision_is_noted (bare_world gray_square)). reflexivity.
Defined.

Lemma caption_is_last_clause_witness :
  exists result s',
    analyze_image_hybrid caption_world "x.png" true "eng" "blip" fresh_state
    = (Ok result, s')
    /\ exists c front,
         true = true
         /\ c <> EmptyString
         /\ dict_get "vision_description" result = Some (PStr c)
         /\ dict_get "description" result
            = Some (PStr (Str.join ". " (front ++ [caption_clause c]) ++ ".")).
Proof.
  eexists _, _. split; [vm_compute; reflexivity |].
  eapply (caption_is_last_clause caption_world "x.png" true "eng" "blip"
            fresh_state);
    [vm_compute; reflexivity | reflexivity | reflexivity].
Defined.

Lemma cached_model_serves_every_name_witness :
  analyze_image_vision caption_world "x.png" "another/model" loaded_state
  = (Ok (vision_success "a red square" "another/model"), loaded_state).
Proof.
  apply (cached_model_serves_every_name caption_world "x.png" "another/model"
           loaded_state 1%nat 2%nat red_square red_square "a red square");
    reflexivity.
Defined.

Lemma loaded_flag_has_handles_witness :
  exists result s',
    analyze_image_hybrid caption_world "x.png" true "eng" "blip" fresh_state
    = (Ok result, s')
    /\ loaded_has_handles s'.
Proof.
  eexists _, _. split; [vm_compute; reflexivity |].
  eapply (loaded_flag_has_handles caption_world "x.png" true "eng" "blip"
            fresh_state);
    [intros H; discriminate H | vm_compute; reflexivity].
Defined.

End CaptionRuns.

(* ----------------------------------------------------------------- *)
(** ** The labels of the colour analysis *)

Section ColourLabels.
Import Analyzer Demo Demo2 Terms.

Variable w : world.

Lemma rgb_array_shape (img img_rgb : image) (a : ndarray) :
  (if is_RGB (img_mode img) then Ok img else convert_RGB img) = Ok img_rgb ->
  np_array img_rgb = Ok a ->
  shape a = [Z.to_nat (img_height img_rgb); Z.to_nat (img_width img_rgb); 3%nat].
Proof.
  intros Hc Ha.
  assert (img_mode img_rgb = RGB) as Hm.
  { destruct (img_mode img) eqn:Em; cbn [is_RGB] in Hc;
      try (injection Hc as <-; exact Em);
      unfold convert_RGB in Hc; destruct (img_load img); cbn [exc_bind] in Hc;
      try discriminate; injection Hc as <-; reflexivity. }
  unfold np_array in Ha. destruct (img_load img_rgb); cbn [exc_bind] in Ha;
    [| discriminate].
  injection Ha as <-. cbn [shape]. now rewrite Hm.
Qed.

Lemma color_block_labels (a : ndarray) (h wd : nat) :
  shape a = [h; wd; 3%nat] ->
  match color_block w a initial_stats with
  | Done st | Failed st _ =>
      color_labels (dominant_color_type st) (dominant_hue st)
  end.
Proof.
  intros Hs. unfold color_block. rewrite Hs.
  cbn [List.length Nat.eqb nth].
  destruct (take_rows _ _); [| right; split; reflexivity].
  left. split; [reflexivity |].
  cbn [set_color_type dominant_hue].
  destruct (Qltb _ _); [cbn; auto |].
  destruct (Qltb _ _); [cbn; auto |].
  destruct (Qltb _ _); cbn; auto.
Qed.

Lemma text_block_labels (a : ndarray) (st : stats) :
  match text_block w a st with
  | Done st' | Failed st' _ =>
      dominant_color_type st' = dominant_color_type st
      /\ dominant_hue st' = dominant_hue st
  end.
Proof.
  unfold text_block. destruct (_ || _)%bool; [split; reflexivity |].
  destruct (dot3 _ _ _ _); split; reflexivity.
Qed.

(** On every image, readable or not, of any mode. *)
Lemma color_analysis_labels (img : image) :
  let st := color_analysis w img initial_stats in
  color_labels (dominant_color_type st) (dominant_hue st).
Proof.
  assert (color_labels (dominant_color_type initial_stats)
            (dominant_hue initial_stats)) as H0 by (right; split; reflexivity).
  unfold color_analysis.
  destruct (if is_RGB (img_mode img) then Ok img else convert_RGB img)
    as [img_rgb |] eqn:Ec; [| exact H0].
  destruct (np_array img_rgb) as [a |] eqn:Ea; [| exact H0].
  pose proof (color_block_labels a _ _ (rgb_array_shape _ _ _ Ec Ea)) as H1.
  destruct (color_block w a initial_stats) as [st1 | st1 ?]; [| exact H1].
  pose proof (text_block_labels a st1) as H2.
  destruct (text_block w a st1) as [st2 | st2 ?]; destruct H2 as [-> ->];
    exact H1.
Qed.

(** X15. The colour labels of a result. Whatever the mode of the image,
    [dominant_color_type] is "color" with one of the hues "red", "green",
    "blue" and "mixed", or both labels are "unknown": "grayscale" and
    "color_with_alpha" are never reported, and the description never gets
    the clause for a grayscale image. *)
Theorem color_labels_produced (path : string) (result : dict) :
  analyze_image_basic w path = Ok result ->
  dict_in "error" result = false ->
  exists ty hue,
    dict_get "dominant_color_type" result = Some (PStr ty)
    /\ dict_get "dominant_hue" result = Some (PStr hue)
    /\ color_labels ty hue
    /\ hue_clause w result <> ["The image is grayscale"].
Proof.
  intros H Herr.
  destruct (analyze_image_basic_cases w path result H)
    as [[e ->] | (img & size & _ & _ & ->)]; [discriminate |].
  pose proof (color_analysis_labels img) as HL. cbn zeta in HL.
  set (st := color_analysis w img initial_stats) in *.
  exists (dominant_color_type st), (dominant_hue st).
  split; [reflexivity |]. split; [reflexivity |]. split; [exact HL |].
  rewrite hue_clause_result. cbn zeta.
  destruct HL as [[_ Hh] | [_ ->]]; [| discriminate].
  cbn [In] in Hh.
  destruct Hh as [<- | [<- | [<- | [<- | []]]]]; discriminate.
Qed.

End ColourLabels.

Section ColourLabelRuns.
Import Analyzer Demo Demo2 Terms.

Lemma color_labels_produced_witness :
  exists result ty hue,
    analyze_image_basic (bare_world gray_square) "x.png" = Ok result
    /\ dict_get "dominant_color_type" result = Some (PStr ty)
    /\ dict_get "dominant_hue" result = Some (PStr hue)
    /\ color_labels ty hue
    /\ hue_clause (bare_world gray_square) result <> ["The image is grayscale"].
Proof.
  eexists. 
  assert (analyze_image_basic (bare_world gray_square) "x.png" = Ok ?[r]) as E
    by (vm_compute; reflexivity).
  destruct (color_labels_produced (bare_world gray_square) "x.png" _ E eq_refl)
    as (ty & hue & H).
  exists ty, hue. split; [exact E | exact H].
Defined.

End ColourLabelRuns.

(* ----------------------------------------------------------------- *)
(** ** The brightness clause *)

Section ModerateBrightness.
Import Analyzer Demo Demo2 Terms.

Variable w : world.

Lemma moderate_clause_of_result width height fmt cm size st b0 :
  brightness st = Some b0 ->
  is_bright st = false ->
  is_dark st = false ->
  (75 <= b0)%Q -> (b0 <= 180)%Q ->
  let k := round_half_even (py_round b0 1) in
  75 <= k <= 180
  /\ brightness_clause (basic_result width height fmt cm size st)
     = Ok [moderate_clause k].
Proof.
  intros Eb Hbr Hdk Hlo Hhi k.
  assert (75 <= k <= 180) as Hk.
  { split.
    - apply round_half_even_ge. now apply py_round_ge.
    - apply round_half_even_le. now apply py_round_le. }
  split; [exact Hk |].
  unfold brightness_clause. rewrite brightness_of_result, Eb.
  change (dict_get_default "is_bright" (PBool false)
            (basic_result width height fmt cm size st))
    with (PBool (is_bright st)).
  change (dict_get_default "is_dark" (PBool false)
            (basic_result width height fmt cm size st))
    with (PBool (is_dark st)).
  rewrite Hbr, Hdk. cbn [truthy].
  unfold format_0f. cbn [as_num num_Q exc_bind]. fold k.
  destruct (Z.eqb_spec k 0) as [E0 | _]; [lia |]. reflexivity.
Qed.

(** X16. When the basic information of a hybrid result shows a
    brightness and says neither bright nor dark, the description holds
    the moderate-brightness clause with the brightness rounded to an
    integer, and that integer lies between 75 and 180. *)
Theorem moderate_brightness_is_shown (path : string) (use_vision : bool)
    (lang model : string) (s s' : pstate) (result basic : dict) (b : Q)
    (d : string) :
  analyze_image_hybrid w path use_vision lang model s = (Ok result, s') ->
  dict_get "basic_info" result = Some (PDict basic) ->
  dict_get "brightness" basic = Some (PFloat b) ->
  dict_get "is_bright" basic = Some (PBool false) ->
  dict_get "is_dark" basic = Some (PBool false) ->
  dict_get "description" result = Some (PStr d) ->
  let k := round_half_even b in
  75 <= k <= 180 /\ Str.contains (moderate_clause k) d = true.
Proof.
  intros H Hbasic Hb Hbr Hdk Hd k.
  destruct (analyze_image_hybrid_run w path use_vision lang model s)
    as (ocr_result & s1 & basic_info & vision_result & s2 & parts
        & Eocr & Hocr & Ebasic & Hshape & Evis & Hvis & Eparts & Hne & Erun).
  rewrite Erun in H. injection H as <- <-.
  cbn [hybrid_result dict_get String.eqb Ascii.eqb Bool.eqb] in Hbasic, Hd.
  injection Hbasic as <-. injection Hd as <-.
  destruct (analyze_image_basic_cases w path basic_info Ebasic)
    as [[e ->] | (img & size & _ & _ & ->)]; [discriminate |].
  pose proof (color_analysis_flags w img) as Hflags.
  set (st := color_analysis w img initial_stats) in *.
  rewrite brightness_of_result in Hb.
  rewrite is_bright_of_result in Hbr. rewrite is_dark_of_result in Hdk.
  injection Hbr as Hbr. injection Hdk as Hdk.
  unfold flags_match_brightness in Hflags.
  destruct (brightness st) as [b0 |] eqn:Eb0; [| discriminate].
  injection Hb as <-. destruct Hflags as [Hf1 Hf2].
  rewrite Hbr in Hf1. rewrite Hdk in Hf2.
  symmetry in Hf1, Hf2. apply Qltb_ge in Hf1, Hf2.
  destruct (moderate_clause_of_result (img_width img) (img_height img)
              (format_or_unknown img) (mode_name (img_mode img)) size st b0
              Eb0 Hbr Hdk Hf2 Hf1) as [Hk Hclause].
  split; [exact Hk |].
  rewrite join_description_parts by exact Hne. apply contains_joined.
  destruct (description_parts_layout w _ _ _ _ _ Eparts)
    as (front & l & -> & _ & o & bc & oc & _ & Ebc & _ & ->).
  rewrite Hclause in Ebc. injection Ebc as <-.
  rewrite !in_app_iff. cbn [In]. auto 10.
Qed.

End ModerateBrightness.

Section ModerateBrightnessRuns.
Import Analyzer Demo Demo2 Terms.

Lemma moderate_brightness_is_shown_witness :
  exists result s' d,
    analyze_image_hybrid (bare_world gray_square) "x.png" false "eng" "blip"
      fresh_state = (Ok result, s')
    /\ dict_get "description" result = Some (PStr d)
    /\ 75 <= round_half_even 128 <= 180
    /\ Str.contains (moderate_clause (round_half_even 128)) d = true.
Proof.
  eexists _, _, _.
  assert (analyze_image_hybrid (bare_world gray_square) "x.png" false "eng"
            "blip" fresh_state = (Ok ?[r], ?[s])) as E
    by (vm_compute; reflexivity).
  split; [exact E |]. split; [reflexivity |].
  eapply (moderate_brightness_is_shown (bare_world gray_square) "x.png" false
            "eng" "blip" fresh_state _ _ _ 128 _ E); reflexivity.
Defined.

End ModerateBrightnessRuns.

(* ----------------------------------------------------------------- *)
(** ** Page ranges *)

Section PageRanges.
Import Server.

Lemma get_page_range_values (total_pages : Z) (pr : dict) (a b : Z) :
  dict_get_default "start" (PInt 1) pr = PInt a ->
  dict_get_default "end" (PInt total_pages) pr = PInt b ->
  get_page_range total_pages (Some pr)
  = Ok (PInt (Z.max 0 (Z.min (a - 1) (total_pages - 1))),
        PInt (Z.max (Z.max 0 (Z.min (a - 1) (total_pages - 1)))
                (Z.min (b - 1) (total_pages - 1)))).
Proof.
  intros Ea Eb. unfold get_page_range. rewrite Ea, Eb.
  cbn [sub as_num exc_bind]. rewrite min2_int. cbn [exc_bind].
  rewrite max2_int. cbn [exc_bind]. rewrite min2_int. cbn [exc_bind].
  rewrite max2_int. reflexivity.
Qed.

(** X17. A range whose first and last page lie in the document: the
    first page is kept, as a 0-based index; the last page is kept when it
    is not before the first, and is the first page itself otherwise. *)
Theorem get_page_range_in_document (total_pages : Z) (pr : dict) (a b : Z) :
  dict_get "start" pr = Some (PInt a) ->
  dict_get "end" pr = Some (PInt b) ->
  1 <= a <= total_pages ->
  1 <= b <= total_pages ->
  get_page_range total_pages (Some pr)
  = Ok (PInt (a - 1), PInt (Z.max a b - 1)).
Proof.
  intros Ea Eb Ha Hb.
  rewrite (get_page_range_values total_pages pr a b)
    by (unfold dict_get_default; now rewrite ?Ea, ?Eb).
  do 3 f_equal; lia.
Qed.

Lemma get_page_range_in_document_witness :
  get_page_range 10 (Some [("start", PInt 7); ("end", PInt 3)])
  = Ok (PInt (7 - 1), PInt (Z.max 7 3 - 1)).
Proof.
  apply (get_page_range_in_document 10 [("start", PInt 7); ("end", PInt 3)] 7 3);
    [reflexivity | reflexivity | lia | lia].
Defined.

(** X18. A document without pages: without a range the result is the
    empty range [(0, -1)], but with a range given as a dictionary,
    whatever integers it holds, the result is [(0, 0)], one page index
    although the document has no page. *)
Theorem get_page_range_empty_document (pr : dict) :
  int_page_range (Some pr) ->
  get_page_range 0 (Some pr) = Ok (PInt 0, PInt 0)
  /\ get_page_range 0 None = Ok (PInt 0, PInt (-1)).
Proof.
  intros [Hs He]. split; [| reflexivity].
  assert (exists a, dict_get_default "start" (PInt 1) pr = PInt a) as [a Ea].
  { unfold dict_get_default. destruct Hs as [-> | [z ->]]; eauto. }
  assert (exists b, dict_get_default "end" (PInt 0) pr = PInt b) as [b Eb].
  { unfold dict_get_default. destruct He as [-> | [z ->]]; eauto. }
  rewrite (get_page_range_values 0 pr a b Ea Eb). do 3 f_equal; lia.
Qed.

Lemma get_page_range_empty_document_witness :
  get_page_range 0 (Some []) = Ok (PInt 0, PInt 0)
  /\ get_page_range 0 None = Ok (PInt 0, PInt (-1)).
Proof.
  apply (get_page_range_empty_document []). split; left; reflexivity.
Defined.

(** X19. A ['start'] or an ['end'] that is not a number (a string, [None],
    a list or a dictionary) makes [get_page_range] raise. *)
Theorem get_page_range_rejects_non_numbers (total_pages : Z) (pr : dict)
    (k : string) (v : pyval) :
  k = "start" \/ k = "end" ->
  dict_get k pr = Some v ->
  as_num v = None ->
  exists e, get_page_range total_pages (Some pr) = Raise e.
Proof.
  intros Hk Hv Hnum. unfold get_page_range.
  destruct Hk as [-> | ->].
  - unfold dict_get_default at 1. rewrite Hv. unfold sub at 1. rewrite Hnum.
    cbn [exc_bind]. eauto.
  - destruct (sub (dict_get_default "start" (PInt 1) pr) (PInt 1));
      cbn [exc_bind]; [| eauto].
    unfold dict_get_default at 1. rewrite Hv. unfold sub at 1. rewrite Hnum.
    cbn [exc_bind]. eauto.
Qed.

Lemma get_page_range_rejects_non_numbers_witness :
  exists e, get_page_range 10 (Some [("start", PStr "2")]) = Raise e.
Proof.
  apply (get_page_range_rejects_non_numbers 10 [("start", PStr "2")] "start"
           (PStr "2")); [now left | reflexivity | reflexivity].
Defined.

End PageRanges.

(* ----------------------------------------------------------------- *)
(** ** Decimal numerals *)

Section Numerals.
Import Terms.

Lemma append_char_inj (c : ascii) (a a' r r' : string) :
  has_char c a = false -> has_char c a' = false ->
  a ++ String c r = a' ++ String c r' -> a = a' /\ r = r'.
Proof.
  revert a'. induction a as [| x a IH]; intros [| x' a'] Ha Ha' E;
    cbn [append has_char] in *.
  - injection E as ->. auto.
  - injection E as -> _. rewrite Ascii.eqb_refl in Ha'. discriminate.
  - injection E as -> _. rewrite Ascii.eqb_refl in Ha. discriminate.
  - injection E as -> E. apply orb_false_iff in Ha, Ha'.
    destruct (IH a' (proj2 Ha) (proj2 Ha') E) as [-> ->]. auto.
Qed.

Lemma uint_chars (c : ascii) (u : Decimal.uint) :
  has_char c "0123456789" = false ->
  has_char c (NilEmpty.string_of_uint u) = false.
Proof.
  intros H. cbn [has_char] in H.
  repeat (apply orb_false_iff in H; destruct H as [? H]).
  induction u; cbn [NilEmpty.string_of_uint has_char]; auto;
    apply orb_false_iff; auto.
Qed.

(** The numeral of an integer holds digits and a minus sign only. *)
Lemma of_Z_chars (c : ascii) (z : Z) :
  has_char c "-0123456789" = false -> has_char c (Str.of_Z z) = false.
Proof.
  intros H. cbn [has_char] in H. apply orb_false_iff in H.
  destruct H as [Hm Hd]. change (has_char c "0123456789" = false) in Hd.
  unfold Str.of_Z, NilZero.string_of_int, NilZero.string_of_uint.
  assert (has_char c "0" = false) as H0.
  { cbn [has_char] in Hd |- *. apply orb_false_iff in Hd.
    now rewrite (proj1 Hd). }
  destruct (Z.to_int z) as [u | u]; cbn [has_char]; rewrite ?Hm;
    cbn [orb]; (destruct u; [exact H0 | apply uint_chars; exact Hd ..]).
Qed.

(** Reading a numeral back gives the integer. *)
Lemma of_Z_read (z : Z) :
  option_map Z.of_int (NilZero.int_of_string (Str.of_Z z)) = Some z.
Proof.
  unfold Str.of_Z. pose proof (DecimalZ.of_to z) as E.
  destruct (Z.to_int z) as [u | u] eqn:Ed.
  - destruct u;
      try (rewrite NilZero.isi by discriminate; cbn [option_map]; now rewrite E).
    rewrite NilZero.isi_posnil. cbn [option_map]. now rewrite <- E.
  - destruct u;
      try (rewrite NilZero.isi by discriminate; cbn [option_map]; now rewrite E).
    rewrite NilZero.isi_negnil. cbn [option_map]. now rewrite <- E.
Qed.

Lemma of_Z_inj (a b : Z) : Str.of_Z a = Str.of_Z b -> a = b.
Proof.
  intros E. pose proof (of_Z_read a) as Ha. rewrite E, of_Z_read in Ha.
  now injection Ha.
Qed.

Lemma image_filename_inj (p i p' i' : Z) :
  image_filename p i = image_filename p' i' -> p = p' /\ i = i'.
Proof.
  unfold image_filename. intros E.
  cbn [append] in E. injection E as E.
  change ("_img_" ++ ?x) with (String "_" ("img_" ++ x)) in E.
  apply append_char_inj in E; try (apply of_Z_chars; reflexivity).
  destruct E as [Ep E]. cbn [append] in E. injection E as E.
  change (".png") with (String "." "png") in E.
  apply append_char_inj in E; try (apply of_Z_chars; reflexivity).
  destruct E as [Ei _].
  apply of_Z_inj in Ep, Ei. lia.
Qed.

End Numerals.

(* ----------------------------------------------------------------- *)
(** ** Extraction of one embedded image *)

Section Extraction.
Import Analyzer Server Demo Demo2 Terms.

Variable w : world.

Lemma small_test (pix : pixmap) :
  (pix_width pix <? 10) || (pix_height pix <? 10) = false
  <-> 10 <= pix_width pix /\ 10 <= pix_height pix.
Proof. rewrite orb_false_iff, !Z.ltb_ge. reflexivity. Qed.

(** What an entry says, and what was done to produce it. *)
Lemma extract_image_sound (output_dir : string) (page_num img_index xref : Z)
    (analyze_images use_vision_model : bool) (ocr_language : string)
    (s s' : pstate) (info : dict) :
  extract_image w output_dir page_num img_index xref analyze_images
    use_vision_model ocr_language s = (Ok (Some info), s') ->
  exists pix data,
    new_pixmap w xref = Ok pix
    /\ 10 <= pix_width pix /\ 10 <= pix_height pix
    /\ png_data w pix = Ok data
    /\ let img_path :=
         path_join w [output_dir; image_filename page_num img_index] in
       write_file w img_path data = Ok tt
       /\ dict_get "page_number" info = Some (PInt (page_num + 1))
       /\ dict_get "image_index" info = Some (PInt (img_index + 1))
       /\ dict_get "filename" info
          = Some (PStr (image_filename page_num img_index))
       /\ dict_get "path" info = Some (PStr img_path)
       /\ dict_get "width" info = Some (PInt (pix_width pix))
       /\ dict_get "height" info = Some (PInt (pix_height pix))
       /\ dict_get "size_bytes" info
          = Some (PInt (Z.of_nat (String.length data)))
       /\ if analyze_images then
            exists analysis d,
              analyze_image_hybrid w img_path use_vision_model ocr_language
                "Salesforce/blip-image-captioning-base" s = (Ok analysis, s')
              /\ dict_get "analysis" info = Some (PDict analysis)
              /\ dict_get "description" analysis = Some (PStr d)
              /\ dict_get "description" info = Some (PStr d)
          else
            s' = s /\ dict_in "analysis" info = false
            /\ dict_in "description" info = false.
Proof.
  unfold extract_image. unfold try_except at 1. unfold bind at 1, lift at 1.
  intros H.
  destruct (new_pixmap w xref) as [pix | e]; [| discriminate].
  destruct ((pix_width pix <? 10) || (pix_height pix <? 10)) eqn:Esmall;
    [discriminate |].
  apply small_test in Esmall. destruct Esmall as [Hw Hh].
  unfold bind at 1, lift at 1 in H. fold (png_data w pix) in H.
  destruct (png_data w pix) as [data | e] eqn:Edata; [| discriminate].
  unfold bind at 1, lift at 1 in H.
  fold (image_filename page_num img_index) in H.
  set (img_path := path_join w [output_dir; image_filename page_num img_index])
    in *.
  destruct (write_file w img_path data) as [[] | e] eqn:Ewrite; [| discriminate].
  exists pix, data. split; [reflexivity |]. split; [exact Hw |].
  split; [exact Hh |]. split; [exact Edata |]. cbn zeta.
  split; [exact Ewrite |].
  destruct analyze_images.
  - destruct (analyze_image_hybrid_run w img_path use_vision_model ocr_language
                "Salesforce/blip-image-captioning-base" s)
      as (ocr_result & s1 & basic_info & vision_result & s2 & parts
          & _ & _ & _ & _ & _ & _ & _ & _ & Erun).
    unfold bind at 1, try_except, bind in H. rewrite Erun in H.
    unfold ret in H. injection H as <- <-.
    repeat (split; [reflexivity |]).
    do 2 eexists. split; [exact Erun |]. repeat split.
  - unfold bind, ret in H. injection H as <- <-.
    repeat (split; [reflexivity |]). repeat split.
Qed.

(** X20. An entry of [extract_pdf_images] is backed by what was done: the
    pixmap was read and is at least 10 pixels wide and high, its PNG
    data was written to [output_dir/page_P_img_I.png], and the entry
    holds the 1-based page and image numbers, that file name and path,
    the pixmap's dimensions and the length of the data. With
    [analyze_images] its [analysis] is the result of the hybrid analysis
    of the written file and its [description] is the description of
    that analysis; without, it has neither key and the globals are
    untouched. *)
Theorem extract_image_entry (output_dir : string) (page_num img_index xref : Z)
    (analyze_images use_vision_model : bool) (ocr_language : string)
    (s s' : pstate) (info : dict) :
  extract_image w output_dir page_num img_index xref analyze_images
    use_vision_model ocr_language s = (Ok (Some info), s') ->
  exists pix data,
    new_pixmap w xref = Ok pix
    /\ 10 <= pix_width pix /\ 10 <= pix_height pix
    /\ png_data w pix = Ok data
    /\ let img_path :=
         path_join w [output_dir; image_filename page_num img_index] in
       write_file w img_path data = Ok tt
       /\ dict_get "page_number" info = Some (PInt (page_num + 1))
       /\ dict_get "image_index" info = Some (PInt (img_index + 1))
       /\ dict_get "filename" info
          = Some (PStr (image_filename page_num img_index))
       /\ dict_get "path" info = Some (PStr img_path)
       /\ dict_get "width" info = Some (PInt (pix_width pix))
       /\ dict_get "height" info = Some (PInt (pix_height pix))
       /\ dict_get "size_bytes" info
          = Some (PInt (Z.of_nat (String.length data)))
       /\ if analyze_images then
            exists analysis d,
              analyze_image_hybrid w img_path use_vision_model ocr_language
                "Salesforce/blip-image-captioning-base" s = (Ok analysis, s')
              /\ dict_get "analysis" info = Some (PDict analysis)
              /\ dict_get "description" analysis = Some (PStr d)
              /\ dict_get "description" info = Some (PStr d)
          else
            s' = s /\ dict_in "analysis" info = false
            /\ dict_in "description" info = false.
Proof. apply extract_image_sound. Qed.

(** X21. Extracting one image never raises. It produces an entry exactly
    when the pixmap could be read, is at least 10 pixels wide and high,
    and its PNG data could be made and written; an image that is skipped
    leaves the globals as they were. *)
Theorem extract_image_returns (output_dir : string)
    (page_num img_index xref : Z) (analyze_images use_vision_model : bool)
    (ocr_language : string) (s : pstate) :
  exists r s',
    extract_image w output_dir page_num img_index xref analyze_images
      use_vision_model ocr_language s = (Ok r, s')
    /\ (r = None -> s' = s)
    /\ (r <> None <->
        exists pix data,
          new_pixmap w xref = Ok pix
          /\ 10 <= pix_width pix /\ 10 <= pix_height pix
          /\ png_data w pix = Ok data
          /\ write_file w
               (path_join w [output_dir; image_filename page_num img_index])
               data = Ok tt).
Proof.
  unfold extract_image. unfold try_except at 1. unfold bind at 1, lift at 1.
  destruct (new_pixmap w xref) as [pix | e].
  2: { exists None, s. split; [reflexivity |]. split; [reflexivity |].
       split; [congruence | intros (? & ? & ? & _); discriminate]. }
  destruct ((pix_width pix <? 10) || (pix_height pix <? 10)) eqn:Esmall.
  { exists None, s. split; [reflexivity |]. split; [reflexivity |].
    split; [congruence |]. intros (pix' & data & E & Hw & Hh & _).
    injection E as <-. pose proof (proj2 (small_test pix) (conj Hw Hh)).
    congruence. }
  unfold bind at 1, lift at 1. fold (png_data w pix).
  destruct (png_data w pix) as [data | e] eqn:Edata.
  2: { exists None, s. split; [reflexivity |]. split; [reflexivity |].
       split; [congruence |]. intros (pix' & data & E & _ & _ & Ed & _).
       injection E as <-. congruence. }
  unfold bind at 1, lift at 1.
  fold (image_filename page_num img_index).
  set (img_path := path_join w [output_dir; image_filename page_num img_index]).
  destruct (write_file w img_path data) as [[] | e] eqn:Ewrite.
  2: { exists None, s. split; [reflexivity |]. split; [reflexivity |].
       split; [congruence |]. intros (pix' & data' & E & _ & _ & Ed & Ew).
       injection E as <-. rewrite Edata in Ed. injection Ed as <-.
       congruence. }
  assert (exists info s',
            bind
              (if analyze_images
               then
                 try_except
                   (analysis <-
                      analyze_image_hybrid w img_path use_vision_model
                        ocr_language "Salesforce/blip-image-captioning-base" ;;
                    ret ([("page_number", PInt (page_num + 1));
                          ("image_index", PInt (img_index + 1));
                          ("filename", PStr (image_filename page_num img_index));
                          ("path", PStr img_path);
                          ("width", PInt (pix_width pix));
                          ("height", PInt (pix_height pix));
                          ("size_bytes", PInt (Z.of_nat (String.length data)))]
                         ++ [("analysis", PDict analysis);
                             ("description",
                               dict_get_default "description" (PStr EmptyString)
                                 analysis)])%list)
                   (fun e =>
                      ret ([("page_number", PInt (page_num + 1));
                            ("image_index", PInt (img_index + 1));
                            ("filename", PStr (image_filename page_num img_index));
                            ("path", PStr img_path);
                            ("width", PInt (pix_width pix));
                            ("height", PInt (pix_height pix));
                            ("size_bytes", PInt (Z.of_nat (String.length data)))]
                           ++ [("analysis", PDict [("error", PStr e)]);
                               ("description",
                                 PStr ("Image analysis failed: " ++ e))])%list)
               else
                 ret [("page_number", PInt (page_num + 1));
                      ("image_index", PInt (img_index + 1));
                      ("filename", PStr (image_filename page_num img_index));
                      ("path", PStr img_path);
                      ("width", PInt (pix_width pix));
                      ("height", PInt (pix_height pix));
                      ("size_bytes", PInt (Z.of_nat (String.length data)))])
              (fun image_info => ret (Some image_info)) s
            = (Ok (Some info), s')) as (info & s' & ->).
  { destruct analyze_images.
    - destruct (analyze_image_hybrid_run w img_path use_vision_model
                  ocr_language "Salesforce/blip-image-captioning-base" s)
        as (ocr_result & s1 & basic_info & vision_result & s2 & parts
            & _ & _ & _ & _ & _ & _ & _ & _ & Erun).
      unfold bind at 1, try_except, bind. rewrite Erun. unfold ret. eauto.
    - unfold bind, ret. eauto. }
  exists (Some info), s'. split; [reflexivity |]. split; [discriminate |].
  split; [| discriminate]. intros _. exists pix, data.
  apply small_test in Esmall. destruct Esmall. auto.
Qed.

(** X22. No two entries share a file name: two entries with the same
    [filename] come from the same page and the same image index, so no
    extracted image overwrites another one of the same run. *)
Theorem image_filenames_distinct (output_dir output_dir' : string)
    (page_num img_index xref page_num' img_index' xref' : Z)
    (analyze_images use_vision_model analyze_images' use_vision_model' : bool)
    (ocr_language ocr_language' : string) (s s1 s' s1' : pstate)
    (info info' : dict) :
  extract_image w output_dir page_num img_index xref analyze_images
    use_vision_model ocr_language s = (Ok (Some info), s1) ->
  extract_image w output_dir' page_num' img_index' xref' analyze_images'
    use_vision_model' ocr_language' s' = (Ok (Some info'), s1') ->
  dict_get "filename" info = dict_get "filename" info' ->
  page_num = page_num' /\ img_index = img_index'.
Proof.
  intros H H' E.
  destruct (extract_image_sound _ _ _ _ _ _ _ _ _ _ H)
    as (pix & data & _ & _ & _ & _ & Hinfo).
  destruct (extract_image_sound _ _ _ _ _ _ _ _ _ _ H')
    as (pix' & data' & _ & _ & _ & _ & Hinfo').
  cbn zeta in Hinfo, Hinfo'.
  destruct Hinfo as (_ & _ & _ & Hf & _). destruct Hinfo' as (_ & _ & _ & Hf' & _).
  rewrite Hf, Hf' in E. apply image_filename_inj. congruence.
Qed.

End Extraction.

Section ExtractionRuns.
Import Analyzer Server Demo Demo2 Terms.

Lemma extract_image_entry_witness :
  exists info s',
    extract_image (bare_world gray_square) "out" 0 0 12 true false "eng"
      fresh_state = (Ok (Some info), s')
    /\ dict_get "filename" info = Some (PStr (image_filename 0 0))
    /\ exists analysis d,
         dict_get "analysis" info = Some (PDict analysis)
         /\ dict_get "description" analysis = Some (PStr d)
         /\ dict_get "description" info = Some (PStr d).
Proof.
  eexists _, _.
  assert (extract_image (bare_world gray_square) "out" 0 0 12 true false "eng"
            fresh_state = (Ok (Some ?[i]), ?[s])) as E
    by (vm_compute; reflexivity).
  split; [exact E |].
  destruct (extract_image_entry (bare_world gray_square) _ _ _ _ _ _ _ _ _ _ E)
    as (pix & data & _ & _ & _ & _ & Hinfo).
  cbn zeta in Hinfo.
  destruct Hinfo as (_ & _ & _ & Hf & _ & _ & _ & _ & analysis & d & _ & Ha & Hd & Hd').
  split; [exact Hf |]. exists analysis, d. auto.
Defined.

Lemma image_filenames_distinct_witness :
  exists info s1 info' s1',
    extract_image (bare_world gray_square) "out" 0 0 12 false false "eng"
      fresh_state = (Ok (Some info), s1)
    /\ extract_image (bare_world gray_square) "out" 0 0 15 false false "eng"
         fresh_state = (Ok (Some info'), s1')
    /\ dict_get "filename" info = dict_get "filename" info'
    /\ 0 = 0 /\ 0 = 0.
Proof.
  eexists _, _, _, _.
  assert (extract_image (bare_world gray_square) "out" 0 0 12 false false "eng"
            fresh_state = (Ok (Some ?[i]), ?[s])) as E
    by (vm_compute; reflexivity).
  assert (extract_image (bare_world gray_square) "out" 0 0 15 false false "eng"
            fresh_state = (Ok (Some ?[i']), ?[s'])) as E'
    by (vm_compute; reflexivity).
  split; [exact E |]. split; [exact E' |]. split; [reflexivity |].
  exact (image_filenames_distinct (bare_world gray_square) _ _ _ _ _ _ _ _ _ _
           _ _ _ _ _ _ _ _ _ _ E E' eq_refl).
Defined.

End ExtractionRuns.

(* ----------------------------------------------------------------- *)
(** ** Paths, downloads and temporary files *)

Section PdfPaths.
Import Server Pdf PdfDemo Terms PdfTerms.

Variable w : pdf_world.

Lemma path_or_download_cases (file_path url : option string) (s s' : sstate)
    (path : string) (is_temp : bool) :
  get_pdf_path_or_download w file_path url s = (Ok (path, is_temp), s') ->
  (is_temp = false /\ given url = false /\ given file_path = true
   /\ file_path = Some path /\ fs_exists w path = true
   /\ Str.lower (path_suffix w path) = ".pdf" /\ s' = s)
  \/ (is_temp = true /\ given file_path = false /\ given url = true
      /\ exists content,
           download_pdf_from_url w (arg url) = Ok content
           /\ mkstemp_name w (temps_made s) = Ok path
           /\ temp_write w path content = Ok tt
           /\ s' = {| temp_files := path :: temp_files s;
                      temps_made := S (temps_made s) |}).
Proof.
  unfold get_pdf_path_or_download.
  destruct (given file_path) eqn:Ef, (given url) eqn:Eu; cbn [andb];
    unfold sraise, sret, sbind, slift, new_temp_file; intros H;
    try discriminate.
  - left. destruct file_path as [p |]; [| discriminate]. cbn [arg] in H.
    destruct (fs_exists w p) eqn:Ex; cbn [negb] in H; [| discriminate].
    destruct (String.eqb_spec (Str.lower (path_suffix w p)) ".pdf")
      as [Es | Es]; cbn [negb] in H; [| discriminate].
    injection H as <- <- <-. auto 10.
  - right.
    destruct (download_pdf_from_url w (arg url)) as [content | e];
      [| discriminate].
    destruct (mkstemp_name w (temps_made s)) as [name | e]; [| discriminate].
    destruct (temp_write w name content) as [[] | e] eqn:Ew; [| discriminate].
    injection H as <- <- <-. repeat split. exists content. auto.
Qed.

(** X23. What [get_pdf_path_or_download] has checked when it returns.
    A path that is not temporary is the [file_path] that was given,
    without a [url]; it exists, its suffix is [.pdf] in any case of the
    letters, [validate_file_path] accepts it, and nothing was created.
    A temporary path comes from a [url] given without [file_path]: the
    download succeeded and its content was written to a temporary file
    created for it. *)
Theorem path_or_download_checks (file_path url : option string)
    (s s' : sstate) (path : string) (is_temp : bool) :
  get_pdf_path_or_download w file_path url s = (Ok (path, is_temp), s') ->
  (is_temp = false /\ given url = false /\ file_path = Some path
   /\ path <> EmptyString /\ fs_exists w path = true
   /\ Str.lower (path_suffix w path) = ".pdf"
   /\ validate_file_path w path = Ok path /\ s' = s)
  \/ (is_temp = true /\ given file_path = false /\ given url = true
      /\ exists content,
           download_pdf_from_url w (arg url) = Ok content
           /\ mkstemp_name w (temps_made s) = Ok path
           /\ temp_write w path content = Ok tt
           /\ In path (temp_files s')).
Proof.
  intros H. destruct (path_or_download_cases _ _ _ _ _ _ H)
    as [(-> & Hu & Hf & -> & Hex & Hsuf & ->)
       | (-> & Hf & Hu & content & Hd & Hn & Hw & ->)].
  - left. split; [reflexivity |]. split; [exact Hu |].
    split; [reflexivity |]. split; [now apply nonempty_spec |].
    split; [exact Hex |]. split; [exact Hsuf |]. split; [| reflexivity].
    unfold validate_file_path. rewrite Hex, Hsuf. reflexivity.
  - right. split; [reflexivity |]. split; [exact Hf |]. split; [exact Hu |].
    exists content. cbn. auto.
Qed.

Lemma tool_cases (file_path url : option string)
    (body : string -> bool -> exc dict) (s : sstate) :
  (exists e s1,
      get_pdf_path_or_download w file_path url s = (Raise e, s1)
      /\ tool w file_path url body s = (failure e file_path url, s1))
  \/ (exists path is_temp s1,
        get_pdf_path_or_download w file_path url s = (Ok (path, is_temp), s1)
        /\ tool w file_path url body s
           = (match body path is_temp with
              | Ok result => result
              | Raise e => failure e file_path url
              end,
              snd (cleanup w (if is_temp then Some path else None) s1))).
Proof.
  unfold tool.
  destruct (get_pdf_path_or_download w file_path url s) as [[[path is_temp] | e] s1].
  - right. exists path, is_temp, s1. split; [reflexivity |].
    now destruct (body path is_temp).
  - left. eauto.
Qed.

Lemma download_fails (file_path url : option string) (e : string)
    (body : string -> bool -> exc dict) (s : sstate) :
  given file_path = false -> given url = true ->
  download_pdf_from_url w (arg url) = Raise e ->
  tool w file_path url body s = (failure e file_path url, s).
Proof.
  intros Hf Hu Hd. unfold tool, get_pdf_path_or_download.
  rewrite Hf, Hu. cbn [andb]. unfold sbind, slift. now rewrite Hd.
Qed.

(** X24. A download that ends in an HTTP error status: both tools return
    the failure dictionary with the message
    [HTTP error downloading PDF: <status> - <body>], echo the arguments,
    and create no temporary file. *)
Theorem download_failure_is_reported (file_path url : option string)
    (page_range : option dict) (status_code : Z) (text : string) (s : sstate) :
  given file_path = false -> given url = true ->
  http_get w (arg url) = HttpStatusError status_code text ->
  let result :=
    failure ("HTTP error downloading PDF: " ++ Str.of_Z status_code ++ " - "
               ++ text) file_path url in
  read_pdf_text w file_path url page_range s = (result, s)
  /\ analyze_pdf_structure w file_path url s = (result, s)
  /\ dict_get "success" result = Some (PBool false)
  /\ dict_get "url" result = Some (PStr (arg url)).
Proof.
  intros Hf Hu Hget result.
  assert (download_pdf_from_url w (arg url)
          = Raise ("HTTP error downloading PDF: " ++ Str.of_Z status_code
                     ++ " - " ++ text)) as Hd.
  { unfold download_pdf_from_url. now rewrite Hget. }
  split; [now apply download_fails |]. split; [now apply download_fails |].
  split; [reflexivity |].
  unfold result, failure, url_field. rewrite Hu. reflexivity.
Qed.

Lemma filter_fresh (p : string) (l : list string) :
  ~ In p l -> filter (fun q => negb (String.eqb p q)) l = l.
Proof.
  induction l as [| x l IH]; intros Hn; [reflexivity |].
  cbn [filter]. destruct (String.eqb_spec p x) as [-> | _].
  - exfalso. apply Hn. now left.
  - cbn [negb]. rewrite IH; [reflexivity |]. intros Hin. apply Hn. now right.
Qed.

Lemma tool_removes_temp (file_path url : option string)
    (body : string -> bool -> exc dict) (s : sstate) (content name : string) :
  given file_path = false -> given url = true ->
  download_pdf_from_url w (arg url) = Ok content ->
  mkstemp_name w (temps_made s) = Ok name ->
  ~ In name (temp_files s) ->
  temp_write w name content = Ok tt ->
  unlink w name = Ok tt ->
  temp_files (snd (tool w file_path url body s)) = temp_files s
  /\ tool w file_path url body s
     = (match body name true with
        | Ok result => result
        | Raise e => failure e file_path url
        end, snd (tool w file_path url body s)).
Proof.
  intros Hf Hu Hd Hn Hfresh Hw Hun.
  assert (get_pdf_path_or_download w file_path url s
          = (Ok (name, true),
             {| temp_files := name :: temp_files s;
                temps_made := S (temps_made s) |})) as Hget.
  { unfold get_pdf_path_or_download. rewrite Hf, Hu. cbn [andb].
    unfold sbind, slift, new_temp_file, sret. now rewrite Hd, Hn, Hw. }
  unfold tool. rewrite Hget.
  assert (snd (cleanup w (Some name)
                 {| temp_files := name :: temp_files s;
                    temps_made := S (temps_made s) |})
          = {| temp_files := temp_files s; temps_made := S (temps_made s) |})
    as Hc.
  { unfold cleanup. cbn [temp_files temps_made existsb].
    rewrite String.eqb_refl. cbn [orb]. rewrite Hun. cbn [snd filter].
    rewrite String.eqb_refl. cbn [negb]. now rewrite filter_fresh. }
  destruct (body name true); cbn [snd]; rewrite Hc; split; reflexivity.
Qed.

(** X25. A document reached through a [url]: when the download could be
    written to a fresh temporary file and that file can be removed, it
    is removed before either tool returns, whether the tool succeeds or
    fails; a result that succeeds reports no [file_path]. *)
Theorem temp_file_is_removed (file_path url : option string)
    (page_range : option dict) (s : sstate) (content name : string) :
  given file_path = false -> given url = true ->
  download_pdf_from_url w (arg url) = Ok content ->
  mkstemp_name w (temps_made s) = Ok name ->
  ~ In name (temp_files s) ->
  temp_write w name content = Ok tt ->
  unlink w name = Ok tt ->
  temp_files (snd (read_pdf_text w file_path url page_range s)) = temp_files s
  /\ temp_files (snd (analyze_pdf_structure w file_path url s)) = temp_files s
  /\ (dict_get "success" (fst (read_pdf_text w file_path url page_range s))
      = Some (PBool true) ->
      dict_get "file_path" (fst (read_pdf_text w file_path url page_range s))
      = Some PNone).
Proof.
  intros Hf Hu Hd Hn Hfresh Hw Hun.
  destruct (tool_removes_temp file_path url
              (fun path is_temp =>
                 read_pdf_text_result w path is_temp url page_range)
              s content name Hf Hu Hd Hn Hfresh Hw Hun) as [H1 E1].
  destruct (tool_removes_temp file_path url
              (fun path is_temp =>
                 analyze_pdf_structure_result w path is_temp url)
              s content name Hf Hu Hd Hn Hfresh Hw Hun) as [H2 _].
  split; [exact H1 |]. split; [exact H2 |].
  unfold read_pdf_text. rewrite E1. cbn [fst].
  unfold read_pdf_text_result.
  destruct (fitz_open w (path_str w name)) as [doc |]; cbn [exc_bind];
    [| discriminate].
  destruct (get_page_range _ page_range) as [range |]; cbn [exc_bind];
    [| discriminate].
  destruct (as_index (fst range)); cbn [exc_bind]; [| discriminate].
  destruct (as_index (snd range)); cbn [exc_bind]; [| discriminate].
  destruct (read_pages w doc _ _ _); cbn [exc_bind]; [| discriminate].
  reflexivity.
Qed.

(** X26. A download that cannot be written to its temporary file: the
    tool reports the failure, and the temporary file, which was created
    before the write, is left on disk. *)
Theorem failed_write_leaves_temp_file (file_path url : option string)
    (page_range : option dict) (s : sstate) (content name e : string) :
  given file_path = false -> given url = true ->
  download_pdf_from_url w (arg url) = Ok content ->
  mkstemp_name w (temps_made s) = Ok name ->
  temp_write w name content = Raise e ->
  fst (read_pdf_text w file_path url page_range s)
  = failure e file_path url
  /\ In name (temp_files (snd (read_pdf_text w file_path url page_range s))).
Proof.
  intros Hf Hu Hd Hn Hw.
  unfold read_pdf_text, tool, get_pdf_path_or_download.
  rewrite Hf, Hu. cbn [andb].
  unfold sbind, slift, new_temp_file, sret. rewrite Hd, Hn, Hw.
  cbn. auto.
Qed.

End PdfPaths.

(* ----------------------------------------------------------------- *)
(** ** Reading the text of the pages *)

Section PdfText.
Import Server Pdf PdfDemo Terms PdfTerms.

Variable w : pdf_world.

Lemma length_append (a b : string) :
  String.length (a ++ b) = (String.length a + String.length b)%nat.
Proof. induction a as [| x a IH]; cbn; [reflexivity | now rewrite IH]. Qed.

(** Words do not run across a space. *)
Lemma split_aux_space (a b : string) (c : ascii) (cur : list ascii) :
  Str.isspace c = true ->
  Str.split_aux (a ++ String c b) cur
  = (Str.split_aux a cur ++ Str.split_aux b [])%list.
Proof.
  intros Hc. revert cur. induction a as [| x a IH]; intros cur.
  - cbn [append Str.split_aux]. now rewrite Hc.
  - cbn [append Str.split_aux]. destruct (Str.isspace x).
    + now rewrite IH, app_assoc.
    + apply IH.
Qed.

Lemma word_count_lines (texts : list string) :
  word_count (joined_lines texts) = Zsum (map word_count texts).
Proof.
  induction texts as [| t texts IH]; [reflexivity |].
  cbn [joined_lines fold_right map Zsum]. fold (joined_lines texts).
  fold (Zsum (map word_count texts)). rewrite <- IH.
  unfold word_count, Str.split, newline. cbn [append].
  rewrite split_aux_space by reflexivity. rewrite length_app. lia.
Qed.

Lemma len_lines (texts : list string) :
  len (joined_lines texts) = Zsum (map (fun t => len t + 1) texts).
Proof.
  induction texts as [| t texts IH]; [reflexivity |].
  cbn [joined_lines fold_right map Zsum]. fold (joined_lines texts).
  fold (Zsum (map (fun t => len t + 1) texts)). rewrite <- IH.
  unfold len, newline. rewrite !length_append. cbn [String.length]. lia.
Qed.

Lemma joined_lines_app (a b : list string) :
  joined_lines (a ++ b) = joined_lines a ++ joined_lines b.
Proof.
  induction a as [| t a IH]; [reflexivity |].
  cbn [app joined_lines fold_right]. fold (joined_lines (a ++ b)).
  fold (joined_lines a). now rewrite IH, !append_assoc.
Qed.

Lemma doc_getitem_nonneg (doc : document) (i : Z) (p : page) :
  0 <= i ->
  doc_getitem w doc i = Ok p ->
  nth_error (doc_pages doc) (Z.to_nat i) = Some p.
Proof.
  intros Hi. unfold doc_getitem.
  destruct (i <? Z.of_nat (List.length (doc_pages doc))); [| discriminate].
  destruct (Z.ltb_spec i 0) as [Hneg | _]; [lia |].
  destruct (nth_error (doc_pages doc) (Z.to_nat i)); [| discriminate].
  now intros [= ->].
Qed.

Lemma doc_getitem_outside (doc : document) (i : Z) :
  Z.of_nat (List.length (doc_pages doc)) <= i ->
  doc_getitem w doc i = Raise (index_error w i).
Proof.
  intros Hi. unfold doc_getitem.
  destruct (Z.ltb_spec i (Z.of_nat (List.length (doc_pages doc)))); [lia |].
  reflexivity.
Qed.

(** The loop of [read_pdf_text], for page numbers that are not
    negative. *)
Lemma read_pages_spec (doc : document) (page_nums : list Z) :
  Forall (fun i => 0 <= i) page_nums ->
  forall (done : list (Z * string)) (r : list pyval * string),
    read_pages w doc page_nums (map page_entry done)
      (joined_lines (map snd done)) = Ok r ->
    exists texts,
      Forall2 (page_has_text doc) page_nums texts
      /\ r = (map page_entry (done ++ combine page_nums texts),
              joined_lines (map snd done ++ texts)).
Proof.
  induction 1 as [| i page_nums Hi Hrest IH]; intros done r H.
  - cbn [read_pages] in H. injection H as <-. exists [].
    split; [constructor |]. cbn [combine]. now rewrite !app_nil_r.
  - cbn [read_pages] in H.
    destruct (doc_getitem w doc i) as [p |] eqn:Ep; cbn [exc_bind] in H;
      [| discriminate].
    destruct (get_text p) as [t |] eqn:Et; cbn [exc_bind] in H;
      [| discriminate].
    specialize (IH (done ++ [(i, t)])%list r).
    rewrite !map_app, joined_lines_app in IH.
    cbn [map snd joined_lines fold_right page_entry fst] in IH.
    rewrite append_nil_r in IH at 1.
    destruct (IH H) as (texts & HF & ->).
    exists (t :: texts). split.
    + constructor; [| exact HF]. split; [exact Hi |].
      exists p. split; [now apply doc_getitem_nonneg | exact Et].
    + cbn [combine]. now rewrite <- !app_assoc.
Qed.

Lemma py_range_nonneg (a b : Z) : 0 <= a -> Forall (fun i => 0 <= i) (py_range a b).
Proof.
  intros Ha. unfold py_range. apply Forall_forall. intros i Hi.
  apply in_map_iff in Hi. destruct Hi as (k & <- & _). lia.
Qed.

(** The first page of a range is never negative. *)
Lemma start_page_nonneg (total_pages : Z) (page_range : option dict)
    (range : pyval * pyval) (a : Z) :
  get_page_range total_pages page_range = Ok range ->
  as_index (fst range) = Ok a -> 0 <= a.
Proof.
  unfold get_page_range. destruct page_range as [pr |].
  2: { intros [= <-] [= <-]. lia. }
  destruct (sub _ _) as [st |]; cbn [exc_bind]; [| discriminate].
  destruct (sub _ _) as [en |]; cbn [exc_bind]; [| discriminate].
  destruct (min2 st _) as [m |]; cbn [exc_bind]; [| discriminate].
  unfold max2 at 1, gt, lt. cbn [as_num].
  destruct (as_num m) as [n |] eqn:Em; cbn [exc_bind]; [| discriminate].
  destruct (Qltb (num_Q (NInt 0)) (num_Q n)) eqn:Ec.
  - destruct (min2 en _); cbn [exc_bind]; [| discriminate].
    destruct (max2 m _); cbn [exc_bind]; [| discriminate].
    intros [= <-]. cbn [fst]. intros Ha. apply Qltb_lt in Ec.
    destruct m; try discriminate; cbn [as_index] in Ha; injection Ha as <-;
      cbn [as_num] in Em; injection Em as <-; cbn [num_Q] in Ec;
      rewrite <- Zlt_Qlt in Ec; lia.
  - destruct (min2 en _); cbn [exc_bind]; [| discriminate].
    destruct (max2 (PInt 0) _); cbn [exc_bind]; [| discriminate].
    intros [= <-]. cbn [fst as_index]. intros [= <-]. lia.
Qed.

Lemma sub_number (a b v : pyval) :
  sub a b = Ok v -> forall x, v <> PBool x.
Proof.
  unfold sub. destruct (as_num a) as [[x | x] |], (as_num b) as [[y | y] |];
    intros [= <-]; discriminate.
Qed.

Lemma min2_choice (a b v : pyval) : min2 a b = Ok v -> v = a \/ v = b.
Proof.
  unfold min2. destruct (lt b a) as [[] |]; cbn [exc_bind]; intros [= <-]; auto.
Qed.

Lemma max2_choice (a b v : pyval) : max2 a b = Ok v -> v = a \/ v = b.
Proof.
  unfold max2. destruct (gt b a) as [[] |]; cbn [exc_bind]; intros [= <-]; auto.
Qed.

Lemma as_index_int (v : pyval) (z : Z) :
  (forall x, v <> PBool x) -> as_index v = Ok z -> v = PInt z.
Proof.
  intros Hv. destruct v; cbn [as_index]; intros [= <-];
    [exfalso; eapply Hv |]; reflexivity.
Qed.

(** A page range that [range] accepts is a pair of [int]s. *)
Lemma page_range_ints (total_pages : Z) (page_range : option dict)
    (range : pyval * pyval) (a b : Z) :
  get_page_range total_pages page_range = Ok range ->
  as_index (fst range) = Ok a ->
  as_index (snd range) = Ok b ->
  range = (PInt a, PInt b).
Proof.
  intros Hr Ha Hb.
  assert ((forall x, fst range <> PBool x) /\ (forall x, snd range <> PBool x))
    as [H1 H2].
  { revert Hr. unfold get_page_range. destruct page_range as [pr |].
    2: { intros [= <-]. split; discriminate. }
    destruct (sub (dict_get_default "start" _ _) _) as [st |] eqn:Est;
      cbn [exc_bind]; [| discriminate].
    destruct (sub (dict_get_default "end" _ _) _) as [en |] eqn:Een;
      cbn [exc_bind]; [| discriminate].
    destruct (min2 st _) as [m |] eqn:Em; cbn [exc_bind]; [| discriminate].
    destruct (max2 _ m) as [st' |] eqn:Est'; cbn [exc_bind]; [| discriminate].
    destruct (min2 en _) as [m' |] eqn:Em'; cbn [exc_bind]; [| discriminate].
    destruct (max2 st' m') as [en' |] eqn:Een'; cbn [exc_bind];
      [| discriminate].
    intros [= <-]. cbn [fst snd].
    pose proof (sub_number _ _ _ Est) as Hst.
    pose proof (sub_number _ _ _ Een) as Hen.
    assert (forall x, m <> PBool x) as Hm.
    { destruct (min2_choice _ _ _ Em) as [E | E]; rewrite E;
        [exact Hst | intros x; discriminate]. }
    assert (forall x, m' <> PBool x) as Hm'.
    { destruct (min2_choice _ _ _ Em') as [E | E]; rewrite E;
        [exact Hen | intros x; discriminate]. }
    assert (forall x, st' <> PBool x) as Hst'.
    { destruct (max2_choice _ _ _ Est') as [E | E]; rewrite E;
        [intros x; discriminate | exact Hm]. }
    split; [exact Hst' |].
    destruct (max2_choice _ _ _ Een') as [E | E]; rewrite E; assumption. }
  apply as_index_int in Ha; [| exact H1]. apply as_index_int in Hb; [| exact H2].
  destruct range as [x y]. cbn [fst snd] in *. now subst.
Qed.

(** What a successful run of the body of [read_pdf_text] returns. *)
Lemma read_pdf_text_result_spec (path : string) (is_temp : bool)
    (url : option string) (page_range : option dict) (result : dict) :
  read_pdf_text_result w path is_temp url page_range = Ok result ->
  exists doc start_page end_page texts,
    fitz_open w (path_str w path) = Ok doc
    /\ get_page_range (Z.of_nat (List.length (doc_pages doc))) page_range
       = Ok (PInt start_page, PInt end_page)
    /\ 0 <= start_page
    /\ let page_nums := py_range start_page (end_page + 1) in
       Forall2 (page_has_text doc) page_nums texts
       /\ dict_get "success" result = Some (PBool true)
       /\ dict_get "total_pages" result
          = Some (PInt (Z.of_nat (List.length (doc_pages doc))))
       /\ dict_get "pages_processed" result
          = Some (PStr (pages_processed start_page end_page))
       /\ dict_get "pages_text" result
          = Some (PList (map page_entry (combine page_nums texts)))
       /\ dict_get "combined_text" result
          = Some (PStr (Str.strip (joined_lines texts)))
       /\ dict_get "total_word_count" result
          = Some (PInt (Zsum (map word_count texts)))
       /\ dict_get "total_character_count" result
          = Some (PInt (Zsum (map (fun t => len t + 1) texts))).
Proof.
  unfold read_pdf_text_result. intros H.
  destruct (fitz_open w (path_str w path)) as [doc |]; cbn [exc_bind] in H;
    [| discriminate].
  destruct (get_page_range _ page_range) as [range |] eqn:Er;
    cbn [exc_bind] in H; [| discriminate].
  destruct (as_index (fst range)) as [a |] eqn:Ea; cbn [exc_bind] in H;
    [| discriminate].
  destruct (as_index (snd range)) as [b |] eqn:Eb; cbn [exc_bind] in H;
    [| discriminate].
  pose proof (start_page_nonneg _ _ _ _ Er Ea) as Ha.
  pose proof (page_range_ints _ _ _ _ _ Er Ea Eb) as ->.
  destruct (read_pages w doc (py_range a (b + 1)) [] EmptyString) as [r |] eqn:Ep;
    cbn [exc_bind] in H; [| discriminate].
  injection H as <-.
  destruct (read_pages_spec doc _ (py_range_nonneg a (b + 1) Ha) [] r Ep)
    as (texts & HF & ->).
  cbn [app map fst snd] in *.
  exists doc, a, b, texts. split; [reflexivity |]. split; [exact Er |].
  split; [exact Ha |]. cbn zeta. split; [exact HF |].
  split; [reflexivity |]. split; [reflexivity |]. split; [reflexivity |].
  split; [reflexivity |]. split; [reflexivity |].
  cbn [dict_get String.eqb Ascii.eqb Bool.eqb].
  now rewrite word_count_lines, len_lines.
Qed.

Lemma failure_has_no_success (e : string) (file_path url : option string) :
  dict_get "success" (failure e file_path url) = Some (PBool false).
Proof. reflexivity. Qed.

(** X27. A result of [read_pdf_text] that succeeds. The path was found
    or downloaded, the document is the one that [fitz.open] gives for
    it, and the page range is the one that [get_page_range] gives for
    this document: a pair of integers whose first is not negative. The
    entries of [pages_text] are the pages of that range in order, each
    with its 1-based number, the text of that page of the document and
    its word count; [total_word_count] is the sum of the word counts of
    these pages, [total_character_count] is the sum of their lengths
    plus one line feed each, and [combined_text] is the texts, each
    followed by a line feed, stripped. *)
Theorem read_pdf_text_pages (file_path url : option string)
    (page_range : option dict) (s s' : sstate) (result : dict) :
  read_pdf_text w file_path url page_range s = (result, s') ->
  dict_get "success" result = Some (PBool true) ->
  exists path is_temp s1 doc start_page end_page texts,
    get_pdf_path_or_download w file_path url s = (Ok (path, is_temp), s1)
    /\ fitz_open w (path_str w path) = Ok doc
    /\ get_page_range (Z.of_nat (List.length (doc_pages doc))) page_range
       = Ok (PInt start_page, PInt end_page)
    /\ 0 <= start_page
    /\ let page_nums := py_range start_page (end_page + 1) in
       Forall2 (page_has_text doc) page_nums texts
       /\ dict_get "total_pages" result
          = Some (PInt (Z.of_nat (List.length (doc_pages doc))))
       /\ dict_get "pages_processed" result
          = Some (PStr (pages_processed start_page end_page))
       /\ dict_get "pages_text" result
          = Some (PList (map page_entry (combine page_nums texts)))
       /\ dict_get "combined_text" result
          = Some (PStr (Str.strip (joined_lines texts)))
       /\ dict_get "total_word_count" result
          = Some (PInt (Zsum (map word_count texts)))
       /\ dict_get "total_character_count" result
          = Some (PInt (Zsum (map (fun t => len t + 1) texts))).
Proof.
  intros H Hs. unfold read_pdf_text in H.
  destruct (tool_cases w file_path url
              (fun path is_temp =>
                 read_pdf_text_result w path is_temp url page_range) s)
    as [(e & s1 & _ & E) | (path & is_temp & s1 & Hget & E)];
    rewrite E in H; injection H as <- <-.
  - rewrite failure_has_no_success in Hs. discriminate.
  - destruct (read_pdf_text_result w path is_temp url page_range) as [r | e]
      eqn:Er.
    2: { rewrite failure_has_no_success in Hs. discriminate. }
    destruct (read_pdf_text_result_spec _ _ _ _ _ Er)
      as (doc & a & b & texts & Hopen & Hrange & Ha & HF & _ & H1 & H2 & H3
          & H4 & H5 & H6).
    exists path, is_temp, s1, doc, a, b, texts. cbn zeta. auto 15.
Qed.

(** X28. A document without pages. Without a page range
    [read_pdf_text] succeeds with no entry and reports the pages ["1-0"];
    with a page range given as a dictionary of integers it asks for
    page 0, which is not in the document, and returns a failure with the
    message of that [IndexError]. *)
Theorem read_pdf_text_empty_document (file_path url : option string)
    (s s1 : sstate) (path : string) (is_temp : bool) (doc : document) :
  get_pdf_path_or_download w file_path url s = (Ok (path, is_temp), s1) ->
  fitz_open w (path_str w path) = Ok doc ->
  doc_pages doc = [] ->
  (let result := fst (read_pdf_text w file_path url None s) in
   dict_get "success" result = Some (PBool true)
   /\ dict_get "pages_text" result = Some (PList [])
   /\ dict_get "pages_processed" result = Some (PStr "1-0")
   /\ dict_get "total_word_count" result = Some (PInt 0))
  /\ (forall pr, int_page_range (Some pr) ->
        fst (read_pdf_text w file_path url (Some pr) s)
        = failure (index_error w 0) file_path url).
Proof.
  intros Hget Hopen Hempty. unfold read_pdf_text, tool. rewrite Hget.
  split.
  - cbn zeta. unfold read_pdf_text_result. rewrite Hopen. cbn [exc_bind].
    rewrite Hempty. cbn. repeat split.
  - intros pr [Hs He]. unfold read_pdf_text_result. rewrite Hopen.
    cbn [exc_bind]. rewrite Hempty. cbn [List.length Z.of_nat].
    assert (exists a, dict_get_default "start" (PInt 1) pr = PInt a) as [a Ea].
    { unfold dict_get_default. destruct Hs as [-> | [z ->]]; eauto. }
    assert (exists b, dict_get_default "end" (PInt 0) pr = PInt b) as [b Eb].
    { unfold dict_get_default. destruct He as [-> | [z ->]]; eauto. }
    rewrite (get_page_range_values 0 pr a b Ea Eb). cbn [exc_bind fst snd as_index].
    replace (Z.max 0 (Z.min (a - 1) (0 - 1))) with 0 by lia.
    replace (Z.max 0 (Z.min (b - 1) (0 - 1))) with 0 by lia.
    change (py_range 0 (0 + 1)) with [0]. cbn [read_pages].
    rewrite doc_getitem_outside by (rewrite Hempty; cbn; lia).
    reflexivity.
Qed.

End PdfText.

(* ----------------------------------------------------------------- *)
(** ** The structure of a document *)

Section PdfStructure.
Import Server Pdf PdfDemo Terms PdfTerms.

Variable w : pdf_world.

Lemma structure_pages_spec (doc : document) (page_nums : list Z) :
  forall (c : counters) (details : list pyval) (n : Z)
         (r : counters * list pyval),
    structure_pages w doc page_nums c details = Ok r ->
    counts_ok c n ->
    counts_ok (fst r) (n + Z.of_nat (List.length page_nums))
    /\ List.length (snd r)
       = (List.length details + List.length page_nums)%nat.
Proof.
  induction page_nums as [| i page_nums IH]; intros c details n r H Hc.
  - cbn [structure_pages] in H. injection H as <-. cbn [fst snd List.length].
    rewrite Z.add_0_r, Nat.add_0_r. auto.
  - cbn [structure_pages] in H.
    destruct (doc_getitem w doc i) as [p |]; cbn [exc_bind] in H;
      [| discriminate].
    destruct (get_text_blocks p) as [blocks |]; cbn [exc_bind] in H;
      [| discriminate].
    destruct (get_images p) as [images |]; cbn [exc_bind] in H;
      [| discriminate].
    destruct (get_text p) as [raw |]; cbn [exc_bind] in H; [| discriminate].
    cbn zeta in H.
    set (has_text := Analyzer.nonempty (Str.strip raw)) in H.
    set (has_images := 0 <? Z.of_nat (List.length images)) in H.
    assert (forall c', counts_ok c' (n + 1) ->
              forall details',
                structure_pages w doc page_nums c'
                  (details ++ [details'])%list = Ok r ->
                counts_ok (fst r) (n + Z.of_nat (List.length (i :: page_nums)))
                /\ List.length (snd r)
                   = (List.length details + List.length (i :: page_nums))%nat)
      as Hstep.
    { intros c' Hc' d' H'. destruct (IH _ _ _ _ H' Hc') as [H1 H2].
      split.
      - cbn [List.length]. now replace (n + Z.of_nat (S (List.length page_nums)))
          with (n + 1 + Z.of_nat (List.length page_nums)) by lia.
      - rewrite H2, length_app. cbn [List.length]. lia. }
    destruct Hc as (H1 & H2 & H3 & H4 & H5 & H6).
    destruct has_text, has_images; cbn [andb] in H;
      (eapply Hstep; [| exact H]);
      unfold counts_ok, bump, counter_eqb; cbn; lia.
Qed.

Lemma rounded_ratio_ok (a n : Z) (v : pyval) :
  rounded_ratio a n = Ok v -> n <> 0.
Proof.
  unfold rounded_ratio. destruct (Z.eqb_spec n 0); [discriminate | auto].
Qed.

(** X29. A result of [analyze_pdf_structure] that succeeds: the document
    has at least one page and one entry of [page_details] per page; the
    pages with text are the text-only and the mixed pages, the pages
    with images are the images-only and the mixed pages, and the
    text-only, images-only, mixed and empty pages add up to the number
    of pages, none of these counts being negative. *)
Theorem structure_counters_consistent (file_path url : option string)
    (s s' : sstate) (result : dict) :
  analyze_pdf_structure w file_path url s = (result, s') ->
  dict_get "success" result = Some (PBool true) ->
  exists n wt wi to io mx ep summary details,
    nested_int "document_structure" "total_pages" result = Some n
    /\ nested_int "content_analysis" "pages_with_text" result = Some wt
    /\ nested_int "content_analysis" "pages_with_images" result = Some wi
    /\ nested_int "content_analysis" "pages_text_only" result = Some to
    /\ nested_int "content_analysis" "pages_images_only" result = Some io
    /\ nested_int "content_analysis" "pages_mixed_content" result = Some mx
    /\ dict_get "summary" result = Some (PDict summary)
    /\ nested_int "content_distribution" "empty_pages" summary = Some ep
    /\ dict_get "page_details" result = Some (PList details)
    /\ Z.of_nat (List.length details) = n
    /\ 1 <= n
    /\ wt = to + mx /\ wi = io + mx
    /\ to + io + mx + ep = n
    /\ 0 <= to /\ 0 <= io /\ 0 <= mx /\ 0 <= ep.
Proof.
  intros H Hs. unfold analyze_pdf_structure in H.
  destruct (tool_cases w file_path url
              (fun path is_temp =>
                 analyze_pdf_structure_result w path is_temp url) s)
    as [(e & s1 & _ & E) | (path & is_temp & s1 & _ & E)];
    rewrite E in H; injection H as <- <-.
  { rewrite failure_has_no_success in Hs. discriminate. }
  unfold analyze_pdf_structure_result in *.
  destruct (fitz_open w (path_str w path)) as [doc |]; cbn [exc_bind] in *.
  2: { rewrite failure_has_no_success in Hs. discriminate. }
  destruct (pdf_version doc) as [version |]; cbn [exc_bind] in *.
  2: { rewrite failure_has_no_success in Hs. discriminate. }
  set (n := Z.of_nat (List.length (doc_pages doc))) in *.
  destruct (structure_pages w doc (py_range 0 n) no_counts []) as [r |] eqn:Er;
    cbn [exc_bind] in *.
  2: { rewrite failure_has_no_success in Hs. discriminate. }
  destruct (rounded_ratio (fst r total_images) n) as [v1 |] eqn:E1;
    cbn [exc_bind] in *.
  2: { rewrite failure_has_no_success in Hs. discriminate. }
  destruct (rounded_ratio (fst r total_text_blocks) n) as [v2 |];
    cbn [exc_bind] in *.
  2: { rewrite failure_has_no_success in Hs. discriminate. }
  apply rounded_ratio_ok in E1.
  assert (counts_ok no_counts 0) as H0 by (unfold counts_ok, no_counts; lia).
  destruct (structure_pages_spec doc _ _ _ _ _ Er H0) as [Hc Hlen].
  assert (List.length (py_range 0 n) = List.length (doc_pages doc)) as Hr.
  { unfold py_range. rewrite length_map, length_seq. subst n. lia. }
  rewrite Hr in Hc, Hlen. cbn [List.length Nat.add] in Hlen.
  fold n in Hc. rewrite Z.add_0_l in Hc.
  destruct Hc as (H1 & H2 & H3 & H4 & H5 & H6).
  eexists n, _, _, _, _, _, _, _, _.
  repeat (split; [reflexivity |]).
  split; [now rewrite Hlen |].
  split; [lia |]. split; [exact H1 |]. split; [exact H2 |].
  split; [lia |]. repeat split; lia.
Qed.

(** X30. A document without pages: [analyze_pdf_structure] fails, with
    the message of the division by zero of line 656, although the
    document could be opened. *)
Theorem structure_of_empty_document_fails (file_path url : option string)
    (s s1 : sstate) (path : string) (is_temp : bool) (doc : document)
    (version : pyval) :
  get_pdf_path_or_download w file_path url s = (Ok (path, is_temp), s1) ->
  fitz_open w (path_str w path) = Ok doc ->
  doc_pages doc = [] ->
  pdf_version doc = Ok version ->
  fst (analyze_pdf_structure w file_path url s)
  = failure "division by zero" file_path url.
Proof.
  intros Hget Hopen Hempty Hv. unfold analyze_pdf_structure, tool.
  rewrite Hget. unfold analyze_pdf_structure_result.
  rewrite Hopen. cbn [exc_bind]. rewrite Hv, Hempty. reflexivity.
Qed.

End PdfStructure.

Section PdfRuns.
Import Server Pdf PdfDemo Terms PdfTerms.

Lemma path_or_download_checks_witness :
  get_pdf_path_or_download (pdf_world_of two_pages) (Some "report.pdf") None
    no_temp = (Ok ("report.pdf", false), no_temp)
  /\ validate_file_path (pdf_world_of two_pages) "report.pdf" = Ok "report.pdf".
Proof.
  assert (get_pdf_path_or_download (pdf_world_of two_pages) (Some "report.pdf")
            None no_temp = (Ok ("report.pdf", false), no_temp)) as E
    by reflexivity.
  split; [exact E |].
  destruct (path_or_download_checks (pdf_world_of two_pages) _ _ _ _ _ _ E)
    as [(_ & _ & _ & _ & _ & _ & Hv & _) | (Ht & _)];
    [exact Hv | discriminate Ht].
Defined.

Lemma download_failure_is_reported_witness :
  read_pdf_text offline_world None (Some "https://example.org/a.pdf") None
    no_temp
  = (failure "HTTP error downloading PDF: 404 - Not Found" None
       (Some "https://example.org/a.pdf"), no_temp).
Proof.
  apply (download_failure_is_reported offline_world None
           (Some "https://example.org/a.pdf") None 404 "Not Found" no_temp);
    reflexivity.
Defined.

Lemma temp_file_is_removed_witness :
  temp_files
    (snd (read_pdf_text (pdf_world_of two_pages) None
            (Some "https://example.org/a.pdf") None no_temp))
  = temp_files no_temp.
Proof.
  apply (temp_file_is_removed (pdf_world_of two_pages) None
           (Some "https://example.org/a.pdf") None no_temp "%PDF"
           "/tmp/tmp0.pdf");
    try reflexivity. intros [].
Defined.

Lemma failed_write_leaves_temp_file_witness :
  In "/tmp/tmp0.pdf"
    (temp_files
       (snd (read_pdf_text full_disk_world None
               (Some "https://example.org/a.pdf") None no_temp))).
Proof.
  apply (failed_write_leaves_temp_file full_disk_world None
           (Some "https://example.org/a.pdf") None no_temp "%PDF"
           "/tmp/tmp0.pdf" "No space left on device");
    reflexivity.
Defined.

Lemma read_pdf_text_pages_witness :
  exists result s' doc start_page end_page texts,
    read_pdf_text (pdf_world_of two_pages) (Some "report.pdf") None None
      no_temp = (result, s')
    /\ fitz_open (pdf_world_of two_pages) "report.pdf" = Ok doc
    /\ get_page_range (Z.of_nat (List.length (doc_pages doc))) None
       = Ok (PInt start_page, PInt end_page)
    /\ Forall2 (page_has_text doc) (py_range start_page (end_page + 1)) texts
    /\ dict_get "pages_text" result
       = Some (PList (map page_entry
                        (combine (py_range start_page (end_page + 1)) texts)))
    /\ dict_get "total_word_count" result
       = Some (PInt (Zsum (map word_count texts))).
Proof.
  eexists _, _.
  assert (read_pdf_text (pdf_world_of two_pages) (Some "report.pdf") None None
            no_temp = (?[r], ?[s])) as E by (vm_compute; reflexivity).
  destruct (read_pdf_text_pages (pdf_world_of two_pages) _ _ _ _ _ _ E eq_refl)
    as (path & is_temp & s1 & doc & a & b & texts & Hget & Hopen & Hrange & _
        & H).
  cbn zeta in H. injection Hget as <- <- <-.
  destruct H as (HF & _ & _ & Hp & _ & Hw & _).
  exists doc, a, b, texts.
  split; [exact E |]. split; [exact Hopen |]. split; [exact Hrange |].
  split; [exact HF |]. split; [exact Hp | exact Hw].
Defined.

Lemma read_pdf_text_empty_document_witness :
  fst (read_pdf_text (pdf_world_of []) (Some "report.pdf") None
         (Some [("start", PInt 1)]) no_temp)
  = failure "page not in document" (Some "report.pdf") None.
Proof.
  apply (read_pdf_text_empty_document (pdf_world_of []) (Some "report.pdf")
           None no_temp no_temp "report.pdf" false (doc_of []));
    try reflexivity.
  split; [right; eexists; reflexivity | left; reflexivity].
Defined.

Lemma structure_counters_consistent_witness :
  exists result s' n ep summary,
    analyze_pdf_structure (pdf_world_of two_pages) (Some "report.pdf") None
      no_temp = (result, s')
    /\ nested_int "document_structure" "total_pages" result = Some n
    /\ dict_get "summary" result = Some (PDict summary)
    /\ nested_int "content_distribution" "empty_pages" summary = Some ep
    /\ 1 <= n /\ 0 <= ep.
Proof.
  eexists _, _.
  assert (analyze_pdf_structure (pdf_world_of two_pages) (Some "report.pdf")
            None no_temp = (?[r], ?[s])) as E by (vm_compute; reflexivity).
  destruct (structure_counters_consistent (pdf_world_of two_pages) _ _ _ _ _ E
              eq_refl)
    as (n & wt & wi & to & io & mx & ep & summary & details & H).
  exists n, ep, summary. split; [exact E |].
  destruct H as (H1 & _ & _ & _ & _ & _ & H2 & H3 & _ & _ & H4 & _ & _ & _ & _
                 & _ & _ & H5).
  auto.
Defined.

Lemma structure_of_empty_document_fails_witness :
  fst (analyze_pdf_structure (pdf_world_of []) (Some "report.pdf") None no_temp)
  = failure "division by zero" (Some "report.pdf") None.
Proof.
  apply (structure_of_empty_document_fails (pdf_world_of []) (Some "report.pdf")
           None no_temp no_temp "report.pdf" false (doc_of [])
           (PStr "unknown"));
    reflexivity.
Defined.

End PdfRuns.
